(** * ExternalMediaPlayer: directive dispatch, focus arbitration, state aggregation

    A shallow embedding of
    [CapabilityAgents/ExternalMediaPlayer/src/ExternalMediaPlayer.cpp]
    (AVS Device SDK 1.13).  The capability agent is a C++ object whose member
    functions mutate its fields and call out to collaborators (registry
    adapters, adapter handlers, the focus manager, the directive result, the
    exception sender, the logger).  Here

    - the object is the record [EMP], passed explicitly;
    - every outward call is an [Event]; a member function returns the new
      object together with the list of events it produced, in program order;
    - [m_executor.submit(lambda)] appends a defunctionalised [Task] to the
      queue [m_executor]; [runTask] is the body of the lambda;
    - the preprocessor symbol [EXTERNALMEDIAPLAYER_1_1] is a boolean of the
      model, so both builds of the file are covered;
    - what the file only uses but does not define (rapidjson, [jsonUtils],
      [AdapterUtils], header constants, what adapters report) is collected in
      the class [Externals]. *)

From Stdlib Require Import ZArith List Bool Lia.
From stdpp Require Import base gmap sets list strings.

Local Open Scope string_scope.
Local Open Scope list_scope.
Local Open Scope Z_scope.

(** ** Enumerations *)

Module FocusState.
Inductive t := FOREGROUND | BACKGROUND | NONE.
#[global] Instance FocusState_eq_dec : EqDecision t.
Proof. solve_decision. Defined.
End FocusState.

Module PlayerActivity.
Inductive t := IDLE | PLAYING | STOPPED | PAUSED | BUFFER_UNDERRUN | FINISHED.
#[global] Instance PlayerActivity_eq_dec : EqDecision t.
Proof. solve_decision. Defined.
End PlayerActivity.

Module HaltInitiator.
Inductive t := NONE | FOCUS_CHANGE_PAUSE | FOCUS_CHANGE_STOP | EXTERNAL_PAUSE.
#[global] Instance HaltInitiator_eq_dec : EqDecision t.
Proof. solve_decision. Defined.
End HaltInitiator.

(** The enumerators of [RequestType] that the file mentions (the enum itself
    is declared in ExternalMediaAdapterInterface.h). *)
Module RequestType.
Inductive t :=
| NONE | LOGIN | LOGOUT | PLAY | RESUME | PAUSE | STOP | PAUSE_RESUME_TOGGLE
| NEXT | PREVIOUS | START_OVER | FAST_FORWARD | REWIND
| ENABLE_REPEAT_ONE | ENABLE_REPEAT | DISABLE_REPEAT
| ENABLE_SHUFFLE | DISABLE_SHUFFLE
| FAVORITE | DESELECT_FAVORITE | UNFAVORITE | DESELECT_UNFAVORITE
| SEEK | ADJUST_SEEK.
#[global] Instance RequestType_eq_dec : EqDecision t.
Proof. solve_decision. Defined.
End RequestType.

Module ExceptionErrorType.
Inductive t := UNEXPECTED_INFORMATION_RECEIVED | UNSUPPORTED_OPERATION | INTERNAL_ERROR.
#[global] Instance ExceptionErrorType_eq_dec : EqDecision t.
Proof. solve_decision. Defined.
End ExceptionErrorType.

Module LogLevel.
Inductive t := ERROR | WARN.
#[global] Instance LogLevel_eq_dec : EqDecision t.
Proof. solve_decision. Defined.
End LogLevel.

(** ** Object identities

    [std::shared_ptr]s are compared by address; an adapter, an adapter
    handler, an observer and a directive result are each an address. *)

Definition Adapter := positive.
Definition Handler := positive.
Definition Observer := positive.
Definition Result := positive.

(** ** What adapters report *)

(** The fields of [AdapterSessionState] and [AdapterPlaybackState] read by
    this file. *)
Record AdapterSessionState := {
  ss_playerId : string;
  ss_loggedIn : bool;
  ss_userName : string
}.

Record AdapterPlaybackState := {
  ps_playerId : string;
  ps_state : string;
  ps_trackName : string
}.

Record AdapterState := {
  sessionState : AdapterSessionState;
  playbackState : AdapterPlaybackState
}.

(** A member of a [rapidjson] object under construction: a string, a value
    built elsewhere, or an array of such values. *)
Inductive Member (B : Type) :=
| MString (s : string)
| MBlock (b : B)
| MArray (l : list B).
Arguments MString {B} s.
Arguments MBlock {B} b.
Arguments MArray {B} l.

Definition NamespaceAndName : Type := string * string.

(** ** Collaborators and declarations outside the file *)

Class Externals := {
  (** the text of a directive payload, and a parsed [rapidjson::Document] *)
  Payload : Type;
  Document : Type;
  (** [Document::Parse]: the parsed document, or nothing on a parse error *)
  Parse : Payload -> option Document;
  (** [rapidjson::GetParseError_En] of a text that does not parse *)
  parseErrorReason : Payload -> string;
  (** [jsonUtils::retrieveValue] at [std::string], [int64_t] and [bool] *)
  retrieveString : Document -> string -> option string;
  retrieveInt64 : Document -> string -> option Z;
  retrieveBool : Document -> string -> option bool;
  (** header constants *)
  USERNAME : string;
  POSITIONINMS : string;
  SPI_VERSION : string;
  SPI_VERSION_DEFAULT : string;
  AGENT : string;
  AGENT_DEFAULT : string;
  CONTENT_CHANNEL_NAME : string;
  (** the default of the third argument of
      [sendExceptionEncounteredAndReportFailed] *)
  defaultExceptionErrorType : ExceptionErrorType.t;
  (** [ExternalMediaAdapterInterface::getState] and
      [ExternalMediaAdapterHandlerInterface::getAdapterStates] *)
  getState : Adapter -> AdapterState;
  getAdapterStates : Handler -> list AdapterState;
  (** [AdapterUtils]: the JSON blocks, and the serialised document *)
  JsonBlock : Type;
  buildSessionState : AdapterSessionState -> JsonBlock;
  buildPlaybackState : AdapterPlaybackState -> JsonBlock;
  (** [buildDefaultPlayerState]: the members it adds, or nothing when it
      reports failure *)
  buildDefaultPlayerState : option (list (string * Member JsonBlock));
  (** [Document::Accept] on a [Writer]: the text, or nothing when the writer
      refuses the document *)
  serialize : list (string * Member JsonBlock) -> option string;
  (** whether [ContextManagerInterface::setState] answers [SUCCESS] *)
  setStateSucceeds : NamespaceAndName -> string -> option nat -> bool;
}.

(** Modelled from the spec: [PLAYER_ID] is declared in
    ExternalMediaAdapterConstants.h, which is not part of the sources at
    hand; the spec names the required payload field [playerId]. *)
Definition PLAYER_ID : string := "playerId".

Definition PLAYERS : string := "players".
Definition PLAYER_IN_FOCUS : string := "playerInFocus".

Definition MAX_PAST_OFFSET : Z := -86400000.
Definition MAX_FUTURE_OFFSET : Z := 86400000.

Definition FOCUS_MANAGER_ACTIVITY_ID : string := "ExternalMediaPlayer".

Definition EXTERNALMEDIAPLAYER_NAMESPACE : string := "ExternalMediaPlayer".
Definition PLAYBACKCONTROLLER_NAMESPACE : string := "Alexa.PlaybackController".
Definition PLAYLISTCONTROLLER_NAMESPACE : string := "Alexa.PlaylistController".
Definition SEEKCONTROLLER_NAMESPACE : string := "Alexa.SeekController".
Definition FAVORITESCONTROLLER_NAMESPACE : string := "Alexa.FavoritesController".

Definition EXTERNALMEDIAPLAYER_STATE_NAMESPACE : string := "ExternalMediaPlayer".
Definition PLAYBACKSTATEREPORTER_STATE_NAMESPACE : string := "Alexa.PlaybackStateReporter".
Definition EXTERNALMEDIAPLAYER_NAME : string := "ExternalMediaPlayerState".
Definition PLAYBACKSTATEREPORTER_NAME : string := "playbackState".

Definition SESSION_STATE : NamespaceAndName :=
  (EXTERNALMEDIAPLAYER_STATE_NAMESPACE, EXTERNALMEDIAPLAYER_NAME).
Definition PLAYBACK_STATE : NamespaceAndName :=
  (PLAYBACKSTATEREPORTER_STATE_NAMESPACE, PLAYBACKSTATEREPORTER_NAME).

(** ** Directives *)

Record AVSDirective `{Externals} := {
  getNamespace : string;
  getName : string;
  getPayload : Payload;
  getMessageId : string;
  getUnparsedDirective : string
}.

(** [DirectiveInfo]: the directive and the result handle, which is null for a
    directive handled immediately.  [handleDirective] dereferences
    [info->directive] before anything else, so inside the handlers the
    directive is never null. *)
Record DirectiveInfo `{Externals} := {
  directive : AVSDirective;
  result : option Result
}.

(** ** Outward calls *)

Module AdapterCall.
Inductive t :=
| handleLogin (accessToken userName : string) (forceLogin : bool) (refreshInterval : Z)
| handleLogout
| handlePlay (playContextToken : string) (index offset : Z)
| handlePlay_1_1 (playContextToken : string) (index offset : Z)
    (skillToken playbackSessionId navigation : string) (preload : bool)
| handlePlayControl (request : RequestType.t)
| handleSeek (position : Z)
| handleAdjustSeek (deltaPosition : Z).
End AdapterCall.

Module HandlerCall.
Inductive t `{Externals} :=
| authorizeDiscoveredPlayers (payload : Payload)
| login (payload : Payload)
| logout (payload : Payload)
| play (payload : Payload)
| playControl (payload : Payload) (request : RequestType.t)
| playControlForPlayer (playerId : string) (request : RequestType.t)
| seek (payload : Payload)
| adjustSeek (payload : Payload).
End HandlerCall.

Inductive Event `{Externals} :=
| EvLog (level : LogLevel.t) (event reason : string)
| EvSendExceptionEncountered (unparsedDirective : string)
    (type : ExceptionErrorType.t) (message : string)
| EvSetCompleted (r : Result)
| EvSetFailed (r : Result) (description : string)
| EvRemoveDirective (messageId : string)
| EvAdapter (a : Adapter) (c : AdapterCall.t)
| EvHandler (h : Handler) (c : HandlerCall.t)
| EvAcquireChannel (channel activityId : string)
| EvReleaseChannel (channel : string)
| EvPlaybackRouterSetHandler
| EvNotifyAll
| EvLoginStateProvided (o : Observer) (playerId : string) (loggedIn : bool) (userName : string)
| EvPlaybackStateProvided (o : Observer) (playerId state trackName : string)
| EvSetState (name : NamespaceAndName) (state : string) (token : option nat).

(** The lambdas handed to [m_executor.submit], one constructor per lambda,
    carrying what the lambda captures. *)
Inductive Task `{Externals} :=
| TaskAddAdapterHandler (h : Handler)
| TaskRemoveAdapterHandler (h : Handler)
| TaskOnFocusChanged (newFocus : FocusState.t)
| TaskAuthorizeDiscoveredPlayers (info : DirectiveInfo)
| TaskLogin (info : DirectiveInfo)
| TaskLogout (info : DirectiveInfo)
| TaskPlay (info : DirectiveInfo)
| TaskSeek (info : DirectiveInfo)
| TaskAdjustSeek (info : DirectiveInfo)
| TaskPlayControl (info : DirectiveInfo) (request : RequestType.t)
| TaskProvideState (name : NamespaceAndName) (token : nat)
| TaskButtonPressed (request : RequestType.t)
| TaskTogglePressed (action : bool) (toggleStates : RequestType.t * RequestType.t).

(** ** The object *)

Record EMP `{Externals} := {
  m_adapters : gmap string (option Adapter);
  m_adapterHandlers : gset Handler;
  m_observers : gset Observer;
  m_playerInFocus : string;
  m_focus : FocusState.t;
  m_focusAcquireInProgress : bool;
  m_haltInitiator : HaltInitiator.t;
  m_currentActivity : PlayerActivity.t;
  m_executor : list Task
}.

Section Setters.
Context `{Externals}.

Definition set_adapterHandlers (x : gset Handler) (s : EMP) : EMP :=
  {| m_adapters := m_adapters s; m_adapterHandlers := x;
     m_observers := m_observers s; m_playerInFocus := m_playerInFocus s;
     m_focus := m_focus s;
     m_focusAcquireInProgress := m_focusAcquireInProgress s;
     m_haltInitiator := m_haltInitiator s;
     m_currentActivity := m_currentActivity s; m_executor := m_executor s |}.

Definition set_playerInFocus (x : string) (s : EMP) : EMP :=
  {| m_adapters := m_adapters s; m_adapterHandlers := m_adapterHandlers s;
     m_observers := m_observers s; m_playerInFocus := x;
     m_focus := m_focus s;
     m_focusAcquireInProgress := m_focusAcquireInProgress s;
     m_haltInitiator := m_haltInitiator s;
     m_currentActivity := m_currentActivity s; m_executor := m_executor s |}.

Definition set_focus (x : FocusState.t) (s : EMP) : EMP :=
  {| m_adapters := m_adapters s; m_adapterHandlers := m_adapterHandlers s;
     m_observers := m_observers s; m_playerInFocus := m_playerInFocus s;
     m_focus := x;
     m_focusAcquireInProgress := m_focusAcquireInProgress s;
     m_haltInitiator := m_haltInitiator s;
     m_currentActivity := m_currentActivity s; m_executor := m_executor s |}.

Definition set_focusAcquireInProgress (x : bool) (s : EMP) : EMP :=
  {| m_adapters := m_adapters s; m_adapterHandlers := m_adapterHandlers s;
     m_observers := m_observers s; m_playerInFocus := m_playerInFocus s;
     m_focus := m_focus s;
     m_focusAcquireInProgress := x;
     m_haltInitiator := m_haltInitiator s;
     m_currentActivity := m_currentActivity s; m_executor := m_executor s |}.

Definition set_haltInitiator (x : HaltInitiator.t) (s : EMP) : EMP :=
  {| m_adapters := m_adapters s; m_adapterHandlers := m_adapterHandlers s;
     m_observers := m_observers s; m_playerInFocus := m_playerInFocus s;
     m_focus := m_focus s;
     m_focusAcquireInProgress := m_focusAcquireInProgress s;
     m_haltInitiator := x;
     m_currentActivity := m_currentActivity s; m_executor := m_executor s |}.

Definition set_currentActivity (x : PlayerActivity.t) (s : EMP) : EMP :=
  {| m_adapters := m_adapters s; m_adapterHandlers := m_adapterHandlers s;
     m_observers := m_observers s; m_playerInFocus := m_playerInFocus s;
     m_focus := m_focus s;
     m_focusAcquireInProgress := m_focusAcquireInProgress s;
     m_haltInitiator := m_haltInitiator s;
     m_currentActivity := x; m_executor := m_executor s |}.

Definition set_executor (x : list Task) (s : EMP) : EMP :=
  {| m_adapters := m_adapters s; m_adapterHandlers := m_adapterHandlers s;
     m_observers := m_observers s; m_playerInFocus := m_playerInFocus s;
     m_focus := m_focus s;
     m_focusAcquireInProgress := m_focusAcquireInProgress s;
     m_haltInitiator := m_haltInitiator s;
     m_currentActivity := m_currentActivity s; m_executor := x |}.

(** Modelled from the spec: [m_executor.submit].  The Executor class is not
    part of the sources; the specification says that submissions are
    enqueued and executed strictly in submission order, so the task joins
    the end of the queue. *)
Definition submit (t : Task) (s : EMP) : EMP :=
  set_executor (m_executor s ++ [t]) s.

End Setters.

(** ** Member functions *)

Section Agent.
Context `{Externals}.

(** The preprocessor symbol: [true] for the build with
    [-DEXTERNALMEDIAPLAYER_1_1]. *)
Variable EXTERNALMEDIAPLAYER_1_1 : bool.

(** *** Reporting on a directive *)

Definition removeDirective (info : DirectiveInfo) : list Event :=
  match result info with
  | Some _ => [EvRemoveDirective (getMessageId (directive info))]
  | None => []
  end.

Definition setHandlingCompleted (info : DirectiveInfo) : list Event :=
  match result info with
  | Some r => [EvSetCompleted r]
  | None => []
  end ++ removeDirective info.

Definition sendExceptionEncounteredAndReportFailed
    (info : DirectiveInfo) (message : string) (type : ExceptionErrorType.t)
    : list Event :=
  [EvSendExceptionEncountered (getUnparsedDirective (directive info)) type message]
  ++ match result info with
     | Some r => [EvSetFailed r message]
     | None => []
     end
  ++ removeDirective info.

Definition parseDirectivePayload (info : DirectiveInfo)
    : option Document * list Event :=
  match Parse (getPayload (directive info)) with
  | Some document => (Some document, [])
  | None =>
      (None,
       EvLog LogLevel.ERROR "parseDirectivePayloadFailed"
             (parseErrorReason (getPayload (directive info)))
       :: sendExceptionEncounteredAndReportFailed info "Unable to parse payload"
            ExceptionErrorType.UNEXPECTED_INFORMATION_RECEIVED)
  end.

(** [preprocessDirective] returns the adapter, or null; the document is its
    out-parameter, read by the callers only when the adapter is not null. *)
Definition preprocessDirective (info : DirectiveInfo) (s : EMP)
    : option (Adapter * Document) * list Event :=
  match parseDirectivePayload info with
  | (None, ev) => (None, ev)
  | (Some document, ev) =>
      match retrieveString document PLAYER_ID with
      | None =>
          (None,
           ev ++ EvLog LogLevel.ERROR "preprocessDirectiveFailed" "nullPlayerId"
              :: sendExceptionEncounteredAndReportFailed info
                   "No PlayerId in directive." defaultExceptionErrorType)
      | Some playerId =>
          if EXTERNALMEDIAPLAYER_1_1 && bool_decide (m_adapters s = ∅)
          then (None, ev)
          else
            match m_adapters s !! playerId with
            | None =>
                (None,
                 ev ++ EvLog LogLevel.ERROR "preprocessDirectiveFailed"
                          "noAdapterForPlayerId"
                    :: sendExceptionEncounteredAndReportFailed info
                         "Unrecogonized PlayerId." defaultExceptionErrorType)
            | Some None =>
                (None,
                 ev ++ EvLog LogLevel.ERROR "preprocessDirectiveFailed"
                          "nullAdapter"
                    :: sendExceptionEncounteredAndReportFailed info
                         "nullAdapter." defaultExceptionErrorType)
            | Some (Some adapter) => (Some (adapter, document), ev)
            end
      end
  end.

(** *** Halt initiator and activity *)

Definition setHaltInitiatorRequestHelper (request : RequestType.t) (s : EMP) : EMP :=
  match request with
  | RequestType.PAUSE => set_haltInitiator HaltInitiator.EXTERNAL_PAUSE s
  | RequestType.PAUSE_RESUME_TOGGLE =>
      if bool_decide (m_currentActivity s = PlayerActivity.PLAYING)
         || (bool_decide (m_currentActivity s = PlayerActivity.PAUSED)
             && bool_decide (m_haltInitiator s = HaltInitiator.FOCUS_CHANGE_PAUSE))
      then set_haltInitiator HaltInitiator.EXTERNAL_PAUSE s
      else s
  | RequestType.PLAY | RequestType.RESUME =>
      set_haltInitiator HaltInitiator.NONE s
  | _ => s
  end.

Definition setCurrentActivity (currentActivity : PlayerActivity.t) (s : EMP)
    : EMP * list Event :=
  (set_currentActivity currentActivity s, [EvNotifyAll]).

(** [for (auto adapterHandler : m_adapterHandlers) adapterHandler->c;] *)
Definition forEachHandler (s : EMP) (c : HandlerCall.t) : list Event :=
  (fun h => EvHandler h c) <$> elements (m_adapterHandlers s).

(** *** The directive handlers *)

(** The pair that ends every rejecting branch of a handler:
    [ACSDK_ERROR(LX("handleDirectiveFailed").d("reason", reason));
     sendExceptionEncounteredAndReportFailed(info, message);] *)
Definition handleDirectiveFailed (info : DirectiveInfo) (reason message : string)
    : list Event :=
  EvLog LogLevel.ERROR "handleDirectiveFailed" reason
  :: sendExceptionEncounteredAndReportFailed info message defaultExceptionErrorType.

Definition handleAuthorizeDiscoveredPlayers
    (info : DirectiveInfo) (request : RequestType.t) (s : EMP) : EMP * list Event :=
  match parseDirectivePayload info with
  | (None, ev) => (s, ev)
  | (Some _, ev) => (submit (TaskAuthorizeDiscoveredPlayers info) s, ev)
  end.

Definition handleLogin
    (info : DirectiveInfo) (request : RequestType.t) (s : EMP) : EMP * list Event :=
  match preprocessDirective info s with
  | (None, ev) =>
      if EXTERNALMEDIAPLAYER_1_1 then (submit (TaskLogin info) s, ev) else (s, ev)
  | (Some (adapter, payload), ev) =>
      match retrieveString payload "accessToken" with
      | None =>
          (s, ev ++ handleDirectiveFailed info "nullAccessToken" "missing accessToken in Login directive")
      | Some accessToken =>
          let userName := default "" (retrieveString payload USERNAME) in
          match retrieveInt64 payload "tokenRefreshIntervalInMilliseconds" with
          | None =>
              (s, ev ++ handleDirectiveFailed info "nullRefreshInterval"
                     "missing tokenRefreshIntervalInMilliseconds in Login directive")
          | Some refreshInterval =>
              match retrieveBool payload "forceLogin" with
              | None =>
                  (s, ev ++ handleDirectiveFailed info "nullForceLogin"
                         "missing forceLogin in Login directive")
              | Some forceLogin =>
                  (s, ev ++ setHandlingCompleted info
                      ++ [EvAdapter adapter
                            (AdapterCall.handleLogin accessToken userName
                               forceLogin refreshInterval)])
              end
          end
      end
  end.

Definition handleLogout
    (info : DirectiveInfo) (request : RequestType.t) (s : EMP) : EMP * list Event :=
  match preprocessDirective info s with
  | (None, ev) =>
      if EXTERNALMEDIAPLAYER_1_1 then (submit (TaskLogout info) s, ev) else (s, ev)
  | (Some (adapter, payload), ev) =>
      (s, ev ++ setHandlingCompleted info
          ++ [EvAdapter adapter AdapterCall.handleLogout])
  end.

Definition handlePlay
    (info : DirectiveInfo) (request : RequestType.t) (s : EMP) : EMP * list Event :=
  match preprocessDirective info s with
  | (None, ev) =>
      if EXTERNALMEDIAPLAYER_1_1
      then (submit (TaskPlay info) (setHaltInitiatorRequestHelper request s), ev)
      else (s, ev)
  | (Some (adapter, payload), ev) =>
      match retrieveString payload "playbackContextToken" with
      | None =>
          (s, ev ++ handleDirectiveFailed info "nullPlaybackContextToken"
                 "missing playbackContextToken in Play directive")
      | Some playbackContextToken =>
          let offset := default 0 (retrieveInt64 payload "offsetInMilliseconds") in
          let index := default 0 (retrieveInt64 payload "index") in
          if EXTERNALMEDIAPLAYER_1_1 then
            match retrieveString payload "skillToken" with
            | None =>
                (s, ev ++ handleDirectiveFailed info "nullSkillToken"
                       "missing skillToken in Play directive")
            | Some skillToken =>
                match retrieveString payload "playbackSessionId" with
                | None =>
                    (s, ev ++ handleDirectiveFailed info "nullPlaybackSessionId"
                           "missing playbackSessionId in Play directive")
                | Some playbackSessionId =>
                    match retrieveString payload "navigation" with
                    | None =>
                        (s, ev ++ handleDirectiveFailed info "nullNavigation"
                               "missing navigation in Play directive")
                    | Some navigation =>
                        match retrieveBool payload "preload" with
                        | None =>
                            (s, ev ++ handleDirectiveFailed info "nullPreload"
                                   "missing preload in Play directive")
                        | Some preload =>
                            (s, ev ++ setHandlingCompleted info
                                ++ [EvAdapter adapter
                                      (AdapterCall.handlePlay_1_1
                                         playbackContextToken index offset
                                         skillToken playbackSessionId
                                         navigation preload)])
                        end
                    end
                end
            end
          else
            (s, ev ++ setHandlingCompleted info
                ++ [EvAdapter adapter
                      (AdapterCall.handlePlay playbackContextToken index offset)])
      end
  end.

Definition handleSeek
    (info : DirectiveInfo) (request : RequestType.t) (s : EMP) : EMP * list Event :=
  match preprocessDirective info s with
  | (None, ev) =>
      if EXTERNALMEDIAPLAYER_1_1 then (submit (TaskSeek info) s, ev) else (s, ev)
  | (Some (adapter, payload), ev) =>
      match retrieveInt64 payload POSITIONINMS with
      | None =>
          (s, ev ++ handleDirectiveFailed info "nullPosition"
                 "missing positionMilliseconds in SetSeekPosition directive")
      | Some position =>
          (s, ev ++ setHandlingCompleted info
              ++ [EvAdapter adapter (AdapterCall.handleSeek position)])
      end
  end.

Definition handleAdjustSeek
    (info : DirectiveInfo) (request : RequestType.t) (s : EMP) : EMP * list Event :=
  match preprocessDirective info s with
  | (None, ev) =>
      if EXTERNALMEDIAPLAYER_1_1 then (submit (TaskAdjustSeek info) s, ev) else (s, ev)
  | (Some (adapter, payload), ev) =>
      match retrieveInt64 payload "deltaPositionMilliseconds" with
      | None =>
          (s, ev ++ handleDirectiveFailed info "nullDeltaPositionMilliseconds"
                 "missing deltaPositionMilliseconds in AdjustSeekPosition directive")
      | Some deltaPosition =>
          if (deltaPosition <? MAX_PAST_OFFSET) || (deltaPosition >? MAX_FUTURE_OFFSET)
          then
            (s, ev ++ handleDirectiveFailed info "deltaPositionMillisecondsOutOfRange."
                   "missing deltaPositionMilliseconds in AdjustSeekPosition directive")
          else
            (s, ev ++ setHandlingCompleted info
                ++ [EvAdapter adapter (AdapterCall.handleAdjustSeek deltaPosition)])
      end
  end.

Definition handlePlayControl
    (info : DirectiveInfo) (request : RequestType.t) (s : EMP) : EMP * list Event :=
  match preprocessDirective info s with
  | (None, ev) =>
      if EXTERNALMEDIAPLAYER_1_1
      then (submit (TaskPlayControl info request)
              (setHaltInitiatorRequestHelper request s), ev)
      else (s, ev)
  | (Some (adapter, payload), ev) =>
      (s, ev ++ setHandlingCompleted info
          ++ [EvAdapter adapter (AdapterCall.handlePlayControl request)])
  end.

(** *** The dispatch table *)

(** The pointers to member functions stored in the table. *)
Inductive DirectiveHandler :=
| ptr_handleAuthorizeDiscoveredPlayers
| ptr_handleLogin
| ptr_handleLogout
| ptr_handlePlay
| ptr_handlePlayControl
| ptr_handleSeek
| ptr_handleAdjustSeek.

(** [(this->*handler)(info, request)] *)
Definition call (handler : DirectiveHandler)
    : DirectiveInfo -> RequestType.t -> EMP -> EMP * list Event :=
  match handler with
  | ptr_handleAuthorizeDiscoveredPlayers => handleAuthorizeDiscoveredPlayers
  | ptr_handleLogin => handleLogin
  | ptr_handleLogout => handleLogout
  | ptr_handlePlay => handlePlay
  | ptr_handlePlayControl => handlePlayControl
  | ptr_handleSeek => handleSeek
  | ptr_handleAdjustSeek => handleAdjustSeek
  end.

Definition directiveToHandlerList
    : list (NamespaceAndName * (RequestType.t * DirectiveHandler)) :=
  (if EXTERNALMEDIAPLAYER_1_1
   then [((EXTERNALMEDIAPLAYER_NAMESPACE, "AuthorizeDiscoveredPlayers"),
          (RequestType.NONE, ptr_handleAuthorizeDiscoveredPlayers))]
   else [])
  ++ [ ((EXTERNALMEDIAPLAYER_NAMESPACE, "Login"), (RequestType.LOGIN, ptr_handleLogin));
       ((EXTERNALMEDIAPLAYER_NAMESPACE, "Logout"), (RequestType.LOGOUT, ptr_handleLogout));
       ((EXTERNALMEDIAPLAYER_NAMESPACE, "Play"), (RequestType.PLAY, ptr_handlePlay));
       ((PLAYBACKCONTROLLER_NAMESPACE, "Pause"), (RequestType.PAUSE, ptr_handlePlayControl));
       ((PLAYBACKCONTROLLER_NAMESPACE, "Stop"), (RequestType.STOP, ptr_handlePlayControl));
       ((PLAYBACKCONTROLLER_NAMESPACE, "Play"), (RequestType.RESUME, ptr_handlePlayControl));
       ((PLAYBACKCONTROLLER_NAMESPACE, "Next"), (RequestType.NEXT, ptr_handlePlayControl));
       ((PLAYBACKCONTROLLER_NAMESPACE, "Previous"), (RequestType.PREVIOUS, ptr_handlePlayControl));
       ((PLAYBACKCONTROLLER_NAMESPACE, "StartOver"), (RequestType.START_OVER, ptr_handlePlayControl));
       ((PLAYBACKCONTROLLER_NAMESPACE, "FastForward"), (RequestType.FAST_FORWARD, ptr_handlePlayControl));
       ((PLAYBACKCONTROLLER_NAMESPACE, "Rewind"), (RequestType.REWIND, ptr_handlePlayControl));
       ((PLAYLISTCONTROLLER_NAMESPACE, "EnableRepeatOne"), (RequestType.ENABLE_REPEAT_ONE, ptr_handlePlayControl));
       ((PLAYLISTCONTROLLER_NAMESPACE, "EnableRepeat"), (RequestType.ENABLE_REPEAT, ptr_handlePlayControl));
       ((PLAYLISTCONTROLLER_NAMESPACE, "DisableRepeat"), (RequestType.DISABLE_REPEAT, ptr_handlePlayControl));
       ((PLAYLISTCONTROLLER_NAMESPACE, "EnableShuffle"), (RequestType.ENABLE_SHUFFLE, ptr_handlePlayControl));
       ((PLAYLISTCONTROLLER_NAMESPACE, "DisableShuffle"), (RequestType.DISABLE_SHUFFLE, ptr_handlePlayControl));
       ((FAVORITESCONTROLLER_NAMESPACE, "Favorite"), (RequestType.FAVORITE, ptr_handlePlayControl));
       ((FAVORITESCONTROLLER_NAMESPACE, "Unfavorite"), (RequestType.UNFAVORITE, ptr_handlePlayControl));
       ((SEEKCONTROLLER_NAMESPACE, "SetSeekPosition"), (RequestType.SEEK, ptr_handleSeek));
       ((SEEKCONTROLLER_NAMESPACE, "AdjustSeekPosition"), (RequestType.ADJUST_SEEK, ptr_handleAdjustSeek)) ].

Definition m_directiveToHandlerMap
    : gmap NamespaceAndName (RequestType.t * DirectiveHandler) :=
  list_to_map directiveToHandlerList.

Definition handleDirective (info : option DirectiveInfo) (s : EMP)
    : EMP * list Event :=
  match info with
  | None => (s, [EvLog LogLevel.ERROR "handleDirectiveFailed" "nullDirectiveInfo"])
  | Some info =>
      match m_directiveToHandlerMap
              !! (getNamespace (directive info), getName (directive info)) with
      | None =>
          (s, EvLog LogLevel.ERROR "handleDirectivesFailed"
                    "noDirectiveHandlerForDirective"
              :: sendExceptionEncounteredAndReportFailed info "Unhandled directive"
                   ExceptionErrorType.UNEXPECTED_INFORMATION_RECEIVED)
      | Some (request, handler) => call handler info request s
      end
  end.

Definition handleDirectiveImmediately (d : AVSDirective) (s : EMP)
    : EMP * list Event :=
  handleDirective (Some {| directive := d; result := None |}) s.

Definition cancelDirective (info : DirectiveInfo) : list Event :=
  removeDirective info.

(** *** Adapter handlers (1.1 build) *)

Definition addAdapterHandler (adapterHandler : option Handler) (s : EMP)
    : EMP * list Event :=
  match adapterHandler with
  | None => (s, [EvLog LogLevel.ERROR "addAdapterHandler" "Adapter handler is null."])
  | Some h => (submit (TaskAddAdapterHandler h) s, [])
  end.

Definition removeAdapterHandler (adapterHandler : option Handler) (s : EMP)
    : EMP * list Event :=
  match adapterHandler with
  | None => (s, [EvLog LogLevel.ERROR "removeAdapterHandler" "Adapter handler is null."])
  | Some h => (submit (TaskRemoveAdapterHandler h) s, [])
  end.

(** [m_adapterHandlers.insert(h).second]: the set after the insertion, and
    whether the element was new. *)
Definition set_insert (h : Handler) (X : gset Handler) : gset Handler * bool :=
  ({[h]} ∪ X, bool_decide (h ∉ X)).

(** [m_adapterHandlers.erase(h)]: the set after the removal, and how many
    elements were removed. *)
Definition set_erase (h : Handler) (X : gset Handler) : gset Handler * nat :=
  (X ∖ {[h]}, if bool_decide (h ∈ X) then 1%nat else 0%nat).

Definition addAdapterHandlerInExecutor (h : Handler) (s : EMP) : EMP * list Event :=
  let '(X, inserted) := set_insert h (m_adapterHandlers s) in
  (set_adapterHandlers X s,
   if inserted then []
   else [EvLog LogLevel.ERROR "addAdapterHandlerInExecutor" "Duplicate adapter handler."]).

Definition removeAdapterHandlerInExecutor (h : Handler) (s : EMP) : EMP * list Event :=
  let '(X, erased) := set_erase h (m_adapterHandlers s) in
  (set_adapterHandlers X s,
   if bool_decide (erased = 0%nat)
   then [EvLog LogLevel.WARN "removeAdapterHandlerInExecutor" "Nonexistent adapter handler."]
   else []).

(** *** Focus arbitration (1.1 build) *)

Definition unexpectedExecuteOnFocusChanged : list Event :=
  [EvLog LogLevel.WARN "unexpectedExecuteOnFocusChanged" ""].

Definition executeOnFocusChanged (newFocus : FocusState.t) (s : EMP)
    : EMP * list Event :=
  if bool_decide (m_focus s = newFocus)
  then (set_focusAcquireInProgress false s, [])
  else
    let s := set_focusAcquireInProgress false (set_focus newFocus s) in
    if bool_decide (m_playerInFocus s = "")
    then (s, unexpectedExecuteOnFocusChanged)
    else
      match m_adapters s !! m_playerInFocus s with
      | Some _ => (s, unexpectedExecuteOnFocusChanged)
      | None =>
          match newFocus with
          | FocusState.FOREGROUND =>
              if bool_decide (m_haltInitiator s = HaltInitiator.EXTERNAL_PAUSE)
              then (s, [])
              else
                match m_currentActivity s with
                | PlayerActivity.IDLE
                | PlayerActivity.STOPPED
                | PlayerActivity.FINISHED => (s, [])
                | PlayerActivity.PAUSED =>
                    let '(s1, ev) := setCurrentActivity PlayerActivity.PLAYING s in
                    (s1,
                     ev ++ if bool_decide (m_haltInitiator s1 ≠ HaltInitiator.NONE)
                           then forEachHandler s1
                                  (HandlerCall.playControlForPlayer
                                     (m_playerInFocus s1) RequestType.RESUME)
                           else [])
                | PlayerActivity.PLAYING
                | PlayerActivity.BUFFER_UNDERRUN =>
                    (s, unexpectedExecuteOnFocusChanged)
                end
          | FocusState.BACKGROUND =>
              match m_currentActivity s with
              | PlayerActivity.STOPPED
              | PlayerActivity.FINISHED
              | PlayerActivity.IDLE
              | PlayerActivity.PAUSED
              | PlayerActivity.PLAYING
              | PlayerActivity.BUFFER_UNDERRUN =>
                  let s0 :=
                    if bool_decide (m_haltInitiator s ≠ HaltInitiator.EXTERNAL_PAUSE)
                    then set_haltInitiator HaltInitiator.FOCUS_CHANGE_PAUSE s
                    else s in
                  let '(s1, ev) := setCurrentActivity PlayerActivity.PAUSED s0 in
                  (s1,
                   ev ++ forEachHandler s1
                           (HandlerCall.playControlForPlayer
                              (m_playerInFocus s1) RequestType.PAUSE))
              end
          | FocusState.NONE =>
              match m_currentActivity s with
              | PlayerActivity.IDLE
              | PlayerActivity.STOPPED
              | PlayerActivity.FINISHED => (s, [])
              | PlayerActivity.PLAYING
              | PlayerActivity.PAUSED
              | PlayerActivity.BUFFER_UNDERRUN =>
                  let s0 := set_haltInitiator HaltInitiator.FOCUS_CHANGE_STOP s in
                  let '(s1, ev) := setCurrentActivity PlayerActivity.STOPPED s0 in
                  (s1,
                   ev ++ forEachHandler s1
                           (HandlerCall.playControlForPlayer
                              (m_playerInFocus s1) RequestType.STOP))
              end
          end
      end.

(** [onFocusChanged] hands the reaction to the executor; the bounded wait on
    the condition variable that follows in the source is a matter of threads
    and time and has no counterpart here. *)
Definition onFocusChanged (newFocus : FocusState.t) (s : EMP) : EMP :=
  submit (TaskOnFocusChanged newFocus) s.

(** [setPlayerInFocus(playerInFocus, focusAcquire)] *)
Definition setPlayerInFocus (playerInFocus : string) (focusAcquire : bool) (s : EMP)
    : EMP * list Event :=
  if focusAcquire then
    let s1 := set_playerInFocus playerInFocus s in
    if bool_decide (m_focus s1 = FocusState.NONE)
       && bool_decide (m_focusAcquireInProgress s1 ≠ true)
    then
      (set_focusAcquireInProgress true
         (set_haltInitiator HaltInitiator.NONE
            (set_currentActivity PlayerActivity.IDLE s1)),
       [EvPlaybackRouterSetHandler;
        EvAcquireChannel CONTENT_CHANNEL_NAME FOCUS_MANAGER_ACTIVITY_ID])
    else (s1, [EvPlaybackRouterSetHandler])
  else if bool_decide (playerInFocus = m_playerInFocus s)
          && bool_decide (m_focus s ≠ FocusState.NONE)
  then (s, [EvReleaseChannel CONTENT_CHANNEL_NAME])
  else (s, []).

(** The guard of the acquisition in [setPlayerInFocus]: no focus is held and
    no acquisition is in progress. *)
Definition mayAcquire (s : EMP) : bool :=
  bool_decide (m_focus s = FocusState.NONE)
  && bool_decide (m_focusAcquireInProgress s ≠ true).

(** Successive [setPlayerInFocus(p, true)] calls, one per element, with no
    focus callback in between. *)
Fixpoint acquireForEach (players : list string) (s : EMP) : EMP * list Event :=
  match players with
  | [] => (s, [])
  | p :: players =>
      let '(s1, ev1) := setPlayerInFocus p true s in
      let '(s2, ev2) := acquireForEach players s1 in
      (s2, ev1 ++ ev2)
  end.

(** [setPlayerInFocus(playerInFocus)], the overload of both builds *)
Definition setPlayerInFocus1 (playerInFocus : string) (s : EMP) : EMP * list Event :=
  (set_playerInFocus playerInFocus s, [EvPlaybackRouterSetHandler]).

(** *** State aggregation *)

Definition notifyObservers (playerId : string)
    (sessionProperties : option (bool * string))
    (playbackProperties : option (string * string)) (s : EMP) : list Event :=
  if bool_decide (playerId = "")
  then [EvLog LogLevel.ERROR "notifyObserversFailed" "emptyPlayerId"]
  else
    flat_map
      (fun o =>
         match sessionProperties with
         | Some (loggedIn, userName) => [EvLoginStateProvided o playerId loggedIn userName]
         | None => []
         end
         ++ match playbackProperties with
            | Some (state, trackName) => [EvPlaybackStateProvided o playerId state trackName]
            | None => []
            end)
      (elements (m_observers s)).

(** The registry entries visited by [for (const auto& adapter : m_adapters)],
    null entries skipped. *)
Definition liveAdapters (s : EMP) : list Adapter :=
  omap snd (map_to_list (m_adapters s)).

(** The blocks pushed by the loop over [m_adapters]. *)
Definition sessionPlayersOfAdapters (s : EMP) : list JsonBlock :=
  (fun a => buildSessionState (sessionState (getState a))) <$> liveAdapters s.

Definition sessionNotifications (s : EMP) : list Event :=
  flat_map
    (fun a =>
       let state := sessionState (getState a) in
       notifyObservers (ss_playerId state)
         (Some (ss_loggedIn state, ss_userName state)) None s)
    (liveAdapters s).

(** The blocks pushed by the loop over [adapterStates] in
    [provideSessionState]: a state with an empty player id is skipped. *)
Definition sessionPlayersOfHandlers (adapterStates : list AdapterState)
    : list JsonBlock :=
  (fun a => buildSessionState (sessionState a))
    <$> filter (fun a => ss_playerId (sessionState a) ≠ "") adapterStates.

Definition sessionPlayers (adapterStates : list AdapterState) (s : EMP)
    : list JsonBlock :=
  sessionPlayersOfAdapters s
  ++ (if EXTERNALMEDIAPLAYER_1_1 then sessionPlayersOfHandlers adapterStates else []).

Definition provideSessionState (adapterStates : list AdapterState) (s : EMP)
    : string * list Event :=
  let state :=
    (PLAYER_IN_FOCUS, MString (m_playerInFocus s))
    :: (if EXTERNALMEDIAPLAYER_1_1
        then [(SPI_VERSION, MString SPI_VERSION_DEFAULT);
              (AGENT, MString AGENT_DEFAULT)]
        else [])
    ++ [(PLAYERS, MArray (sessionPlayers adapterStates s))] in
  match serialize state with
  | Some text => (text, sessionNotifications s)
  | None =>
      ("", sessionNotifications s
           ++ [EvLog LogLevel.ERROR "provideSessionStateFailed" "writerRefusedJsonObject"])
  end.

Definition playbackPlayersOfAdapters (s : EMP) : list JsonBlock :=
  (fun a => buildPlaybackState (playbackState (getState a))) <$> liveAdapters s.

Definition playbackNotifications (s : EMP) : list Event :=
  flat_map
    (fun a =>
       let state := playbackState (getState a) in
       notifyObservers (ps_playerId state) None
         (Some (ps_state state, ps_trackName state)) s)
    (liveAdapters s).

(** The blocks pushed by the loop over [adapterStates] in
    [providePlaybackState]: every state is pushed. *)
Definition playbackPlayersOfHandlers (adapterStates : list AdapterState)
    : list JsonBlock :=
  (fun a => buildPlaybackState (playbackState a)) <$> adapterStates.

Definition playbackPlayers (adapterStates : list AdapterState) (s : EMP)
    : list JsonBlock :=
  playbackPlayersOfAdapters s
  ++ (if EXTERNALMEDIAPLAYER_1_1 then playbackPlayersOfHandlers adapterStates else []).

Definition providePlaybackState (adapterStates : list AdapterState) (s : EMP)
    : string * list Event :=
  match buildDefaultPlayerState with
  | None => ("", [])
  | Some defaults =>
      let state := defaults ++ [(PLAYERS, MArray (playbackPlayers adapterStates s))] in
      match serialize state with
      | Some text => (text, playbackNotifications s)
      | None =>
          ("", playbackNotifications s
               ++ [EvLog LogLevel.ERROR "providePlaybackState" "writerRefusedJsonObject"])
      end
  end.

(** The [adapterStates] vector of [executeProvideState]: filled from the
    handlers when there are no registry adapters (1.1 build). *)
Definition collectAdapterStates (s : EMP) : list AdapterState :=
  if EXTERNALMEDIAPLAYER_1_1 && bool_decide (m_adapters s = ∅)
  then flat_map getAdapterStates (elements (m_adapterHandlers s))
  else [].

Definition executeProvideState (stateProviderName : NamespaceAndName)
    (sendToken : bool) (stateRequestToken : nat) (s : EMP) : list Event :=
  let adapterStates := collectAdapterStates s in
  let provided :=
    if bool_decide (stateProviderName = SESSION_STATE)
    then Some (provideSessionState adapterStates s)
    else if bool_decide (stateProviderName = PLAYBACK_STATE)
    then Some (providePlaybackState adapterStates s)
    else None in
  match provided with
  | None => [EvLog LogLevel.ERROR "executeProvideState" "unknownStateProviderName"]
  | Some (state, ev) =>
      let token := if sendToken then Some stateRequestToken else None in
      ev ++ EvSetState stateProviderName state token
         :: (if setStateSucceeds stateProviderName state token then []
             else [EvLog LogLevel.ERROR "executeProvideState"
                     "contextManagerSetStateFailedForEMPState"])
  end.

Definition provideState (stateProviderName : NamespaceAndName)
    (stateRequestToken : nat) (s : EMP) : EMP :=
  submit (TaskProvideState stateProviderName stateRequestToken) s.

(** *** The executor *)

(** The body of each submitted lambda. *)
Definition runTask (t : Task) (s : EMP) : EMP * list Event :=
  match t with
  | TaskAddAdapterHandler h => addAdapterHandlerInExecutor h s
  | TaskRemoveAdapterHandler h => removeAdapterHandlerInExecutor h s
  | TaskOnFocusChanged newFocus => executeOnFocusChanged newFocus s
  | TaskAuthorizeDiscoveredPlayers info =>
      (s, forEachHandler s
            (HandlerCall.authorizeDiscoveredPlayers (getPayload (directive info)))
          ++ setHandlingCompleted info)
  | TaskLogin info =>
      (s, forEachHandler s (HandlerCall.login (getPayload (directive info)))
          ++ setHandlingCompleted info)
  | TaskLogout info =>
      (s, forEachHandler s (HandlerCall.logout (getPayload (directive info)))
          ++ setHandlingCompleted info)
  | TaskPlay info =>
      (s, forEachHandler s (HandlerCall.play (getPayload (directive info)))
          ++ setHandlingCompleted info)
  | TaskSeek info =>
      (s, forEachHandler s (HandlerCall.seek (getPayload (directive info)))
          ++ setHandlingCompleted info)
  | TaskAdjustSeek info =>
      (s, forEachHandler s (HandlerCall.adjustSeek (getPayload (directive info)))
          ++ setHandlingCompleted info)
  | TaskPlayControl info request =>
      (s, forEachHandler s
            (HandlerCall.playControl (getPayload (directive info)) request)
          ++ setHandlingCompleted info)
  | TaskProvideState name token => (s, executeProvideState name true token s)
  | TaskButtonPressed request =>
      (s, forEachHandler s
            (HandlerCall.playControlForPlayer (m_playerInFocus s) request))
  | TaskTogglePressed action toggleStates =>
      (s, forEachHandler s
            (HandlerCall.playControlForPlayer (m_playerInFocus s)
               (if action then fst toggleStates else snd toggleStates)))
  end.

(** Modelled from the spec: the executor thread, which runs the queued tasks
    strictly in submission order (the Executor class is not part of the
    sources). *)
Fixpoint runTasks (ts : list Task) (s : EMP) : EMP * list Event :=
  match ts with
  | [] => (s, [])
  | t :: ts =>
      let '(s1, ev1) := runTask t s in
      let '(s2, ev2) := runTasks ts s1 in
      (s2, ev1 ++ ev2)
  end.

(** Modelled from the spec: the executor thread has run everything that was
    submitted so far. *)
Definition runExecutor (s : EMP) : EMP * list Event :=
  runTasks (m_executor s) (set_executor [] s).

End Agent.

(** ** Reading traces *)

Section Traces.
Context `{Externals}.

Definition isAdapterCall (e : Event) : bool :=
  match e with EvAdapter _ _ => true | _ => false end.

Definition isHandlerCall (e : Event) : bool :=
  match e with EvHandler _ _ => true | _ => false end.

(** A [playControlForPlayer(playerId, request)] call on some handler. *)
Definition isControl (playerId : string) (request : RequestType.t) (e : Event) : bool :=
  match e with
  | EvHandler _ (HandlerCall.playControlForPlayer p r) =>
      bool_decide (p = playerId) && bool_decide (r = request)
  | _ => false
  end.

Definition isAcquire (e : Event) : bool :=
  match e with EvAcquireChannel _ _ => true | _ => false end.

Definition isRelease (e : Event) : bool :=
  match e with EvReleaseChannel _ => true | _ => false end.

Definition isNotifyAll (e : Event) : bool :=
  match e with EvNotifyAll => true | _ => false end.

Definition count (p : Event -> bool) (ev : list Event) : nat :=
  length (List.filter p ev).

(** No call reaches a registry adapter or an adapter handler. *)
Definition silent (ev : list Event) : Prop :=
  Forall (fun e => isAdapterCall e = false /\ isHandlerCall e = false) ev.

End Traces.

(** ** A concrete collaborator set

    Payload texts are represented by what [rapidjson] makes of them: the
    members of the top-level object, or nothing for a text that does not
    parse.  [retrieveValue] finds the member and checks its type. *)

Module Sample.

Inductive JValue := JString (s : string) | JInt (z : Z) | JBool (b : bool) | JNull.

Definition Doc : Type := list (string * JValue).

Fixpoint findNode (d : Doc) (key : string) : option JValue :=
  match d with
  | [] => None
  | (k, v) :: d => if bool_decide (k = key) then Some v else findNode d key
  end.

Definition asString (d : Doc) (key : string) : option string :=
  match findNode d key with Some (JString s) => Some s | _ => None end.

Definition asInt64 (d : Doc) (key : string) : option Z :=
  match findNode d key with Some (JInt z) => Some z | _ => None end.

Definition asBool (d : Doc) (key : string) : option bool :=
  match findNode d key with Some (JBool b) => Some b | _ => None end.

Definition idlePlayback (playerId : string) : AdapterPlaybackState :=
  {| ps_playerId := playerId; ps_state := "IDLE"; ps_trackName := "" |}.

Definition session (playerId : string) : AdapterSessionState :=
  {| ss_playerId := playerId; ss_loggedIn := false; ss_userName := "" |}.

(** An adapter of a handler that has not been given a player id yet, and one
    that has. *)
Definition unnamedAdapterState : AdapterState :=
  {| sessionState := session ""; playbackState := idlePlayback "" |}.

Definition spotifyAdapterState : AdapterState :=
  {| sessionState := session "Spotify"; playbackState := idlePlayback "Spotify" |}.

(** Handler 1 manages one adapter without a player id; handler 2 manages the
    Spotify adapter. *)
Definition adapterStatesOf (h : Handler) : list AdapterState :=
  match h with
  | 1%positive => [unnamedAdapterState]
  | 2%positive => [spotifyAdapterState]
  | _ => []
  end.

#[export] Instance externals : Externals := {|
  Payload := option Doc;
  Document := Doc;
  Parse := fun p => p;
  parseErrorReason := fun _ => "Invalid value.";
  retrieveString := asString;
  retrieveInt64 := asInt64;
  retrieveBool := asBool;
  USERNAME := "username";
  POSITIONINMS := "positionMilliseconds";
  SPI_VERSION := "spiVersion";
  SPI_VERSION_DEFAULT := "1.0";
  AGENT := "agent";
  AGENT_DEFAULT := "agent";
  CONTENT_CHANNEL_NAME := "Content";
  defaultExceptionErrorType := ExceptionErrorType.INTERNAL_ERROR;
  getState := fun _ => spotifyAdapterState;
  getAdapterStates := adapterStatesOf;
  JsonBlock := AdapterSessionState + AdapterPlaybackState;
  buildSessionState := inl;
  buildPlaybackState := inr;
  buildDefaultPlayerState := Some [];
  serialize := fun _ => Some "";
  setStateSucceeds := fun _ _ _ => true
|}.

Definition mkDirective (ns name : string) (payload : option Doc) : DirectiveInfo :=
  {| directive :=
       {| getNamespace := ns; getName := name; getPayload := payload;
          getMessageId := "msg-1"; getUnparsedDirective := "unparsed-1" |};
     result := Some 9%positive |}.

(** A freshly constructed agent: no adapters, no handlers, focus NONE. *)
Definition fresh : EMP :=
  {| m_adapters := ∅; m_adapterHandlers := ∅; m_observers := ∅;
     m_playerInFocus := ""; m_focus := FocusState.NONE;
     m_focusAcquireInProgress := false;
     m_haltInitiator := HaltInitiator.NONE;
     m_currentActivity := PlayerActivity.IDLE; m_executor := [] |}.

(** The integration through adapter handlers: an empty registry, the given
    handlers, Spotify in focus. *)
Definition viaHandlers (handlers : gset Handler) (focus : FocusState.t)
    (activity : PlayerActivity.t) (halt : HaltInitiator.t) : EMP :=
  {| m_adapters := ∅; m_adapterHandlers := handlers;
     m_observers := ∅;
     m_playerInFocus := "Spotify"; m_focus := focus;
     m_focusAcquireInProgress := false;
     m_haltInitiator := halt;
     m_currentActivity := activity; m_executor := [] |}.

(** The integration through the registry: adapter 5 registered as Spotify
    and in focus, handler 1 registered as well. *)
Definition viaRegistry (focus : FocusState.t) (activity : PlayerActivity.t)
    (halt : HaltInitiator.t) : EMP :=
  {| m_adapters := {["Spotify" := Some 5%positive]};
     m_adapterHandlers := {[1%positive]};
     m_observers := ∅;
     m_playerInFocus := "Spotify"; m_focus := focus;
     m_focusAcquireInProgress := false;
     m_haltInitiator := halt;
     m_currentActivity := activity; m_executor := [] |}.

End Sample.

(** ** The rest of the agent

    Buttons and toggles, observers, construction and shutdown, the
    configuration table, and the predicates [onFocusChanged] waits for. *)

(** The enumerators of [PlaybackButton] and [PlaybackToggle] that the file
    mentions (the enums are declared in PlaybackRouterInterface.h and
    PlaybackHandlerInterface.h). *)
Module PlaybackButton.
Inductive t := PLAY | PAUSE | NEXT | PREVIOUS.
#[global] Instance PlaybackButton_eq_dec : EqDecision t.
Proof. solve_decision. Defined.
End PlaybackButton.

Module PlaybackToggle.
Inductive t := SHUFFLE | LOOP | REPEAT | THUMBS_UP | THUMBS_DOWN.
#[global] Instance PlaybackToggle_eq_dec : EqDecision t.
Proof. solve_decision. Defined.
End PlaybackToggle.

(** The two [BlockingPolicy] values of the file:
    [BlockingPolicy(MEDIUM_AUDIO, false)] and
    [BlockingPolicy(MEDIUMS_NONE, false)]. *)
Module BlockingPolicy.
Inductive t := audioNonBlockingPolicy | neitherNonBlockingPolicy.
#[global] Instance BlockingPolicy_eq_dec : EqDecision t.
Proof. solve_decision. Defined.
End BlockingPolicy.

(** [unordered_map::find] on a table written as an initializer list. *)
Definition findKey {K V : Type} `{EqDecision K} (k : K) (table : list (K * V))
    : option V :=
  snd <$> List.find (fun kv => bool_decide (fst kv = k)) table.


Definition MediaPlayer := positive.
Definition Speaker := positive.

(** An entry of [AdapterCreationMap]: called with the media player and the
    speaker found for the player id (and the collaborators, which are the
    same for every entry), it answers an adapter or null. *)
Definition AdapterCreateFunction : Type := MediaPlayer -> Speaker -> option Adapter.

(** Calls made while the agent is constructed and shut down, beside the
    events of the running agent. *)
Inductive LifecycleEvent `{Externals} :=
| LcEvent (e : Event)
| LcSetStateProvider (name : NamespaceAndName) (provider : bool)
| LcExecutorShutdown
| LcAdapterShutdown (a : Adapter).

Section AgentRest.
Context `{Externals}.
Variable EXTERNALMEDIAPLAYER_1_1 : bool.

Definition set_adapters (x : gmap string (option Adapter)) (s : EMP) : EMP :=
  {| m_adapters := x; m_adapterHandlers := m_adapterHandlers s;
     m_observers := m_observers s; m_playerInFocus := m_playerInFocus s;
     m_focus := m_focus s;
     m_focusAcquireInProgress := m_focusAcquireInProgress s;
     m_haltInitiator := m_haltInitiator s;
     m_currentActivity := m_currentActivity s; m_executor := m_executor s |}.

Definition set_observers (x : gset Observer) (s : EMP) : EMP :=
  {| m_adapters := m_adapters s; m_adapterHandlers := m_adapterHandlers s;
     m_observers := x; m_playerInFocus := m_playerInFocus s;
     m_focus := m_focus s;
     m_focusAcquireInProgress := m_focusAcquireInProgress s;
     m_haltInitiator := m_haltInitiator s;
     m_currentActivity := m_currentActivity s; m_executor := m_executor s |}.

(** *** What [onFocusChanged] waits for *)

(** The predicate of the bounded wait after a BACKGROUND grant. *)
Definition predicateBackground (currentActivity : PlayerActivity.t) : bool :=
  match currentActivity with
  | PlayerActivity.IDLE
  | PlayerActivity.PAUSED
  | PlayerActivity.STOPPED
  | PlayerActivity.FINISHED => true
  | PlayerActivity.PLAYING
  | PlayerActivity.BUFFER_UNDERRUN => false
  end.

(** The predicate of the bounded wait after a NONE grant. *)
Definition predicateNone (currentActivity : PlayerActivity.t) : bool :=
  match currentActivity with
  | PlayerActivity.IDLE
  | PlayerActivity.STOPPED
  | PlayerActivity.FINISHED => true
  | PlayerActivity.PLAYING
  | PlayerActivity.PAUSED
  | PlayerActivity.BUFFER_UNDERRUN => false
  end.

(** The predicate [onFocusChanged(newFocus)] waits for after it has
    submitted the reaction; for FOREGROUND it returns without waiting. *)
Definition waitPredicate (newFocus : FocusState.t)
    : option (PlayerActivity.t -> bool) :=
  match newFocus with
  | FocusState.FOREGROUND => None
  | FocusState.BACKGROUND => Some predicateBackground
  | FocusState.NONE => Some predicateNone
  end.

(** *** Buttons and toggles *)

Definition g_buttonToRequestType : list (PlaybackButton.t * RequestType.t) :=
  (if EXTERNALMEDIAPLAYER_1_1
   then [(PlaybackButton.PLAY, RequestType.RESUME);
         (PlaybackButton.PAUSE, RequestType.PAUSE)]
   else [(PlaybackButton.PLAY, RequestType.PAUSE_RESUME_TOGGLE);
         (PlaybackButton.PAUSE, RequestType.PAUSE_RESUME_TOGGLE)])
  ++ [(PlaybackButton.NEXT, RequestType.NEXT);
      (PlaybackButton.PREVIOUS, RequestType.PREVIOUS)].

Definition g_toggleToRequestType
    : list (PlaybackToggle.t * (RequestType.t * RequestType.t)) :=
  [(PlaybackToggle.SHUFFLE, (RequestType.ENABLE_SHUFFLE, RequestType.DISABLE_SHUFFLE));
   (PlaybackToggle.LOOP, (RequestType.ENABLE_REPEAT, RequestType.DISABLE_REPEAT));
   (PlaybackToggle.REPEAT, (RequestType.ENABLE_REPEAT_ONE, RequestType.DISABLE_REPEAT));
   (PlaybackToggle.THUMBS_UP, (RequestType.FAVORITE, RequestType.DESELECT_FAVORITE));
   (PlaybackToggle.THUMBS_DOWN, (RequestType.UNFAVORITE, RequestType.DESELECT_UNFAVORITE))].

(** [onButtonPressed].  In the 1.1 build a button for a player that the
    registry does not hold sets the halt initiator and submits
    [TaskButtonPressed], whose lambda captures [this], so
    [m_playerInFocus] and [m_adapterHandlers] are read when the executor
    runs it.  [None] stands for the null dereference of [adapterIt->second]
    on a registry entry that holds a null adapter. *)
Definition onButtonPressed (button : PlaybackButton.t) (s : EMP)
    : option (EMP * list Event) :=
  match findKey button g_buttonToRequestType with
  | None => Some (s, [EvLog LogLevel.ERROR "ButtonToRequestTypeNotFound" ""])
  | Some request =>
      if bool_decide (m_playerInFocus s ≠ "") then
        match m_adapters s !! m_playerInFocus s with
        | None =>
            if EXTERNALMEDIAPLAYER_1_1
            then Some (submit (TaskButtonPressed request)
                         (setHaltInitiatorRequestHelper request s), [])
            else Some (s, [EvLog LogLevel.ERROR "AdapterNotFound" ""])
        | Some None => None
        | Some (Some adapter) =>
            Some (s, [EvAdapter adapter (AdapterCall.handlePlayControl request)])
        end
      else Some (s, [])
  end.

(** [onTogglePressed], answered like [onButtonPressed]; its lambda is
    [TaskTogglePressed], and the halt initiator is not touched. *)
Definition onTogglePressed (toggle : PlaybackToggle.t) (action : bool) (s : EMP)
    : option (EMP * list Event) :=
  match findKey toggle g_toggleToRequestType with
  | None => Some (s, [EvLog LogLevel.ERROR "ToggleToRequestTypeNotFound" ""])
  | Some toggleStates =>
      if bool_decide (m_playerInFocus s ≠ "") then
        match m_adapters s !! m_playerInFocus s with
        | None =>
            if EXTERNALMEDIAPLAYER_1_1
            then Some (submit (TaskTogglePressed action toggleStates) s, [])
            else Some (s, [EvLog LogLevel.ERROR "AdapterNotFound" ""])
        | Some None => None
        | Some (Some adapter) =>
            Some (s,
                  [EvAdapter adapter
                     (AdapterCall.handlePlayControl
                        (if action then fst toggleStates else snd toggleStates))])
        end
      else Some (s, [])
  end.

(** *** Observers *)

Definition addObserver (observer : option Observer) (s : EMP) : EMP * list Event :=
  match observer with
  | None => (s, [EvLog LogLevel.ERROR "addObserverFailed" "nullObserver"])
  | Some o => (set_observers ({[o]} ∪ m_observers s) s, [])
  end.

Definition removeObserver (observer : option Observer) (s : EMP) : EMP * list Event :=
  match observer with
  | None => (s, [EvLog LogLevel.ERROR "removeObserverFailed" "nullObserver"])
  | Some o => (set_observers (m_observers s ∖ {[o]}) s, [])
  end.

(** *** The configuration table *)

Definition g_configuration : list (NamespaceAndName * BlockingPolicy.t) :=
  (if EXTERNALMEDIAPLAYER_1_1
   then [((EXTERNALMEDIAPLAYER_NAMESPACE, "AuthorizeDiscoveredPlayers"),
          BlockingPolicy.audioNonBlockingPolicy);
         ((EXTERNALMEDIAPLAYER_NAMESPACE, "Play"), BlockingPolicy.audioNonBlockingPolicy)]
   else [((EXTERNALMEDIAPLAYER_NAMESPACE, "Play"), BlockingPolicy.audioNonBlockingPolicy)])
  ++ [ ((EXTERNALMEDIAPLAYER_NAMESPACE, "Login"), BlockingPolicy.neitherNonBlockingPolicy);
       ((EXTERNALMEDIAPLAYER_NAMESPACE, "Logout"), BlockingPolicy.neitherNonBlockingPolicy);
       ((PLAYBACKCONTROLLER_NAMESPACE, "Play"), BlockingPolicy.audioNonBlockingPolicy);
       ((PLAYBACKCONTROLLER_NAMESPACE, "Pause"), BlockingPolicy.audioNonBlockingPolicy);
       ((PLAYBACKCONTROLLER_NAMESPACE, "Stop"), BlockingPolicy.audioNonBlockingPolicy);
       ((PLAYBACKCONTROLLER_NAMESPACE, "Next"), BlockingPolicy.audioNonBlockingPolicy);
       ((PLAYBACKCONTROLLER_NAMESPACE, "Previous"), BlockingPolicy.audioNonBlockingPolicy);
       ((PLAYBACKCONTROLLER_NAMESPACE, "StartOver"), BlockingPolicy.audioNonBlockingPolicy);
       ((PLAYBACKCONTROLLER_NAMESPACE, "Rewind"), BlockingPolicy.audioNonBlockingPolicy);
       ((PLAYBACKCONTROLLER_NAMESPACE, "FastForward"), BlockingPolicy.audioNonBlockingPolicy);
       ((PLAYLISTCONTROLLER_NAMESPACE, "EnableRepeatOne"), BlockingPolicy.neitherNonBlockingPolicy);
       ((PLAYLISTCONTROLLER_NAMESPACE, "EnableRepeat"), BlockingPolicy.neitherNonBlockingPolicy);
       ((PLAYLISTCONTROLLER_NAMESPACE, "DisableRepeat"), BlockingPolicy.neitherNonBlockingPolicy);
       ((PLAYLISTCONTROLLER_NAMESPACE, "EnableShuffle"), BlockingPolicy.neitherNonBlockingPolicy);
       ((PLAYLISTCONTROLLER_NAMESPACE, "DisableShuffle"), BlockingPolicy.neitherNonBlockingPolicy);
       ((SEEKCONTROLLER_NAMESPACE, "SetSeekPosition"), BlockingPolicy.audioNonBlockingPolicy);
       ((SEEKCONTROLLER_NAMESPACE, "AdjustSeekPosition"), BlockingPolicy.audioNonBlockingPolicy);
       ((FAVORITESCONTROLLER_NAMESPACE, "Favorite"), BlockingPolicy.neitherNonBlockingPolicy);
       ((FAVORITESCONTROLLER_NAMESPACE, "Unfavorite"), BlockingPolicy.neitherNonBlockingPolicy) ].

(** [getConfiguration] *)
Definition getConfiguration : gmap NamespaceAndName BlockingPolicy.t :=
  list_to_map g_configuration.

End AgentRest.

(** ** Construction and shutdown *)

Section Lifecycle.
Context `{Externals}.
Variable EXTERNALMEDIAPLAYER_1_1 : bool.

(** The agent as the constructor leaves it. *)
Definition constructed : EMP :=
  {| m_adapters := ∅; m_adapterHandlers := ∅; m_observers := ∅;
     m_playerInFocus := ""; m_focus := FocusState.NONE;
     m_focusAcquireInProgress := false;
     m_haltInitiator := HaltInitiator.NONE;
     m_currentActivity := PlayerActivity.IDLE; m_executor := [] |}.

(** One turn of the loop of [createAdapters]. *)
Definition createAdapter
    (mediaPlayers : gmap string MediaPlayer) (speakers : gmap string Speaker)
    (acc : EMP * list Event) (entry : string * AdapterCreateFunction)
    : EMP * list Event :=
  let '(s, ev) := acc in
  match mediaPlayers !! fst entry with
  | None => (s, ev ++ [EvLog LogLevel.ERROR "adapterCreationFailed" "nullMediaPlayer"])
  | Some mediaPlayer =>
      match speakers !! fst entry with
      | None => (s, ev ++ [EvLog LogLevel.ERROR "adapterCreationFailed" "nullSpeaker"])
      | Some speaker =>
          match snd entry mediaPlayer speaker with
          | Some adapter =>
              (set_adapters (<[fst entry := Some adapter]> (m_adapters s)) s, ev)
          | None => (s, ev ++ [EvLog LogLevel.ERROR "adapterCreationFailed" ""])
          end
      end
  end.

Definition createAdapters
    (mediaPlayers : gmap string MediaPlayer) (speakers : gmap string Speaker)
    (adapterCreationMap : gmap string AdapterCreateFunction) (s : EMP)
    : EMP * list Event :=
  foldl (createAdapter mediaPlayers speakers) (s, [])
        (map_to_list adapterCreationMap).



(** What [Executor::shutdown] leaves of the queue; the executor is not part
    of the file. *)
Variable executorShutdown : list Task -> list Task.

(** [doShutdown].  Releasing the collaborator pointers has no counterpart:
    the collaborators are not fields of [EMP]. *)
Definition doShutdown (s : EMP) : EMP * list LifecycleEvent :=
  let s1 := set_executor (executorShutdown (m_executor s)) s in
  let s2 := if EXTERNALMEDIAPLAYER_1_1 then set_adapterHandlers ∅ s1 else s1 in
  (set_adapters ∅ s2,
   [LcExecutorShutdown;
    LcSetStateProvider SESSION_STATE false;
    LcSetStateProvider PLAYBACK_STATE false]
   ++ (LcAdapterShutdown <$> liveAdapters s2)).

End Lifecycle.

(** ** Reading traces, continued *)

Section TracesRest.
Context `{Externals}.


(** [setCompleted] or [setFailed] on the result handle [r]. *)
Definition isSignal (r : Result) (e : Event) : bool :=
  match e with
  | EvSetCompleted r' => bool_decide (r' = r)
  | EvSetFailed r' _ => bool_decide (r' = r)
  | _ => false
  end.

Definition isSetState (e : Event) : bool :=
  match e with EvSetState _ _ _ => true | _ => false end.

Definition isObserverCall (e : Event) : bool :=
  match e with
  | EvLoginStateProvided _ _ _ _ => true
  | EvPlaybackStateProvided _ _ _ _ => true
  | _ => false
  end.

(** A call on observer [o]. *)
Definition isCallOn (o : Observer) (e : Event) : bool :=
  match e with
  | EvLoginStateProvided o' _ _ _ => bool_decide (o' = o)
  | EvPlaybackStateProvided o' _ _ _ => bool_decide (o' = o)
  | _ => false
  end.

(** Any [playControlForPlayer] with the given request. *)
Definition isRequest (request : RequestType.t) (e : Event) : bool :=
  match e with
  | EvHandler _ (HandlerCall.playControlForPlayer _ r) => bool_decide (r = request)
  | _ => false
  end.

(** The focus callbacks [fs], run by the executor one after the other. *)
Definition focusChanges (fs : list FocusState.t) (s : EMP) : EMP * list Event :=
  runTasks true (TaskOnFocusChanged <$> fs) s.

(** The focus callbacks [fs] as the focus manager makes them: one
    [onFocusChanged] call after the other, each handing its reaction to the
    executor. *)
Definition focusCallbacks (fs : list FocusState.t) (s : EMP) : EMP :=
  foldl (fun a f => onFocusChanged f a) s fs.

End TracesRest.

(** ** A collaborator set whose snapshots cannot be built

    As [Sample], but [buildDefaultPlayerState] fails, the writer refuses
    every document and [setState] does not succeed. *)

Module Broken.

Definition externals : Externals := {|
  Payload := option Sample.Doc;
  Document := Sample.Doc;
  Parse := fun p => p;
  parseErrorReason := fun _ => "Invalid value.";
  retrieveString := Sample.asString;
  retrieveInt64 := Sample.asInt64;
  retrieveBool := Sample.asBool;
  USERNAME := "username";
  POSITIONINMS := "positionMilliseconds";
  SPI_VERSION := "spiVersion";
  SPI_VERSION_DEFAULT := "1.0";
  AGENT := "agent";
  AGENT_DEFAULT := "agent";
  CONTENT_CHANNEL_NAME := "Content";
  defaultExceptionErrorType := ExceptionErrorType.INTERNAL_ERROR;
  getState := fun _ => Sample.spotifyAdapterState;
  getAdapterStates := Sample.adapterStatesOf;
  JsonBlock := AdapterSessionState + AdapterPlaybackState;
  buildSessionState := inl;
  buildPlaybackState := inr;
  buildDefaultPlayerState := None;
  serialize := fun _ => None;
  setStateSucceeds := fun _ _ _ => false
|}.

Definition fresh : @EMP externals :=
  {| m_adapters := ∅; m_adapterHandlers := ∅; m_observers := ∅;
     m_playerInFocus := ""; m_focus := FocusState.NONE;
     m_focusAcquireInProgress := false;
     m_haltInitiator := HaltInitiator.NONE;
     m_currentActivity := PlayerActivity.IDLE; m_executor := [] |}.

End Broken.

(** * Properties *)

Create HintDb trace discriminated.

Section Reporting.
Context `{Externals}.

Lemma silent_nil : silent [].
Proof. constructor. Qed.

Lemma silent_app (ev1 ev2 : list Event) :
  silent ev1 -> silent ev2 -> silent (ev1 ++ ev2).
Proof. unfold silent. intros H1 H2. apply Forall_app. split; assumption. Qed.

Lemma silent_log (l : LogLevel.t) (e r : string) (ev : list Event) :
  silent ev -> silent (EvLog l e r :: ev).
Proof. intros Hev. constructor; [split; reflexivity | exact Hev]. Qed.

Lemma silent_removeDirective (info : DirectiveInfo) :
  silent (removeDirective info).
Proof.
  unfold removeDirective. destruct (result info); repeat constructor.
Qed.

Lemma silent_setHandlingCompleted (info : DirectiveInfo) :
  silent (setHandlingCompleted info).
Proof.
  unfold setHandlingCompleted. apply silent_app.
  - destruct (result info); repeat constructor.
  - apply silent_removeDirective.
Qed.

Lemma silent_sendException (info : DirectiveInfo) (m : string)
    (t : ExceptionErrorType.t) :
  silent (sendExceptionEncounteredAndReportFailed info m t).
Proof.
  unfold sendExceptionEncounteredAndReportFailed.
  repeat apply silent_app.
  - repeat constructor.
  - destruct (result info); repeat constructor.
  - apply silent_removeDirective.
Qed.

Lemma silent_handleDirectiveFailed (info : DirectiveInfo) (r m : string) :
  silent (handleDirectiveFailed info r m).
Proof. apply silent_log, silent_sendException. Qed.

(** A directive with a result handle is told that it failed. *)
Lemma sendException_setFailed (info : DirectiveInfo) (m : string)
    (t : ExceptionErrorType.t) (r : Result) :
  result info = Some r ->
  In (EvSetFailed r m) (sendExceptionEncounteredAndReportFailed info m t).
Proof.
  intros Hr. unfold sendExceptionEncounteredAndReportFailed. rewrite Hr.
  simpl. right. left. reflexivity.
Qed.

End Reporting.

#[export] Hint Resolve silent_nil silent_app silent_log silent_removeDirective
  silent_setHandlingCompleted silent_sendException
  silent_handleDirectiveFailed : trace.

(** ** Dispatch *)

Section Dispatch.
Context `{Externals}.
Variable v11 : bool.

Lemma handleDirective_known (info : DirectiveInfo) (s : EMP)
    (request : RequestType.t) (handler : DirectiveHandler) :
  m_directiveToHandlerMap v11
    !! (getNamespace (directive info), getName (directive info))
  = Some (request, handler) ->
  handleDirective v11 (Some info) s = call v11 handler info request s.
Proof. intros Hfind. unfold handleDirective. rewrite Hfind. reflexivity. Qed.

Lemma lookup_Play :
  m_directiveToHandlerMap v11 !! (EXTERNALMEDIAPLAYER_NAMESPACE, "Play")
  = Some (RequestType.PLAY, ptr_handlePlay).
Proof. destruct v11; vm_compute; reflexivity. Qed.

Lemma lookup_AdjustSeekPosition :
  m_directiveToHandlerMap v11 !! (SEEKCONTROLLER_NAMESPACE, "AdjustSeekPosition")
  = Some (RequestType.ADJUST_SEEK, ptr_handleAdjustSeek).
Proof. destruct v11; vm_compute; reflexivity. Qed.

(** The registry look-up of [preprocessDirective] when everything before it
    succeeds: nothing is reported. *)
Lemma preprocessDirective_resolved (info : DirectiveInfo) (s : EMP)
    (doc : Document) (playerId : string) (adapter : Adapter) :
  Parse (getPayload (directive info)) = Some doc ->
  retrieveString doc PLAYER_ID = Some playerId ->
  m_adapters s !! playerId = Some (Some adapter) ->
  preprocessDirective v11 info s = (Some (adapter, doc), []).
Proof.
  intros Hparse Hid Hfind.
  unfold preprocessDirective, parseDirectivePayload.
  rewrite Hparse, Hid.
  case_bool_decide as Hempty.
  - rewrite Hempty, lookup_empty in Hfind. discriminate.
  - rewrite andb_false_r, Hfind. reflexivity.
Qed.

(** A payload that parses and has no [playerId]: the failure is reported,
    whatever the registry holds. *)
Lemma preprocessDirective_noPlayerId (info : DirectiveInfo) (s : EMP)
    (doc : Document) :
  Parse (getPayload (directive info)) = Some doc ->
  retrieveString doc PLAYER_ID = None ->
  preprocessDirective v11 info s
  = (None,
     EvLog LogLevel.ERROR "preprocessDirectiveFailed" "nullPlayerId"
     :: sendExceptionEncounteredAndReportFailed info "No PlayerId in directive."
          defaultExceptionErrorType).
Proof.
  intros Hparse Hid.
  unfold preprocessDirective, parseDirectivePayload.
  rewrite Hparse, Hid. reflexivity.
Qed.

(** Whatever a handler function of the table does first, it is not the
    report of a look-up failure in the table. *)
Lemma call_not_unhandled (handler : DirectiveHandler) (info : DirectiveInfo)
    (request : RequestType.t) (s : EMP) (ev : list Event) :
  snd (call v11 handler info request s)
  <> EvLog LogLevel.ERROR "handleDirectivesFailed" "noDirectiveHandlerForDirective"
     :: ev.
Proof.
  intros Heq. apply (f_equal head) in Heq. revert Heq.
  destruct handler; simpl;
    unfold handleAuthorizeDiscoveredPlayers, handleLogin, handleLogout,
      handlePlay, handlePlayControl, handleSeek, handleAdjustSeek,
      preprocessDirective, parseDirectivePayload, handleDirectiveFailed,
      setHandlingCompleted, removeDirective;
    repeat case_match; simplify_eq; simpl; discriminate.
Qed.

(** C5. A directive whose (namespace, name) pair is not a key of the dispatch
    table is reported as an unhandled directive: the exception is sent with
    the message "Unhandled directive", a result handle, if any, is told that
    the directive failed, and that is all that happens.  The agent is left as
    it was (so nothing is queued for the executor), no registry adapter and
    no adapter handler is called, and what happened is not what any handler
    function of the table does. *)
Theorem handleDirective_unhandled (info : DirectiveInfo) (s : EMP) :
  m_directiveToHandlerMap v11
    !! (getNamespace (directive info), getName (directive info)) = None ->
  handleDirective v11 (Some info) s
  = (s,
     EvLog LogLevel.ERROR "handleDirectivesFailed" "noDirectiveHandlerForDirective"
     :: sendExceptionEncounteredAndReportFailed info "Unhandled directive"
          ExceptionErrorType.UNEXPECTED_INFORMATION_RECEIVED)
  /\ silent (snd (handleDirective v11 (Some info) s))
  /\ (forall r, result info = Some r ->
        In (EvSetFailed r "Unhandled directive")
           (snd (handleDirective v11 (Some info) s)))
  /\ (forall handler request,
        snd (call v11 handler info request s)
        <> snd (handleDirective v11 (Some info) s)).
Proof.
  intros Hfind. unfold handleDirective. rewrite Hfind. simpl.
  split; [reflexivity |]. split; [auto with trace |]. split.
  - intros r Hr. right. apply sendException_setFailed. exact Hr.
  - intros handler request. apply call_not_unhandled.
Qed.

End Dispatch.

Lemma handleDirective_unhandled_witness :
  let info := Sample.mkDirective "Alexa.Speaker" "SetVolume" (Some []) in
  let s := Sample.viaRegistry FocusState.NONE PlayerActivity.IDLE HaltInitiator.NONE in
  handleDirective true (Some info) s
  = (s,
     [EvLog LogLevel.ERROR "handleDirectivesFailed" "noDirectiveHandlerForDirective";
      EvSendExceptionEncountered "unparsed-1"
        ExceptionErrorType.UNEXPECTED_INFORMATION_RECEIVED "Unhandled directive";
      EvSetFailed 9%positive "Unhandled directive";
      EvRemoveDirective "msg-1"]).
Proof.
  intros info s.
  destruct (handleDirective_unhandled true info s) as [Hrun _];
    [vm_compute; reflexivity | exact Hrun].
Defined.

(** ** Required fields of Play and AdjustSeekPosition *)

Section RequiredFields.
Context `{Externals}.
Variable v11 : bool.

(** C6. A Play directive whose payload parses, names a player of the
    registry and has no [playbackContextToken] fails with the missing-field
    report for that token and nothing else happens: no adapter is called, so
    [handlePlay] of the resolved adapter is not, and the agent is left as it
    was. *)
Theorem handlePlay_missing_playbackContextToken
    (info : DirectiveInfo) (s : EMP) (doc : Document)
    (playerId : string) (adapter : Adapter) :
  getNamespace (directive info) = EXTERNALMEDIAPLAYER_NAMESPACE ->
  getName (directive info) = "Play" ->
  Parse (getPayload (directive info)) = Some doc ->
  retrieveString doc PLAYER_ID = Some playerId ->
  m_adapters s !! playerId = Some (Some adapter) ->
  retrieveString doc "playbackContextToken" = None ->
  handleDirective v11 (Some info) s
  = (s,
     EvLog LogLevel.ERROR "handleDirectiveFailed" "nullPlaybackContextToken"
     :: sendExceptionEncounteredAndReportFailed info
          "missing playbackContextToken in Play directive"
          defaultExceptionErrorType)
  /\ silent (snd (handleDirective v11 (Some info) s))
  /\ (forall r, result info = Some r ->
        In (EvSetFailed r "missing playbackContextToken in Play directive")
           (snd (handleDirective v11 (Some info) s))).
Proof.
  intros Hns Hname Hparse Hid Hfind Htoken.
  assert (Hrun : handleDirective v11 (Some info) s
                 = (s, handleDirectiveFailed info "nullPlaybackContextToken"
                         "missing playbackContextToken in Play directive")).
  { rewrite (handleDirective_known v11 info s RequestType.PLAY ptr_handlePlay)
      by (rewrite Hns, Hname; apply lookup_Play).
    simpl. unfold handlePlay.
    rewrite (preprocessDirective_resolved v11 info s doc playerId adapter Hparse Hid Hfind).
    rewrite Htoken. reflexivity. }
  rewrite Hrun. simpl. split; [reflexivity |]. split; [auto with trace |].
  intros r Hr. right. apply sendException_setFailed. exact Hr.
Qed.

(** The range check of [handleAdjustSeek], for a directive whose payload
    parses, names a player of the registry and carries the delta
    [deltaPosition]:
    - a delta above 86,400,000 ms or below -86,400,000 ms fails the
      directive and calls no adapter; the log reason is
      [deltaPositionMillisecondsOutOfRange.], the text of the exception and
      of the failure is that of a missing field;
    - a delta within the bounds, 86,400,000 included, completes the
      directive and then calls [handleAdjustSeek] of the resolved adapter
      with that delta. *)
Lemma handleAdjustSeek_range
    (info : DirectiveInfo) (s : EMP) (doc : Document)
    (playerId : string) (adapter : Adapter) (deltaPosition : Z) :
  getNamespace (directive info) = SEEKCONTROLLER_NAMESPACE ->
  getName (directive info) = "AdjustSeekPosition" ->
  Parse (getPayload (directive info)) = Some doc ->
  retrieveString doc PLAYER_ID = Some playerId ->
  m_adapters s !! playerId = Some (Some adapter) ->
  retrieveInt64 doc "deltaPositionMilliseconds" = Some deltaPosition ->
  (deltaPosition < -86400000 \/ 86400000 < deltaPosition ->
     handleDirective v11 (Some info) s
     = (s,
        EvLog LogLevel.ERROR "handleDirectiveFailed"
              "deltaPositionMillisecondsOutOfRange."
        :: sendExceptionEncounteredAndReportFailed info
             "missing deltaPositionMilliseconds in AdjustSeekPosition directive"
             defaultExceptionErrorType)
     /\ silent (snd (handleDirective v11 (Some info) s)))
  /\ (-86400000 <= deltaPosition <= 86400000 ->
        handleDirective v11 (Some info) s
        = (s,
           setHandlingCompleted info
           ++ [EvAdapter adapter (AdapterCall.handleAdjustSeek deltaPosition)])).
Proof.
  intros Hns Hname Hparse Hid Hfind Hdelta.
  rewrite (handleDirective_known v11 info s RequestType.ADJUST_SEEK ptr_handleAdjustSeek)
    by (rewrite Hns, Hname; apply lookup_AdjustSeekPosition).
  simpl. unfold handleAdjustSeek.
  rewrite (preprocessDirective_resolved v11 info s doc playerId adapter Hparse Hid Hfind).
  rewrite Hdelta. unfold MAX_PAST_OFFSET, MAX_FUTURE_OFFSET.
  split.
  - intros Hout.
    assert (Hguard : (deltaPosition <? -86400000) || (deltaPosition >? 86400000) = true).
    { apply orb_true_iff. rewrite Z.ltb_lt, Z.gtb_gt. lia. }
    rewrite Hguard. simpl. split; [reflexivity |].
    apply silent_handleDirectiveFailed.
  - intros Hin.
    assert (Hguard : (deltaPosition <? -86400000) || (deltaPosition >? 86400000) = false).
    { apply orb_false_iff. rewrite Z.ltb_ge, Z.gtb_ltb, Z.ltb_ge. lia. }
    rewrite Hguard. reflexivity.
Qed.

End RequiredFields.

Lemma handlePlay_missing_playbackContextToken_witness :
  let info :=
    Sample.mkDirective "ExternalMediaPlayer" "Play"
      (Some [("playerId", Sample.JString "Spotify"); ("index", Sample.JInt 0)]) in
  let s := Sample.viaRegistry FocusState.NONE PlayerActivity.IDLE HaltInitiator.NONE in
  handleDirective true (Some info) s
  = (s,
     [EvLog LogLevel.ERROR "handleDirectiveFailed" "nullPlaybackContextToken";
      EvSendExceptionEncountered "unparsed-1" ExceptionErrorType.INTERNAL_ERROR
        "missing playbackContextToken in Play directive";
      EvSetFailed 9%positive "missing playbackContextToken in Play directive";
      EvRemoveDirective "msg-1"]).
Proof.
  intros info s.
  destruct (handlePlay_missing_playbackContextToken true info s
              [("playerId", Sample.JString "Spotify"); ("index", Sample.JInt 0)]
              "Spotify" 5%positive) as [Hrun _];
    [vm_compute; reflexivity .. | exact Hrun].
Defined.

(** C4, at the input where the code departs from it.  A delta of
    86,400,001 ms (and one of -86,400,001 ms) for a player of the registry
    fails the directive and calls no adapter, but what the sender of the
    directive is told is [missing deltaPositionMilliseconds in
    AdjustSeekPosition directive]: the exception and the failure of the
    result are, text and error type, those of a payload that carries no
    delta at all, and only the log reason tells the two apart.  A delta of
    exactly 86,400,000 ms completes the directive and the adapter's
    [handleAdjustSeek] is called with it. *)
Theorem adjustSeek_out_of_range_reported_as_missing :
  forall v11 : bool,
  let info (payload : Sample.Doc) :=
    Sample.mkDirective "Alexa.SeekController" "AdjustSeekPosition" (Some payload) in
  let withDelta (delta : Z) :=
    info [("playerId", Sample.JString "Spotify");
          ("deltaPositionMilliseconds", Sample.JInt delta)] in
  let withoutDelta := info [("playerId", Sample.JString "Spotify")] in
  let s := Sample.viaRegistry FocusState.NONE PlayerActivity.IDLE HaltInitiator.NONE in
  let reported :=
    [EvSendExceptionEncountered "unparsed-1" ExceptionErrorType.INTERNAL_ERROR
       "missing deltaPositionMilliseconds in AdjustSeekPosition directive";
     EvSetFailed 9%positive
       "missing deltaPositionMilliseconds in AdjustSeekPosition directive";
     EvRemoveDirective "msg-1"] in
  handleDirective v11 (Some (withDelta 86400001)) s
  = (s, EvLog LogLevel.ERROR "handleDirectiveFailed"
          "deltaPositionMillisecondsOutOfRange." :: reported)
  /\ handleDirective v11 (Some (withDelta (-86400001))) s
     = (s, EvLog LogLevel.ERROR "handleDirectiveFailed"
             "deltaPositionMillisecondsOutOfRange." :: reported)
  /\ handleDirective v11 (Some withoutDelta) s
     = (s, EvLog LogLevel.ERROR "handleDirectiveFailed"
             "nullDeltaPositionMilliseconds" :: reported)
  /\ handleDirective v11 (Some (withDelta 86400000)) s
     = (s,
        [EvSetCompleted 9%positive; EvRemoveDirective "msg-1";
         EvAdapter 5%positive (AdapterCall.handleAdjustSeek 86400000)]).
Proof.
  intros v11 info withDelta withoutDelta s reported.
  assert (Hrange : forall delta,
            (delta < -86400000 \/ 86400000 < delta ->
               handleDirective v11 (Some (withDelta delta)) s
               = (s, EvLog LogLevel.ERROR "handleDirectiveFailed"
                       "deltaPositionMillisecondsOutOfRange." :: reported))
            /\ (-86400000 <= delta <= 86400000 ->
                  handleDirective v11 (Some (withDelta delta)) s
                  = (s,
                     [EvSetCompleted 9%positive; EvRemoveDirective "msg-1";
                      EvAdapter 5%positive (AdapterCall.handleAdjustSeek delta)]))).
  { intros delta.
    destruct (handleAdjustSeek_range v11 (withDelta delta) s
                [("playerId", Sample.JString "Spotify");
                 ("deltaPositionMilliseconds", Sample.JInt delta)]
                "Spotify" 5%positive delta) as [Hout Hin];
      [reflexivity .. |].
    split; [intros Hd; exact (proj1 (Hout Hd)) | exact Hin]. }
  split; [apply (proj1 (Hrange 86400001)); lia |].
  split; [apply (proj1 (Hrange (-86400001))); lia |].
  split; [| apply (proj2 (Hrange 86400000)); lia].
  destruct v11; vm_compute; reflexivity.
Qed.

(** ** Focus arbitration *)

Section Focus.
Context `{Externals}.

Lemma count_app (p : Event -> bool) (ev1 ev2 : list Event) :
  count p (ev1 ++ ev2) = (count p ev1 + count p ev2)%nat.
Proof. unfold count. rewrite List.filter_app, length_app. reflexivity. Qed.

(** A control broadcast reaches every registered handler once. *)
Lemma count_forEachHandler (s : EMP) (playerId : string) (request : RequestType.t) :
  count (isControl playerId request)
        (forEachHandler s (HandlerCall.playControlForPlayer playerId request))
  = size (m_adapterHandlers s).
Proof.
  unfold forEachHandler.
  change (size (m_adapterHandlers s)) with (length (elements (m_adapterHandlers s))).
  induction (elements (m_adapterHandlers s)) as [| h hs IH].
  - reflexivity.
  - rewrite fmap_cons. unfold count in *. simpl.
    rewrite !bool_decide_eq_true_2 by reflexivity. simpl. rewrite IH. reflexivity.
Qed.

Lemma silent_unexpected : silent unexpectedExecuteOnFocusChanged.
Proof. repeat constructor. Qed.

(** C2, amended. A BACKGROUND grant that changes the focus, received while
    the activity is PLAYING and the player in focus is named and has no
    registry entry: the activity becomes PAUSED; the halt initiator becomes
    FOCUS_CHANGE_PAUSE unless it is EXTERNAL_PAUSE, which is kept; waiters
    are notified and then one PAUSE control naming the player in focus goes
    to each registered adapter handler, so exactly one is issued when one
    handler is registered. *)
Theorem background_while_playing (s : EMP) :
  m_focus s <> FocusState.BACKGROUND ->
  m_playerInFocus s <> "" ->
  m_adapters s !! m_playerInFocus s = None ->
  m_currentActivity s = PlayerActivity.PLAYING ->
  let r := executeOnFocusChanged FocusState.BACKGROUND s in
  m_currentActivity (fst r) = PlayerActivity.PAUSED
  /\ m_haltInitiator (fst r)
     = (if bool_decide (m_haltInitiator s = HaltInitiator.EXTERNAL_PAUSE)
        then HaltInitiator.EXTERNAL_PAUSE
        else HaltInitiator.FOCUS_CHANGE_PAUSE)
  /\ snd r
     = EvNotifyAll
       :: forEachHandler s
            (HandlerCall.playControlForPlayer (m_playerInFocus s) RequestType.PAUSE)
  /\ count (isControl (m_playerInFocus s) RequestType.PAUSE) (snd r)
     = size (m_adapterHandlers s)
  /\ (size (m_adapterHandlers s) = 1%nat ->
      count (isControl (m_playerInFocus s) RequestType.PAUSE) (snd r) = 1%nat).
Proof.
  intros Hfocus Hplayer Hfind Hact r.
  assert (Hr : r = (fst r, EvNotifyAll
                   :: forEachHandler s
                        (HandlerCall.playControlForPlayer (m_playerInFocus s)
                           RequestType.PAUSE))
               /\ m_currentActivity (fst r) = PlayerActivity.PAUSED
               /\ m_haltInitiator (fst r)
                  = (if bool_decide (m_haltInitiator s = HaltInitiator.EXTERNAL_PAUSE)
                     then HaltInitiator.EXTERNAL_PAUSE
                     else HaltInitiator.FOCUS_CHANGE_PAUSE)).
  { subst r. unfold executeOnFocusChanged.
    rewrite bool_decide_eq_false_2 by exact Hfocus. simpl.
    rewrite bool_decide_eq_false_2 by exact Hplayer.
    rewrite Hfind, Hact. simpl.
    destruct (m_haltInitiator s) eqn:Hhalt; simpl;
      rewrite ?Hhalt; repeat split; reflexivity. }
  destruct Hr as (Hr & Ha & Hh).
  assert (Hev : snd r = EvNotifyAll
                  :: forEachHandler s
                       (HandlerCall.playControlForPlayer (m_playerInFocus s)
                          RequestType.PAUSE)) by (rewrite Hr; reflexivity).
  assert (Hcount : count (isControl (m_playerInFocus s) RequestType.PAUSE) (snd r)
                   = size (m_adapterHandlers s)).
  { rewrite Hev. change (EvNotifyAll :: ?l) with ([EvNotifyAll] ++ l).
    rewrite count_app, count_forEachHandler. reflexivity. }
  repeat split; try assumption. intros Hone. rewrite Hcount. exact Hone.
Qed.

(** C3, amended. A FOREGROUND grant received while the activity is PAUSED:
    - if the halt initiator is EXTERNAL_PAUSE, the activity stays PAUSED, the
      halt initiator stays, and no control is issued, in every state;
    - if the halt initiator is FOCUS_CHANGE_PAUSE, the grant changes the
      focus and the player in focus is named and has no registry entry, the
      activity becomes PLAYING, waiters are notified and one RESUME control
      naming the player in focus goes to each registered adapter handler, so
      exactly one is issued when one handler is registered. *)
Theorem foreground_while_paused (s : EMP) :
  m_currentActivity s = PlayerActivity.PAUSED ->
  let r := executeOnFocusChanged FocusState.FOREGROUND s in
  (m_haltInitiator s = HaltInitiator.EXTERNAL_PAUSE ->
     m_currentActivity (fst r) = PlayerActivity.PAUSED
     /\ m_haltInitiator (fst r) = HaltInitiator.EXTERNAL_PAUSE
     /\ silent (snd r)
     /\ count isNotifyAll (snd r) = 0%nat)
  /\ (m_haltInitiator s = HaltInitiator.FOCUS_CHANGE_PAUSE ->
      m_focus s <> FocusState.FOREGROUND ->
      m_playerInFocus s <> "" ->
      m_adapters s !! m_playerInFocus s = None ->
        m_currentActivity (fst r) = PlayerActivity.PLAYING
        /\ snd r
           = EvNotifyAll
             :: forEachHandler s
                  (HandlerCall.playControlForPlayer (m_playerInFocus s)
                     RequestType.RESUME)
        /\ count (isControl (m_playerInFocus s) RequestType.RESUME) (snd r)
           = size (m_adapterHandlers s)
        /\ (size (m_adapterHandlers s) = 1%nat ->
            count (isControl (m_playerInFocus s) RequestType.RESUME) (snd r) = 1%nat)).
Proof.
  intros Hact r. split.
  - intros Hhalt. subst r. unfold executeOnFocusChanged.
    case_bool_decide as Hfocus; simpl.
    { repeat split; auto with trace. }
    case_bool_decide as Hplayer; simpl.
    { repeat split; auto using silent_unexpected. }
    destruct (m_adapters s !! m_playerInFocus s); simpl.
    { repeat split; auto using silent_unexpected. }
    rewrite bool_decide_eq_true_2 by exact Hhalt. simpl.
    repeat split; auto with trace.
  - intros Hhalt Hfocus Hplayer Hfind.
    assert (Hr : m_currentActivity (fst r) = PlayerActivity.PLAYING
                 /\ snd r = EvNotifyAll
                      :: forEachHandler s
                           (HandlerCall.playControlForPlayer (m_playerInFocus s)
                              RequestType.RESUME)).
    { subst r. unfold executeOnFocusChanged.
      rewrite bool_decide_eq_false_2 by exact Hfocus. simpl.
      rewrite bool_decide_eq_false_2 by exact Hplayer.
      rewrite Hfind, Hact, Hhalt. simpl. split; reflexivity. }
    destruct Hr as (Ha & Hev).
    assert (Hcount : count (isControl (m_playerInFocus s) RequestType.RESUME) (snd r)
                     = size (m_adapterHandlers s)).
    { rewrite Hev. change (EvNotifyAll :: ?l) with ([EvNotifyAll] ++ l).
      rewrite count_app, count_forEachHandler. reflexivity. }
    repeat split; try assumption. intros Hone. rewrite Hcount. exact Hone.
Qed.

(** C10. When the new focus equals the current focus, or no player is in
    focus, or the player in focus has a registry entry, a focus-change event
    changes neither the activity nor the halt initiator, notifies no waiter
    and issues no control; and in the same-focus case the agent differs from
    before only in the cleared acquire-in-progress flag. *)
Theorem executeOnFocusChanged_guards (newFocus : FocusState.t) (s : EMP) :
  m_focus s = newFocus
  \/ m_playerInFocus s = ""
  \/ is_Some (m_adapters s !! m_playerInFocus s) ->
  let r := executeOnFocusChanged newFocus s in
  m_currentActivity (fst r) = m_currentActivity s
  /\ m_haltInitiator (fst r) = m_haltInitiator s
  /\ silent (snd r)
  /\ count isNotifyAll (snd r) = 0%nat
  /\ (m_focus s = newFocus -> r = (set_focusAcquireInProgress false s, [])).
Proof.
  intros Hguard r. subst r. unfold executeOnFocusChanged.
  case_bool_decide as Hfocus; simpl.
  { repeat split; auto with trace. }
  case_bool_decide as Hplayer; simpl.
  { repeat split; auto using silent_unexpected. intros Heq. contradiction. }
  destruct (m_adapters s !! m_playerInFocus s) as [a |] eqn:Hfind; simpl.
  { repeat split; auto using silent_unexpected. intros Heq. contradiction. }
  destruct Hguard as [Heq | [Hempty | [a Ha]]];
    [contradiction | contradiction | discriminate].
Qed.

End Focus.

Lemma background_while_playing_witness :
  let s := Sample.viaHandlers {[1%positive]} FocusState.FOREGROUND
             PlayerActivity.PLAYING HaltInitiator.NONE in
  m_currentActivity (fst (executeOnFocusChanged FocusState.BACKGROUND s))
  = PlayerActivity.PAUSED
  /\ m_haltInitiator (fst (executeOnFocusChanged FocusState.BACKGROUND s))
     = HaltInitiator.FOCUS_CHANGE_PAUSE
  /\ snd (executeOnFocusChanged FocusState.BACKGROUND s)
     = [EvNotifyAll;
        EvHandler 1%positive
          (HandlerCall.playControlForPlayer "Spotify" RequestType.PAUSE)]
  /\ count (isControl "Spotify" RequestType.PAUSE)
       (snd (executeOnFocusChanged FocusState.BACKGROUND s)) = 1%nat.
Proof.
  intros s.
  destruct (background_while_playing s) as (Ha & Hh & Hev & _ & Hone);
    [vm_compute; congruence | vm_compute; congruence
     | vm_compute; reflexivity | vm_compute; reflexivity |].
  split; [exact Ha |]. split; [exact Hh |]. split; [exact Hev |].
  apply Hone. vm_compute. reflexivity.
Defined.

(** C2 as stated fails: with the player in focus held by the registry a
    BACKGROUND grant received while PLAYING changes nothing and pauses
    nothing; with two adapter handlers registered it issues two PAUSE
    controls. *)
Lemma background_while_playing_counterexample :
  let claim (s : EMP) :=
    m_currentActivity s = PlayerActivity.PLAYING ->
    m_currentActivity (fst (executeOnFocusChanged FocusState.BACKGROUND s))
    = PlayerActivity.PAUSED
    /\ m_haltInitiator (fst (executeOnFocusChanged FocusState.BACKGROUND s))
       = (if bool_decide (m_haltInitiator s = HaltInitiator.EXTERNAL_PAUSE)
          then HaltInitiator.EXTERNAL_PAUSE
          else HaltInitiator.FOCUS_CHANGE_PAUSE)
    /\ count (isControl (m_playerInFocus s) RequestType.PAUSE)
         (snd (executeOnFocusChanged FocusState.BACKGROUND s)) = 1%nat in
  ~ claim (Sample.viaRegistry FocusState.FOREGROUND
             PlayerActivity.PLAYING HaltInitiator.NONE)
  /\ ~ claim (Sample.viaHandlers {[1%positive; 2%positive]} FocusState.FOREGROUND
                PlayerActivity.PLAYING HaltInitiator.NONE).
Proof.
  intros claim. split; intros Hclaim.
  - destruct (Hclaim eq_refl) as (Ha & _). vm_compute in Ha. discriminate.
  - destruct (Hclaim eq_refl) as (_ & _ & Hc). vm_compute in Hc. discriminate.
Qed.

Lemma foreground_while_paused_witness :
  let s := Sample.viaHandlers {[1%positive]} FocusState.BACKGROUND
             PlayerActivity.PAUSED HaltInitiator.FOCUS_CHANGE_PAUSE in
  let e := Sample.viaHandlers {[1%positive]} FocusState.BACKGROUND
             PlayerActivity.PAUSED HaltInitiator.EXTERNAL_PAUSE in
  (m_currentActivity (fst (executeOnFocusChanged FocusState.FOREGROUND s))
   = PlayerActivity.PLAYING
   /\ snd (executeOnFocusChanged FocusState.FOREGROUND s)
      = [EvNotifyAll;
         EvHandler 1%positive
           (HandlerCall.playControlForPlayer "Spotify" RequestType.RESUME)])
  /\ (m_currentActivity (fst (executeOnFocusChanged FocusState.FOREGROUND e))
      = PlayerActivity.PAUSED
      /\ silent (snd (executeOnFocusChanged FocusState.FOREGROUND e))).
Proof.
  intros s e. split.
  - destruct (foreground_while_paused s) as (_ & Hresume);
      [vm_compute; reflexivity |].
    destruct Hresume as (Ha & Hev & _);
      [vm_compute; reflexivity | vm_compute; congruence
       | vm_compute; congruence | vm_compute; reflexivity |].
    split; [exact Ha | exact Hev].
  - destruct (foreground_while_paused e) as (Hkeep & _);
      [vm_compute; reflexivity |].
    destruct Hkeep as (Ha & _ & Hs & _); [vm_compute; reflexivity |].
    split; [exact Ha | exact Hs].
Defined.

(** C3 as stated fails: with the player in focus held by the registry a
    FOREGROUND grant received while PAUSED by a focus change resumes
    nothing; with two adapter handlers registered it issues two RESUME
    controls. *)
Lemma foreground_while_paused_counterexample :
  let claim (s : EMP) :=
    m_currentActivity s = PlayerActivity.PAUSED ->
    (m_haltInitiator s = HaltInitiator.FOCUS_CHANGE_PAUSE ->
       m_currentActivity (fst (executeOnFocusChanged FocusState.FOREGROUND s))
       = PlayerActivity.PLAYING
       /\ count (isControl (m_playerInFocus s) RequestType.RESUME)
            (snd (executeOnFocusChanged FocusState.FOREGROUND s)) = 1%nat)
    /\ (m_haltInitiator s = HaltInitiator.EXTERNAL_PAUSE ->
        m_currentActivity (fst (executeOnFocusChanged FocusState.FOREGROUND s))
        = PlayerActivity.PAUSED
        /\ silent (snd (executeOnFocusChanged FocusState.FOREGROUND s))) in
  ~ claim (Sample.viaRegistry FocusState.BACKGROUND
             PlayerActivity.PAUSED HaltInitiator.FOCUS_CHANGE_PAUSE)
  /\ ~ claim (Sample.viaHandlers {[1%positive; 2%positive]} FocusState.BACKGROUND
                PlayerActivity.PAUSED HaltInitiator.FOCUS_CHANGE_PAUSE).
Proof.
  intros claim. split; intros Hclaim.
  - destruct (Hclaim eq_refl) as (Hresume & _).
    destruct (Hresume eq_refl) as (Ha & _). vm_compute in Ha. discriminate.
  - destruct (Hclaim eq_refl) as (Hresume & _).
    destruct (Hresume eq_refl) as (_ & Hc). vm_compute in Hc. discriminate.
Qed.

Lemma executeOnFocusChanged_guards_witness :
  let s := Sample.viaRegistry FocusState.FOREGROUND
             PlayerActivity.PLAYING HaltInitiator.NONE in
  let t := Sample.viaHandlers {[1%positive]} FocusState.BACKGROUND
             PlayerActivity.PLAYING HaltInitiator.NONE in
  (m_currentActivity (fst (executeOnFocusChanged FocusState.NONE s))
   = PlayerActivity.PLAYING
   /\ silent (snd (executeOnFocusChanged FocusState.NONE s)))
  /\ executeOnFocusChanged FocusState.BACKGROUND t
     = (set_focusAcquireInProgress false t, []).
Proof.
  intros s t. split.
  - destruct (executeOnFocusChanged_guards FocusState.NONE s) as (Ha & _ & Hs & _).
    { right. right. exists (Some 5%positive). vm_compute. reflexivity. }
    split; [exact Ha | exact Hs].
  - destruct (executeOnFocusChanged_guards FocusState.BACKGROUND t) as (_ & _ & _ & _ & Hsame).
    { left. reflexivity. }
    apply Hsame. reflexivity.
Defined.

(** ** Acquiring and releasing the channel *)

Section Channel.
Context `{Externals}.

Lemma setPlayerInFocus_acquire (player : string) (s : EMP) :
  setPlayerInFocus player true s
  = if mayAcquire s
    then (set_focusAcquireInProgress true
            (set_haltInitiator HaltInitiator.NONE
               (set_currentActivity PlayerActivity.IDLE
                  (set_playerInFocus player s))),
          [EvPlaybackRouterSetHandler;
           EvAcquireChannel CONTENT_CHANNEL_NAME FOCUS_MANAGER_ACTIVITY_ID])
    else (set_playerInFocus player s, [EvPlaybackRouterSetHandler]).
Proof. reflexivity. Qed.

Lemma mayAcquire_after (player : string) (s : EMP) :
  mayAcquire (fst (setPlayerInFocus player true s)) = false.
Proof.
  rewrite setPlayerInFocus_acquire.
  destruct (mayAcquire s) eqn:Hguard; simpl.
  - unfold mayAcquire. simpl. apply andb_false_r.
  - exact Hguard.
Qed.

Lemma acquireForEach_cons (p : string) (players : list string) (s : EMP) :
  snd (acquireForEach (p :: players) s)
  = snd (setPlayerInFocus p true s)
    ++ snd (acquireForEach players (fst (setPlayerInFocus p true s))).
Proof.
  cbn [acquireForEach].
  destruct (setPlayerInFocus p true s) as [s1 ev1]. cbn [fst snd].
  destruct (acquireForEach players s1) as [s2 ev2]. reflexivity.
Qed.

Lemma acquireForEach_blocked (players : list string) (s : EMP) :
  mayAcquire s = false ->
  count isAcquire (snd (acquireForEach players s)) = 0%nat.
Proof.
  revert s. induction players as [| p players IH]; intros s Hguard.
  - reflexivity.
  - rewrite acquireForEach_cons, count_app.
    rewrite (IH _ (mayAcquire_after p s)).
    rewrite setPlayerInFocus_acquire, Hguard. reflexivity.
Qed.

(** C7. [setPlayerInFocus] with acquire intent calls [acquireChannel] once if
    no focus is held and no acquisition is in progress, and not at all
    otherwise.  When it does, the activity becomes IDLE, the halt initiator
    NONE and the acquisition is marked in progress; when it does not, the
    three are left alone.  A further acquire call right after it issues no
    acquisition, and any run of acquire calls issues as many as its first
    call.  Without acquire intent the agent is unchanged and
    [releaseChannel] is called exactly when the identifier given equals the
    player in focus and the focus is not NONE. *)
Theorem setPlayerInFocus_guarded (s : EMP) (player : string) :
  let r := setPlayerInFocus player true s in
  let q := setPlayerInFocus player false s in
  count isAcquire (snd r) = (if mayAcquire s then 1%nat else 0%nat)
  /\ (if mayAcquire s
      then m_currentActivity (fst r) = PlayerActivity.IDLE
           /\ m_haltInitiator (fst r) = HaltInitiator.NONE
           /\ m_focusAcquireInProgress (fst r) = true
      else m_currentActivity (fst r) = m_currentActivity s
           /\ m_haltInitiator (fst r) = m_haltInitiator s
           /\ m_focusAcquireInProgress (fst r) = m_focusAcquireInProgress s)
  /\ m_playerInFocus (fst r) = player
  /\ (forall p, count isAcquire (snd (setPlayerInFocus p true (fst r))) = 0%nat)
  /\ (forall ps, count isAcquire (snd (acquireForEach (player :: ps) s))
                 = (if mayAcquire s then 1%nat else 0%nat))
  /\ fst q = s
  /\ snd q
     = (if bool_decide (player = m_playerInFocus s)
           && bool_decide (m_focus s <> FocusState.NONE)
        then [EvReleaseChannel CONTENT_CHANNEL_NAME]
        else [])
  /\ count isRelease (snd q)
     = (if bool_decide (player = m_playerInFocus s /\ m_focus s <> FocusState.NONE)
        then 1%nat else 0%nat).
Proof.
  intros r q.
  assert (Hfirst : count isAcquire (snd r) = (if mayAcquire s then 1%nat else 0%nat)).
  { subst r. rewrite setPlayerInFocus_acquire. destruct (mayAcquire s); reflexivity. }
  split; [exact Hfirst |]. split.
  { subst r. rewrite setPlayerInFocus_acquire.
    destruct (mayAcquire s); simpl; repeat split; reflexivity. }
  split.
  { subst r. rewrite setPlayerInFocus_acquire. destruct (mayAcquire s); reflexivity. }
  split.
  { intros p. rewrite setPlayerInFocus_acquire.
    subst r. rewrite mayAcquire_after. reflexivity. }
  split.
  { intros ps. rewrite acquireForEach_cons, count_app. fold r.
    rewrite Hfirst.
    rewrite (acquireForEach_blocked ps (fst r) (mayAcquire_after player s)).
    lia. }
  subst q. unfold setPlayerInFocus.
  repeat case_bool_decide; simpl; repeat split; try reflexivity; exfalso; tauto.
Qed.

End Channel.

(** ** Registration of adapter handlers *)

Section Registration.
Context `{Externals}.

Lemma set_adapterHandlers_same (s : EMP) :
  set_adapterHandlers (m_adapterHandlers s) s = s.
Proof. destruct s. reflexivity. Qed.

(** With nothing else in the queue, the executor runs a submitted task on
    the agent as it was when the task was submitted. *)
Lemma runExecutor_submit_idle (v11 : bool) (t : Task) (s : EMP) :
  m_executor s = [] ->
  runExecutor v11 (submit t s) = runTask v11 t s.
Proof.
  intros Hidle. unfold runExecutor, submit.
  cbn [m_executor set_executor]. rewrite Hidle. cbn [app runTasks].
  replace (set_executor [] (set_executor [t] s)) with s
    by (destruct s; cbn in Hidle; subst; reflexivity).
  destruct (runTask v11 t s) as [s1 ev1]. rewrite app_nil_r. reflexivity.
Qed.

(** C8. Adding a handler that is already registered leaves the agent as it
    was and logs the duplicate as an error; removing a handler that is not
    registered leaves the agent as it was and logs a warning.  Both hold of
    the lambda bodies and of the calls themselves: on an agent with an idle
    executor, [addAdapterHandler] and [removeAdapterHandler] log nothing
    when called, queue their lambda, and once the executor has run the agent
    is the one before the call and the trace is the duplicate error resp.
    the warning; [removeAdapterHandler] of a registered handler takes it out
    of the set without a warning.  On an agent with no handler and an idle
    executor, adding the same handler twice and letting the executor run
    ends with exactly one registered handler, the second addition having
    been logged as a duplicate. *)
Theorem adapterHandler_registration (s : EMP) (h g : Handler) :
  h ∈ m_adapterHandlers s ->
  g ∉ m_adapterHandlers s ->
  addAdapterHandlerInExecutor h s
  = (s, [EvLog LogLevel.ERROR "addAdapterHandlerInExecutor"
           "Duplicate adapter handler."])
  /\ removeAdapterHandlerInExecutor g s
     = (s, [EvLog LogLevel.WARN "removeAdapterHandlerInExecutor"
              "Nonexistent adapter handler."])
  /\ (forall s0 : EMP,
        m_adapterHandlers s0 = ∅ ->
        m_executor s0 = [] ->
        let s1 := fst (addAdapterHandler (Some h) s0) in
        let s2 := fst (addAdapterHandler (Some h) s1) in
        m_adapterHandlers (fst (runExecutor true s2)) = {[h]}
        /\ size (m_adapterHandlers (fst (runExecutor true s2))) = 1%nat
        /\ snd (runExecutor true s2)
           = [EvLog LogLevel.ERROR "addAdapterHandlerInExecutor"
                "Duplicate adapter handler."])
  /\ (m_executor s = [] ->
      addAdapterHandler (Some h) s = (submit (TaskAddAdapterHandler h) s, [])
      /\ runExecutor true (fst (addAdapterHandler (Some h) s))
         = (s, [EvLog LogLevel.ERROR "addAdapterHandlerInExecutor"
                  "Duplicate adapter handler."])
      /\ removeAdapterHandler (Some g) s
         = (submit (TaskRemoveAdapterHandler g) s, [])
      /\ runExecutor true (fst (removeAdapterHandler (Some g) s))
         = (s, [EvLog LogLevel.WARN "removeAdapterHandlerInExecutor"
                  "Nonexistent adapter handler."])
      /\ runExecutor true (fst (removeAdapterHandler (Some h) s))
         = (set_adapterHandlers (m_adapterHandlers s ∖ {[h]}) s, [])
      /\ h ∉ m_adapterHandlers
               (fst (runExecutor true (fst (removeAdapterHandler (Some h) s))))).
Proof.
  intros Hin Hout.
  assert (Hadd : addAdapterHandlerInExecutor h s
                 = (s, [EvLog LogLevel.ERROR "addAdapterHandlerInExecutor"
                          "Duplicate adapter handler."])).
  { unfold addAdapterHandlerInExecutor, set_insert.
    rewrite bool_decide_eq_false_2 by (intros Hx; exact (Hx Hin)).
    rewrite (subseteq_union_1_L {[h]} (m_adapterHandlers s))
      by (apply singleton_subseteq_l; exact Hin).
    rewrite set_adapterHandlers_same. reflexivity. }
  assert (Hremove : removeAdapterHandlerInExecutor g s
                    = (s, [EvLog LogLevel.WARN "removeAdapterHandlerInExecutor"
                             "Nonexistent adapter handler."])).
  { unfold removeAdapterHandlerInExecutor, set_erase.
    rewrite (bool_decide_eq_false_2 (g ∈ m_adapterHandlers s)) by exact Hout.
    rewrite (difference_disjoint_L (m_adapterHandlers s) {[g]})
      by (apply disjoint_singleton_r; exact Hout).
    rewrite set_adapterHandlers_same. reflexivity. }
  split; [exact Hadd |]. split; [exact Hremove |]. split.
  - intros s0 Hempty Hidle s1 s2.
    assert (Hrun : runExecutor true s2
                   = (set_adapterHandlers {[h]} (set_executor [] s2),
                      [EvLog LogLevel.ERROR "addAdapterHandlerInExecutor"
                         "Duplicate adapter handler."])).
    { subst s2 s1. unfold runExecutor, addAdapterHandler, submit.
      cbn [fst snd m_executor set_executor]. rewrite Hidle.
      cbn [app runTasks runTask].
      unfold addAdapterHandlerInExecutor, set_insert.
      cbn [m_adapterHandlers set_adapterHandlers set_executor]. rewrite Hempty.
      rewrite (bool_decide_eq_true_2 (h ∉ (∅ : gset Handler)))
        by apply not_elem_of_empty.
      rewrite (union_empty_r_L ({[h]} : gset Handler)).
      rewrite (bool_decide_eq_false_2 (h ∉ ({[h]} : gset Handler)))
        by (intros Hx; apply Hx, elem_of_singleton_2; reflexivity).
      rewrite (union_idemp_L ({[h]} : gset Handler)).
      reflexivity. }
    rewrite Hrun. cbn [fst snd m_adapterHandlers set_adapterHandlers].
    split; [reflexivity |]. split; [apply size_singleton | reflexivity].
  - intros Hidle. cbn [addAdapterHandler removeAdapterHandler fst].
    rewrite !(runExecutor_submit_idle true _ s Hidle). cbn [runTask].
    split; [reflexivity |]. split; [exact Hadd |].
    split; [reflexivity |]. split; [exact Hremove |].
    assert (Htaken : removeAdapterHandlerInExecutor h s
                     = (set_adapterHandlers (m_adapterHandlers s ∖ {[h]}) s, [])).
    { unfold removeAdapterHandlerInExecutor, set_erase.
      rewrite (bool_decide_eq_true_2 (h ∈ m_adapterHandlers s)) by exact Hin.
      reflexivity. }
    rewrite Htaken. split; [reflexivity |].
    cbn [fst m_adapterHandlers set_adapterHandlers].
    intros Hx. apply elem_of_difference in Hx as [_ Hx].
    apply Hx, elem_of_singleton_2. reflexivity.
Qed.

End Registration.

Lemma adapterHandler_registration_witness :
  let s := Sample.viaHandlers {[1%positive]} FocusState.NONE
             PlayerActivity.IDLE HaltInitiator.NONE in
  addAdapterHandlerInExecutor 1%positive s
  = (s, [EvLog LogLevel.ERROR "addAdapterHandlerInExecutor"
           "Duplicate adapter handler."])
  /\ removeAdapterHandlerInExecutor 2%positive s
     = (s, [EvLog LogLevel.WARN "removeAdapterHandlerInExecutor"
              "Nonexistent adapter handler."])
  /\ size (m_adapterHandlers
             (fst (runExecutor true
                     (fst (addAdapterHandler (Some 1%positive)
                             (fst (addAdapterHandler (Some 1%positive)
                                     Sample.fresh))))))) = 1%nat
  /\ runExecutor true (fst (removeAdapterHandler (Some 2%positive) s))
     = (s, [EvLog LogLevel.WARN "removeAdapterHandlerInExecutor"
              "Nonexistent adapter handler."]).
Proof.
  intros s.
  destruct (adapterHandler_registration s 1%positive 2%positive)
    as (Hadd & Hremove & Htwice & Hcalls);
    [vm_compute; reflexivity | vm_compute; congruence |].
  split; [exact Hadd |]. split; [exact Hremove |].
  destruct (Htwice Sample.fresh eq_refl eq_refl) as (_ & Hsize & _).
  split; [exact Hsize |].
  destruct (Hcalls eq_refl) as (_ & _ & _ & Hrun & _).
  exact Hrun.
Defined.

(** ** A payload without a player id *)

Section MissingPlayerId.
Context `{Externals}.

(** In both builds each of the six handlers reports the missing player id
    first and reports nothing else itself, whatever the registry holds. *)
Lemma missing_playerId_reported (v11 : bool) (handler : DirectiveHandler)
    (info : DirectiveInfo) (request : RequestType.t) (s : EMP) (doc : Document) :
  handler <> ptr_handleAuthorizeDiscoveredPlayers ->
  Parse (getPayload (directive info)) = Some doc ->
  retrieveString doc PLAYER_ID = None ->
  snd (call v11 handler info request s)
  = EvLog LogLevel.ERROR "preprocessDirectiveFailed" "nullPlayerId"
    :: sendExceptionEncounteredAndReportFailed info "No PlayerId in directive."
         defaultExceptionErrorType.
Proof.
  intros Hhandler Hparse Hid.
  pose proof (preprocessDirective_noPlayerId v11 info s doc Hparse Hid) as Hpre.
  destruct handler; try contradiction; simpl;
    unfold handleLogin, handleLogout, handlePlay, handlePlayControl,
      handleSeek, handleAdjustSeek;
    rewrite Hpre; destruct v11; reflexivity.
Qed.

(** Without [EXTERNALMEDIAPLAYER_1_1] that is all: the agent is unchanged
    and nothing is queued. *)
Lemma missing_playerId_build_1_0 (handler : DirectiveHandler)
    (info : DirectiveInfo) (request : RequestType.t) (s : EMP) (doc : Document) :
  handler <> ptr_handleAuthorizeDiscoveredPlayers ->
  Parse (getPayload (directive info)) = Some doc ->
  retrieveString doc PLAYER_ID = None ->
  fst (call false handler info request s) = s.
Proof.
  intros Hhandler Hparse Hid.
  pose proof (preprocessDirective_noPlayerId false info s doc Hparse Hid) as Hpre.
  destruct handler; try contradiction; simpl;
    unfold handleLogin, handleLogout, handlePlay, handlePlayControl,
      handleSeek, handleAdjustSeek;
    rewrite Hpre; reflexivity.
Qed.

Lemma setHaltInitiatorRequestHelper_keeps (request : RequestType.t) (s : EMP) :
  m_executor (setHaltInitiatorRequestHelper request s) = m_executor s
  /\ m_adapterHandlers (setHaltInitiatorRequestHelper request s)
     = m_adapterHandlers s.
Proof.
  unfold setHaltInitiatorRequestHelper.
  destruct request; repeat case_match; split; reflexivity.
Qed.

(** With [EXTERNALMEDIAPLAYER_1_1] each of the six handlers goes on to queue
    its broadcast to the adapter handlers; run by the executor, the task
    calls every handler with the payload and reports the directive as
    completed. *)
Lemma missing_playerId_build_1_1 (handler : DirectiveHandler)
    (info : DirectiveInfo) (request : RequestType.t) (s : EMP) (doc : Document) :
  handler <> ptr_handleAuthorizeDiscoveredPlayers ->
  Parse (getPayload (directive info)) = Some doc ->
  retrieveString doc PLAYER_ID = None ->
  exists task,
    m_executor (fst (call true handler info request s)) = m_executor s ++ [task]
    /\ snd (runTask true task (fst (call true handler info request s)))
       = forEachHandler s
           match handler with
           | ptr_handleLogin => HandlerCall.login (getPayload (directive info))
           | ptr_handleLogout => HandlerCall.logout (getPayload (directive info))
           | ptr_handlePlay => HandlerCall.play (getPayload (directive info))
           | ptr_handleSeek => HandlerCall.seek (getPayload (directive info))
           | ptr_handleAdjustSeek =>
               HandlerCall.adjustSeek (getPayload (directive info))
           | _ => HandlerCall.playControl (getPayload (directive info)) request
           end
         ++ setHandlingCompleted info.
Proof.
  intros Hhandler Hparse Hid.
  pose proof (preprocessDirective_noPlayerId true info s doc Hparse Hid) as Hpre.
  destruct (setHaltInitiatorRequestHelper_keeps request s) as [Hq Hh].
  destruct handler; try contradiction; simpl;
    unfold handleLogin, handleLogout, handlePlay, handlePlayControl,
      handleSeek, handleAdjustSeek;
    rewrite Hpre; eexists; (split; [cbn; rewrite ?Hq; reflexivity |]);
    cbn; unfold forEachHandler; cbn; rewrite ?Hh; reflexivity.
Qed.

End MissingPlayerId.

(** C1, at the input where the code departs from it.  Build with
    [EXTERNALMEDIAPLAYER_1_1], a registry holding the Spotify adapter,
    adapter handler 1 registered; a Login directive whose payload is the
    empty object.  The directive is reported as failed for want of a player
    id; [handleLogin] then takes its null-adapter branch and queues the
    broadcast, and the executor calls [login] on the handler with the payload
    and reports the same directive as completed.  The registry plays no
    part: with an empty registry the run is the same.  In the build without
    [EXTERNALMEDIAPLAYER_1_1] the failure report is all that happens. *)
Theorem login_without_playerId_is_broadcast :
  let info := Sample.mkDirective "ExternalMediaPlayer" "Login" (Some []) in
  let s := Sample.viaRegistry FocusState.NONE
             PlayerActivity.IDLE HaltInitiator.NONE in
  let t := Sample.viaHandlers {[1%positive]} FocusState.NONE
             PlayerActivity.IDLE HaltInitiator.NONE in
  let failed :=
    [EvLog LogLevel.ERROR "preprocessDirectiveFailed" "nullPlayerId";
     EvSendExceptionEncountered "unparsed-1" ExceptionErrorType.INTERNAL_ERROR
       "No PlayerId in directive.";
     EvSetFailed 9%positive "No PlayerId in directive.";
     EvRemoveDirective "msg-1"] in
  let broadcast :=
    [EvHandler 1%positive (HandlerCall.login (getPayload (directive info)));
     EvSetCompleted 9%positive;
     EvRemoveDirective "msg-1"] in
  handleDirective true (Some info) s = (submit (TaskLogin info) s, failed)
  /\ snd (runExecutor true (fst (handleDirective true (Some info) s))) = broadcast
  /\ handleDirective true (Some info) t = (submit (TaskLogin info) t, failed)
  /\ snd (runExecutor true (fst (handleDirective true (Some info) t))) = broadcast
  /\ handleDirective false (Some info) s = (s, failed).
Proof.
  intros info s t failed broadcast.
  repeat split; vm_compute; reflexivity.
Qed.

(** ** Handler states in the snapshots *)

Section Snapshots.
Context `{Externals}.

(** The session loop keeps the handler states whose player id is not empty. *)
Lemma sessionPlayersOfHandlers_length (adapterStates : list AdapterState) :
  length (sessionPlayersOfHandlers adapterStates)
  = length (filter (fun a => ss_playerId (sessionState a) <> "") adapterStates).
Proof. unfold sessionPlayersOfHandlers. apply length_fmap. Qed.

(** The playback loop keeps every handler state. *)
Lemma playbackPlayersOfHandlers_length (adapterStates : list AdapterState) :
  length (playbackPlayersOfHandlers adapterStates) = length adapterStates.
Proof. unfold playbackPlayersOfHandlers. apply length_fmap. Qed.

End Snapshots.

(** C9, at the input where the code departs from it.  Build with
    [EXTERNALMEDIAPLAYER_1_1], empty registry, adapter handler 1 registered,
    which reports one adapter whose player id is empty.  The session snapshot
    gets no block for it; the playback snapshot gets one. *)
Theorem empty_playerId_in_snapshots :
  let s := Sample.viaHandlers {[1%positive]} FocusState.NONE
             PlayerActivity.IDLE HaltInitiator.NONE in
  collectAdapterStates true s = [Sample.unnamedAdapterState]
  /\ sessionPlayers true (collectAdapterStates true s) s = []
  /\ playbackPlayers true (collectAdapterStates true s) s
     = [buildPlaybackState (Sample.idlePlayback "")].
Proof.
  intros s. split; [| split]; vm_compute; reflexivity.
Qed.


(** * Further properties of the directive handlers *)

Section HandlersMore.
Context `{Externals}.
Variable v11 : bool.

Lemma count_cons (p : Event -> bool) (e : Event) (ev : list Event) :
  count p (e :: ev) = ((if p e then 1 else 0) + count p ev)%nat.
Proof. unfold count. simpl. destruct (p e); reflexivity. Qed.

Lemma count_signal_removeDirective (info : DirectiveInfo) (r : Result) :
  count (isSignal r) (removeDirective info) = 0%nat.
Proof. unfold removeDirective. destruct (result info); reflexivity. Qed.

Lemma count_signal_completed (info : DirectiveInfo) (r : Result) :
  result info = Some r ->
  count (isSignal r) (setHandlingCompleted info) = 1%nat.
Proof.
  intros Hr. unfold setHandlingCompleted.
  rewrite count_app, count_signal_removeDirective, Hr, count_cons. simpl.
  rewrite bool_decide_eq_true_2 by reflexivity. reflexivity.
Qed.

Lemma count_signal_failed (info : DirectiveInfo) (r : Result)
    (m : string) (t : ExceptionErrorType.t) :
  result info = Some r ->
  count (isSignal r) (sendExceptionEncounteredAndReportFailed info m t) = 1%nat.
Proof.
  intros Hr. unfold sendExceptionEncounteredAndReportFailed.
  rewrite !count_app, count_signal_removeDirective, Hr, !count_cons. simpl.
  rewrite bool_decide_eq_true_2 by reflexivity. reflexivity.
Qed.

(** X1. A directive whose payload parses and names a player of the registry
    is answered on the spot, whichever of the six handlers takes it: the
    agent is left as it was, so no task is queued and the halt initiator is
    not touched; either the directive is completed and then one call goes to
    the resolved adapter, or it is failed and no call is made; and a result
    handle hears exactly one of [setCompleted] and [setFailed]. *)
Theorem resolved_directive_signals_once
    (handler : DirectiveHandler) (info : DirectiveInfo) (request : RequestType.t)
    (s : EMP) (doc : Document) (playerId : string) (adapter : Adapter) :
  handler <> ptr_handleAuthorizeDiscoveredPlayers ->
  Parse (getPayload (directive info)) = Some doc ->
  retrieveString doc PLAYER_ID = Some playerId ->
  m_adapters s !! playerId = Some (Some adapter) ->
  let r := call v11 handler info request s in
  fst r = s
  /\ ((exists c, snd r = setHandlingCompleted info ++ [EvAdapter adapter c])
      \/ (exists reason message,
            snd r = handleDirectiveFailed info reason message))
  /\ count isHandlerCall (snd r) = 0%nat
  /\ (forall r0, result info = Some r0 -> count (isSignal r0) (snd r) = 1%nat).
Proof.
  intros Hhandler Hparse Hid Hfind r.
  pose proof (preprocessDirective_resolved v11 info s doc playerId adapter
                Hparse Hid Hfind) as Hpre.
  assert (Hshape : fst r = s
            /\ ((exists c, snd r = setHandlingCompleted info ++ [EvAdapter adapter c])
                \/ (exists reason message,
                      snd r = handleDirectiveFailed info reason message))).
  { subst r.
    destruct handler; try contradiction; simpl;
      unfold handleLogin, handleLogout, handlePlay, handlePlayControl,
        handleSeek, handleAdjustSeek;
      rewrite Hpre; repeat case_match; simpl; split; eauto. }
  destruct Hshape as [Hstate Hshape].
  split; [exact Hstate |]. split; [exact Hshape |].
  destruct Hshape as [[c Hev] | (reason & message & Hev)]; rewrite Hev.
  - split.
    + rewrite count_app. unfold setHandlingCompleted, removeDirective.
      destruct (result info); reflexivity.
    + intros r0 Hr0. rewrite count_app, (count_signal_completed info r0 Hr0).
      reflexivity.
  - split.
    + unfold handleDirectiveFailed, sendExceptionEncounteredAndReportFailed,
        removeDirective.
      destruct (result info); reflexivity.
    + intros r0 Hr0. unfold handleDirectiveFailed.
      rewrite count_cons, (count_signal_failed info r0 _ _ Hr0). reflexivity.
Qed.

(** What a handler can do to the agent: nothing, or queue one task, after
    updating the halt initiator in the case of Play and PlayControl. *)
Lemma call_state (handler : DirectiveHandler) (info : DirectiveInfo)
    (request : RequestType.t) (s : EMP) :
  handler <> ptr_handleAuthorizeDiscoveredPlayers \/ v11 = true ->
  fst (call v11 handler info request s) = s
  \/ (v11 = true
      /\ exists t, fst (call v11 handler info request s) = submit t s
                   \/ fst (call v11 handler info request s)
                      = submit t (setHaltInitiatorRequestHelper request s)).
Proof.
  intros Hbuild.
  destruct handler; simpl;
    unfold handleAuthorizeDiscoveredPlayers, handleLogin, handleLogout,
      handlePlay, handlePlayControl, handleSeek, handleAdjustSeek;
    repeat case_match; simpl; subst; eauto 6;
    destruct Hbuild as [Hne | Heq]; solve [contradiction | eauto 6].
Qed.

Lemma setHaltInitiatorRequestHelper_frame (request : RequestType.t) (s : EMP) :
  m_adapters (setHaltInitiatorRequestHelper request s) = m_adapters s
  /\ m_adapterHandlers (setHaltInitiatorRequestHelper request s) = m_adapterHandlers s
  /\ m_observers (setHaltInitiatorRequestHelper request s) = m_observers s
  /\ m_playerInFocus (setHaltInitiatorRequestHelper request s) = m_playerInFocus s
  /\ m_focus (setHaltInitiatorRequestHelper request s) = m_focus s
  /\ m_focusAcquireInProgress (setHaltInitiatorRequestHelper request s)
     = m_focusAcquireInProgress s
  /\ m_currentActivity (setHaltInitiatorRequestHelper request s) = m_currentActivity s
  /\ m_executor (setHaltInitiatorRequestHelper request s) = m_executor s.
Proof.
  unfold setHaltInitiatorRequestHelper.
  destruct request; repeat case_match; repeat split; reflexivity.
Qed.

(** The 1.0 table has no entry for [handleAuthorizeDiscoveredPlayers]. *)
Lemma table_1_0_handlers (key : NamespaceAndName) (request : RequestType.t)
    (handler : DirectiveHandler) :
  m_directiveToHandlerMap false !! key = Some (request, handler) ->
  handler <> ptr_handleAuthorizeDiscoveredPlayers.
Proof.
  intros Hfind. apply elem_of_list_to_map_2 in Hfind.
  unfold directiveToHandlerList in Hfind. simpl in Hfind.
  repeat (apply elem_of_cons in Hfind as [Hfind | Hfind];
          [inversion Hfind; discriminate |]).
  apply elem_of_nil in Hfind. contradiction.
Qed.

(** X2. Handling a directive, whatever it is, leaves the registry, the
    handler set, the observers, the player in focus, the focus, the
    acquire-in-progress flag and the activity as they were, and adds at most
    one task to the executor queue; built without [EXTERNALMEDIAPLAYER_1_1]
    it leaves the whole agent as it was. *)
Theorem handleDirective_frame (info : option DirectiveInfo) (s : EMP) :
  let s' := fst (handleDirective v11 info s) in
  m_adapters s' = m_adapters s
  /\ m_adapterHandlers s' = m_adapterHandlers s
  /\ m_observers s' = m_observers s
  /\ m_playerInFocus s' = m_playerInFocus s
  /\ m_focus s' = m_focus s
  /\ m_focusAcquireInProgress s' = m_focusAcquireInProgress s
  /\ m_currentActivity s' = m_currentActivity s
  /\ (exists ts, m_executor s' = m_executor s ++ ts /\ (length ts <= 1)%nat)
  /\ (v11 = false -> s' = s).
Proof.
  intros s'.
  assert (Hcases : s' = s
            \/ (v11 = true
                /\ exists t request,
                     s' = submit t s
                     \/ s' = submit t (setHaltInitiatorRequestHelper request s))).
  { subst s'. unfold handleDirective. destruct info as [info |]; [| left; reflexivity].
    destruct (m_directiveToHandlerMap v11 !! _) as [[request handler] |] eqn:Hfind;
      [| left; reflexivity].
    assert (Hbuild : handler <> ptr_handleAuthorizeDiscoveredPlayers \/ v11 = true).
    { destruct v11; [right; reflexivity | left].
      exact (table_1_0_handlers _ _ _ Hfind). }
    destruct (call_state handler info request s Hbuild) as [Hs | [Hv [t Ht]]].
    - left. exact Hs.
    - right. split; [exact Hv |]. exists t, request. exact Ht. }
  destruct Hcases as [Hs | [Hv (t & request & [Hs | Hs])]]; rewrite Hs.
  - repeat split; try reflexivity. exists []. rewrite app_nil_r. split; [reflexivity | simpl; lia].
  - repeat split; try reflexivity.
    + exists [t]. split; [reflexivity | simpl; lia].
    + intros Hf. congruence.
  - destruct (setHaltInitiatorRequestHelper_frame request s)
      as (Ha & Hh & Ho & Hp & Hf & Hi & Hc & Hq).
    unfold submit. simpl. rewrite Hq.
    repeat split; try assumption.
    + exists [t]. split; [reflexivity | simpl; lia].
    + intros Hfalse. congruence.
Qed.

End HandlersMore.


Section HandlersFallback.
Context `{Externals}.



End HandlersFallback.

Section HandlersReject.
Context `{Externals}.
Variable v11 : bool.

(** X4. A payload that does not parse is reported by each of the seven
    handlers as "Unable to parse payload", with exception type
    UNEXPECTED_INFORMATION_RECEIVED, before anything else is looked at; the
    handler itself calls no adapter and no adapter handler, and
    [handleAuthorizeDiscoveredPlayers] leaves the agent as it was. *)
Theorem malformed_payload_reported
    (handler : DirectiveHandler) (info : DirectiveInfo) (request : RequestType.t)
    (s : EMP) :
  Parse (getPayload (directive info)) = None ->
  snd (call v11 handler info request s)
  = EvLog LogLevel.ERROR "parseDirectivePayloadFailed"
          (parseErrorReason (getPayload (directive info)))
    :: sendExceptionEncounteredAndReportFailed info "Unable to parse payload"
         ExceptionErrorType.UNEXPECTED_INFORMATION_RECEIVED
  /\ silent (snd (call v11 handler info request s))
  /\ fst (call v11 ptr_handleAuthorizeDiscoveredPlayers info request s) = s.
Proof.
  intros Hparse.
  assert (Hev : snd (call v11 handler info request s)
                = EvLog LogLevel.ERROR "parseDirectivePayloadFailed"
                        (parseErrorReason (getPayload (directive info)))
                  :: sendExceptionEncounteredAndReportFailed info
                       "Unable to parse payload"
                       ExceptionErrorType.UNEXPECTED_INFORMATION_RECEIVED).
  { destruct handler; simpl;
      unfold handleAuthorizeDiscoveredPlayers, handleLogin, handleLogout,
        handlePlay, handlePlayControl, handleSeek, handleAdjustSeek,
        preprocessDirective, parseDirectivePayload;
      rewrite Hparse; destruct v11; reflexivity. }
  split; [exact Hev |]. split.
  - rewrite Hev. auto with trace.
  - simpl. unfold handleAuthorizeDiscoveredPlayers, parseDirectivePayload.
    rewrite Hparse. reflexivity.
Qed.

(** X5. A payload that parses and names a player the registry does not
    hold is reported by each of the six handlers as "Unrecogonized
    PlayerId.", provided the registry is consulted at all, that is, in the
    1.1 build, provided it is not empty; the handler itself calls no adapter
    and no adapter handler. *)
Theorem unrecognized_playerId_reported
    (handler : DirectiveHandler) (info : DirectiveInfo) (request : RequestType.t)
    (s : EMP) (doc : Document) (playerId : string) :
  handler <> ptr_handleAuthorizeDiscoveredPlayers ->
  Parse (getPayload (directive info)) = Some doc ->
  retrieveString doc PLAYER_ID = Some playerId ->
  m_adapters s !! playerId = None ->
  (v11 = true -> m_adapters s <> ∅) ->
  snd (call v11 handler info request s)
  = EvLog LogLevel.ERROR "preprocessDirectiveFailed" "noAdapterForPlayerId"
    :: sendExceptionEncounteredAndReportFailed info "Unrecogonized PlayerId."
         defaultExceptionErrorType
  /\ silent (snd (call v11 handler info request s)).
Proof.
  intros Hhandler Hparse Hid Hfind Hregistry.
  assert (Hpre : preprocessDirective v11 info s
                 = (None,
                    EvLog LogLevel.ERROR "preprocessDirectiveFailed"
                          "noAdapterForPlayerId"
                    :: sendExceptionEncounteredAndReportFailed info
                         "Unrecogonized PlayerId." defaultExceptionErrorType)).
  { unfold preprocessDirective, parseDirectivePayload. rewrite Hparse, Hid.
    destruct v11; simpl.
    - rewrite bool_decide_eq_false_2 by (apply Hregistry; reflexivity).
      rewrite Hfind. reflexivity.
    - rewrite Hfind. reflexivity. }
  assert (Hev : snd (call v11 handler info request s)
                = EvLog LogLevel.ERROR "preprocessDirectiveFailed"
                        "noAdapterForPlayerId"
                  :: sendExceptionEncounteredAndReportFailed info
                       "Unrecogonized PlayerId." defaultExceptionErrorType).
  { destruct handler; try contradiction; simpl;
      unfold handleLogin, handleLogout, handlePlay, handlePlayControl,
        handleSeek, handleAdjustSeek;
      rewrite Hpre; destruct v11; reflexivity. }
  split; [exact Hev |]. rewrite Hev. auto with trace.
Qed.

End HandlersReject.


Section HandlersAccept.
Context `{Externals}.


Lemma lookup_Login (v11 : bool) :
  m_directiveToHandlerMap v11 !! (EXTERNALMEDIAPLAYER_NAMESPACE, "Login")
  = Some (RequestType.LOGIN, ptr_handleLogin).
Proof. destruct v11; vm_compute; reflexivity. Qed.

Lemma lookup_SetSeekPosition (v11 : bool) :
  m_directiveToHandlerMap v11 !! (SEEKCONTROLLER_NAMESPACE, "SetSeekPosition")
  = Some (RequestType.SEEK, ptr_handleSeek).
Proof. destruct v11; vm_compute; reflexivity. Qed.


(** X7. A Play directive that resolves to a registry adapter and carries a
    [playbackContextToken]: an absent [index] or [offsetInMilliseconds]
    counts as 0.  Built without [EXTERNALMEDIAPLAYER_1_1] the directive is
    completed and [handlePlay] called with the three values.  Built with it,
    the directive is completed, and [handlePlay] called with seven values,
    only if [skillToken], [playbackSessionId], [navigation] and [preload]
    are all there; if any of the four is missing the directive is failed
    and no adapter is called. *)
Theorem handlePlay_fields (info : DirectiveInfo) (s : EMP) (doc : Document)
    (playerId : string) (adapter : Adapter) (playbackContextToken : string) :
  getNamespace (directive info) = EXTERNALMEDIAPLAYER_NAMESPACE ->
  getName (directive info) = "Play" ->
  Parse (getPayload (directive info)) = Some doc ->
  retrieveString doc PLAYER_ID = Some playerId ->
  m_adapters s !! playerId = Some (Some adapter) ->
  retrieveString doc "playbackContextToken" = Some playbackContextToken ->
  let index := default 0 (retrieveInt64 doc "index") in
  let offset := default 0 (retrieveInt64 doc "offsetInMilliseconds") in
  handleDirective false (Some info) s
  = (s,
     setHandlingCompleted info
     ++ [EvAdapter adapter
           (AdapterCall.handlePlay playbackContextToken index offset)])
  /\ (forall skillToken playbackSessionId navigation preload,
        retrieveString doc "skillToken" = Some skillToken ->
        retrieveString doc "playbackSessionId" = Some playbackSessionId ->
        retrieveString doc "navigation" = Some navigation ->
        retrieveBool doc "preload" = Some preload ->
        handleDirective true (Some info) s
        = (s,
           setHandlingCompleted info
           ++ [EvAdapter adapter
                 (AdapterCall.handlePlay_1_1 playbackContextToken index offset
                    skillToken playbackSessionId navigation preload)]))
  /\ (retrieveString doc "skillToken" = None
      \/ retrieveString doc "playbackSessionId" = None
      \/ retrieveString doc "navigation" = None
      \/ retrieveBool doc "preload" = None ->
      (exists reason message,
         handleDirective true (Some info) s
         = (s, handleDirectiveFailed info reason message))
      /\ silent (snd (handleDirective true (Some info) s))).
Proof.
  intros Hns Hname Hparse Hid Hfind Htoken index offset.
  assert (Hcall : forall v11,
            handleDirective v11 (Some info) s
            = handlePlay v11 info RequestType.PLAY s).
  { intros v11.
    rewrite (handleDirective_known v11 info s RequestType.PLAY ptr_handlePlay)
      by (rewrite Hns, Hname; apply lookup_Play).
    reflexivity. }
  rewrite !Hcall. unfold handlePlay.
  rewrite !(preprocessDirective_resolved _ info s doc playerId adapter Hparse Hid Hfind).
  rewrite Htoken. cbn [app]. fold index offset.
  split; [reflexivity |]. split.
  - intros skillToken playbackSessionId navigation preload Hs Hp Hn Hl.
    rewrite Hs, Hp, Hn, Hl. reflexivity.
  - intros Hmissing.
    destruct (retrieveString doc "skillToken");
      [destruct (retrieveString doc "playbackSessionId");
       [destruct (retrieveString doc "navigation");
        [destruct (retrieveBool doc "preload");
         [exfalso; destruct Hmissing as [Hm | [Hm | [Hm | Hm]]]; discriminate |]
        |] |] |];
      (split; [eexists _, _; reflexivity
              | cbn [snd]; apply silent_handleDirectiveFailed]).
Qed.

(** X8. A SetSeekPosition directive that resolves to a registry adapter and
    carries a position is completed and [handleSeek] is called with that
    position as it is: unlike the delta of AdjustSeekPosition, the position
    is not checked against any bound. *)
Theorem handleSeek_forwards_position (v11 : bool) (info : DirectiveInfo) (s : EMP)
    (doc : Document) (playerId : string) (adapter : Adapter) (position : Z) :
  getNamespace (directive info) = SEEKCONTROLLER_NAMESPACE ->
  getName (directive info) = "SetSeekPosition" ->
  Parse (getPayload (directive info)) = Some doc ->
  retrieveString doc PLAYER_ID = Some playerId ->
  m_adapters s !! playerId = Some (Some adapter) ->
  retrieveInt64 doc POSITIONINMS = Some position ->
  handleDirective v11 (Some info) s
  = (s, setHandlingCompleted info
        ++ [EvAdapter adapter (AdapterCall.handleSeek position)]).
Proof.
  intros Hns Hname Hparse Hid Hfind Hposition.
  rewrite (handleDirective_known v11 info s RequestType.SEEK ptr_handleSeek)
    by (rewrite Hns, Hname; apply lookup_SetSeekPosition).
  simpl. unfold handleSeek.
  rewrite (preprocessDirective_resolved v11 info s doc playerId adapter Hparse Hid Hfind).
  rewrite Hposition. reflexivity.
Qed.

(** X9. A Login directive that resolves to a registry adapter is completed,
    and [handleLogin] called, exactly when [accessToken],
    [tokenRefreshIntervalInMilliseconds] and [forceLogin] are all there; the
    user name is optional and the adapter is given the empty string when it
    is absent. *)
Theorem handleLogin_fields (v11 : bool) (info : DirectiveInfo) (s : EMP)
    (doc : Document) (playerId : string) (adapter : Adapter) :
  getNamespace (directive info) = EXTERNALMEDIAPLAYER_NAMESPACE ->
  getName (directive info) = "Login" ->
  Parse (getPayload (directive info)) = Some doc ->
  retrieveString doc PLAYER_ID = Some playerId ->
  m_adapters s !! playerId = Some (Some adapter) ->
  (forall accessToken refreshInterval forceLogin,
     retrieveString doc "accessToken" = Some accessToken ->
     retrieveInt64 doc "tokenRefreshIntervalInMilliseconds" = Some refreshInterval ->
     retrieveBool doc "forceLogin" = Some forceLogin ->
     handleDirective v11 (Some info) s
     = (s,
        setHandlingCompleted info
        ++ [EvAdapter adapter
              (AdapterCall.handleLogin accessToken
                 (default "" (retrieveString doc USERNAME))
                 forceLogin refreshInterval)]))
  /\ (retrieveString doc "accessToken" = None
      \/ retrieveInt64 doc "tokenRefreshIntervalInMilliseconds" = None
      \/ retrieveBool doc "forceLogin" = None ->
      (exists reason message,
         handleDirective v11 (Some info) s
         = (s, handleDirectiveFailed info reason message))
      /\ silent (snd (handleDirective v11 (Some info) s))).
Proof.
  intros Hns Hname Hparse Hid Hfind.
  rewrite (handleDirective_known v11 info s RequestType.LOGIN ptr_handleLogin)
    by (rewrite Hns, Hname; apply lookup_Login).
  simpl. unfold handleLogin.
  rewrite (preprocessDirective_resolved v11 info s doc playerId adapter Hparse Hid Hfind).
  cbn [app]. split.
  - intros accessToken refreshInterval forceLogin Ha Hr Hf.
    rewrite Ha, Hr, Hf. reflexivity.
  - intros Hmissing.
    destruct (retrieveString doc "accessToken");
      [destruct (retrieveInt64 doc "tokenRefreshIntervalInMilliseconds");
       [destruct (retrieveBool doc "forceLogin");
        [exfalso; destruct Hmissing as [Hm | [Hm | Hm]]; discriminate |] |] |];
      (split; [eexists _, _; reflexivity
              | cbn [snd]; apply silent_handleDirectiveFailed]).
Qed.

End HandlersAccept.


(** * Further properties of the focus arbitration *)

Section FocusMore.
Context `{Externals}.

Lemma count_forEachHandler_none (p : Event -> bool) (s : EMP) (c : HandlerCall.t) :
  (forall h, p (EvHandler h c) = false) ->
  count p (forEachHandler s c) = 0%nat.
Proof.
  intros Hp. unfold forEachHandler.
  induction (elements (m_adapterHandlers s)) as [| h hs IH].
  - reflexivity.
  - rewrite fmap_cons, count_cons, Hp, IH. reflexivity.
Qed.

(** What every focus callback does to the agent, whatever branch it takes. *)
Lemma executeOnFocusChanged_frame (newFocus : FocusState.t) (s : EMP) :
  let r := executeOnFocusChanged newFocus s in
  m_focus (fst r) = newFocus
  /\ m_focusAcquireInProgress (fst r) = false
  /\ m_adapters (fst r) = m_adapters s
  /\ m_adapterHandlers (fst r) = m_adapterHandlers s
  /\ m_observers (fst r) = m_observers s
  /\ m_playerInFocus (fst r) = m_playerInFocus s
  /\ m_executor (fst r) = m_executor s.
Proof.
  unfold executeOnFocusChanged.
  case_bool_decide as Hfocus; [simpl; repeat split; try reflexivity; exact Hfocus |].
  simpl. case_bool_decide; [repeat split; reflexivity |].
  destruct (m_adapters s !! m_playerInFocus s); [repeat split; reflexivity |].
  destruct newFocus, (m_currentActivity s); simpl;
    repeat case_bool_decide; simpl; repeat split; reflexivity.
Qed.

(** X10. After any focus callback the channel is asked for again by the
    next [setPlayerInFocus] with acquire intent exactly when the focus the
    callback brought is NONE: every callback records the new focus and ends
    the acquisition in progress, whatever else it does, and it leaves the
    registry, the handler set, the observers, the player in focus and the
    executor queue alone. *)
Theorem acquire_after_focus_change (newFocus : FocusState.t) (s : EMP)
    (player : string) :
  let r := executeOnFocusChanged newFocus s in
  m_focus (fst r) = newFocus
  /\ m_focusAcquireInProgress (fst r) = false
  /\ m_adapters (fst r) = m_adapters s
  /\ m_adapterHandlers (fst r) = m_adapterHandlers s
  /\ m_observers (fst r) = m_observers s
  /\ m_playerInFocus (fst r) = m_playerInFocus s
  /\ m_executor (fst r) = m_executor s
  /\ count isAcquire (snd (setPlayerInFocus player true (fst r)))
     = (if bool_decide (newFocus = FocusState.NONE) then 1%nat else 0%nat).
Proof.
  intros r.
  destruct (executeOnFocusChanged_frame newFocus s)
    as (Hf & Hi & Ha & Hh & Ho & Hp & Hq).
  fold r in Hf, Hi, Ha, Hh, Ho, Hp, Hq.
  repeat (split; [assumption |]).
  rewrite setPlayerInFocus_acquire. unfold mayAcquire. rewrite Hf, Hi.
  rewrite (bool_decide_eq_true_2 (false <> true)) by discriminate.
  rewrite andb_true_r. case_bool_decide; reflexivity.
Qed.

(** X11. Of the focus callbacks, that is of [executeOnFocusChanged]: a
    callback that notifies no waiter has changed neither the activity nor
    the halt initiator and has issued no control, and no callback notifies
    more than once; so every change of the activity made by a focus callback
    is published to the waiters.  The same is not true of
    [setPlayerInFocus]: it never notifies, although its guarded acquire
    resets the activity to IDLE and the halt initiator to NONE. *)
Theorem callback_activity_change_is_published (newFocus : FocusState.t) (s : EMP) :
  let r := executeOnFocusChanged newFocus s in
  (count isNotifyAll (snd r) = 1%nat
   \/ (count isNotifyAll (snd r) = 0%nat
       /\ m_currentActivity (fst r) = m_currentActivity s
       /\ m_haltInitiator (fst r) = m_haltInitiator s
       /\ silent (snd r)))
  /\ (forall player focusAcquire,
        let q := setPlayerInFocus player focusAcquire s in
        count isNotifyAll (snd q) = 0%nat
        /\ (focusAcquire = true -> mayAcquire s = true ->
            m_currentActivity (fst q) = PlayerActivity.IDLE
            /\ m_haltInitiator (fst q) = HaltInitiator.NONE)
        /\ (focusAcquire = false \/ mayAcquire s = false ->
            m_currentActivity (fst q) = m_currentActivity s
            /\ m_haltInitiator (fst q) = m_haltInitiator s)).
Proof.
  intros r. subst r. split; cycle 1.
  { intros player focusAcquire q. subst q.
    unfold setPlayerInFocus, mayAcquire. cbn [m_focus m_focusAcquireInProgress set_playerInFocus].
    destruct focusAcquire.
    - destruct (bool_decide (m_focus s = FocusState.NONE)
                && bool_decide (m_focusAcquireInProgress s <> true)) eqn:Hguard;
        cbn; (split; [reflexivity |]); split; try (intros; split; reflexivity);
        try discriminate; intros [Hx | Hx]; discriminate.
    - destruct (bool_decide (player = m_playerInFocus s)
                && bool_decide (m_focus s <> FocusState.NONE));
        cbn; (split; [reflexivity |]); split; try discriminate;
        intros _; split; reflexivity. }
  assert (Hnotify : forall (s0 : EMP) p q,
            count isNotifyAll
              (EvNotifyAll :: forEachHandler s0 (HandlerCall.playControlForPlayer p q))
            = 1%nat).
  { intros s0 p q. rewrite count_cons, count_forEachHandler_none by reflexivity.
    reflexivity. }
  unfold executeOnFocusChanged.
  case_bool_decide; [right; simpl; repeat split; auto with trace |].
  simpl. case_bool_decide;
    [right; repeat split; auto using silent_unexpected |].
  destruct (m_adapters s !! m_playerInFocus s);
    [right; repeat split; auto using silent_unexpected |].
  destruct newFocus, (m_currentActivity s) eqn:Hact; simpl;
    repeat case_bool_decide; simpl;
    first [ left; solve [apply Hnotify | reflexivity]
          | right; repeat split; auto using silent_unexpected with trace ].
Qed.

(** One callback other than NONE keeps an external pause and resumes
    nothing. *)
Lemma external_pause_step (newFocus : FocusState.t) (s : EMP) :
  newFocus <> FocusState.NONE ->
  m_haltInitiator s = HaltInitiator.EXTERNAL_PAUSE ->
  m_haltInitiator (fst (executeOnFocusChanged newFocus s))
  = HaltInitiator.EXTERNAL_PAUSE
  /\ count (isRequest RequestType.RESUME)
       (snd (executeOnFocusChanged newFocus s)) = 0%nat.
Proof.
  intros Hnone Hhalt. unfold executeOnFocusChanged.
  case_bool_decide; [simpl; split; [exact Hhalt | reflexivity] |].
  simpl. case_bool_decide; [split; [exact Hhalt | reflexivity] |].
  destruct (m_adapters s !! m_playerInFocus s);
    [split; [exact Hhalt | reflexivity] |].
  destruct newFocus; try contradiction.
  - rewrite bool_decide_eq_true_2 by exact Hhalt. split; [exact Hhalt | reflexivity].
  - destruct (m_currentActivity s);
      rewrite bool_decide_eq_false_2 by (intros Hx; exact (Hx Hhalt));
      simpl; (split; [exact Hhalt |]);
      rewrite count_cons; simpl;
      apply count_forEachHandler_none; reflexivity.
Qed.

Lemma focusChanges_cons (f : FocusState.t) (fs : list FocusState.t) (s : EMP) :
  focusChanges (f :: fs) s
  = (fst (focusChanges fs (fst (executeOnFocusChanged f s))),
     snd (executeOnFocusChanged f s)
     ++ snd (focusChanges fs (fst (executeOnFocusChanged f s)))).
Proof.
  unfold focusChanges. rewrite fmap_cons. cbn [runTasks runTask].
  destruct (executeOnFocusChanged f s) as [s1 ev1]. cbn [fst snd].
  destruct (runTasks true (TaskOnFocusChanged <$> fs) s1) as [s2 ev2].
  reflexivity.
Qed.

Lemma external_pause_run (fs : list FocusState.t) (s : EMP) :
  Forall (fun f => f <> FocusState.NONE) fs ->
  m_haltInitiator s = HaltInitiator.EXTERNAL_PAUSE ->
  m_haltInitiator (fst (focusChanges fs s)) = HaltInitiator.EXTERNAL_PAUSE
  /\ count (isRequest RequestType.RESUME) (snd (focusChanges fs s)) = 0%nat.
Proof.
  intros Hfs. revert s. induction Hfs as [| f fs Hf Hfs IH]; intros s Hhalt.
  - split; [exact Hhalt | reflexivity].
  - rewrite focusChanges_cons. cbn [fst snd].
    destruct (external_pause_step f s Hf Hhalt) as [Hstep Hquiet].
    destruct (IH _ Hstep) as [Hrest Hquiet'].
    split; [exact Hrest |]. rewrite count_app, Hquiet, Hquiet'. reflexivity.
Qed.

(** X12. Once the halt initiator is EXTERNAL_PAUSE, no run of FOREGROUND
    and BACKGROUND callbacks, however long, changes it or issues a RESUME
    control: an external pause is not undone by the focus coming back. *)
Theorem external_pause_is_kept (fs : list FocusState.t) (s : EMP) :
  Forall (fun f => f <> FocusState.NONE) fs ->
  m_haltInitiator s = HaltInitiator.EXTERNAL_PAUSE ->
  m_haltInitiator (fst (focusChanges fs s)) = HaltInitiator.EXTERNAL_PAUSE
  /\ count (isRequest RequestType.RESUME) (snd (focusChanges fs s)) = 0%nat.
Proof. exact (external_pause_run fs s). Qed.

Lemma background_then_foreground_run (s : EMP) :
  m_focus s <> FocusState.BACKGROUND ->
  m_playerInFocus s <> "" ->
  m_adapters s !! m_playerInFocus s = None ->
  m_haltInitiator s <> HaltInitiator.EXTERNAL_PAUSE ->
  let r := focusChanges [FocusState.BACKGROUND; FocusState.FOREGROUND] s in
  m_currentActivity (fst r) = PlayerActivity.PLAYING
  /\ m_focus (fst r) = FocusState.FOREGROUND
  /\ m_haltInitiator (fst r) = HaltInitiator.FOCUS_CHANGE_PAUSE
  /\ snd r
     = EvNotifyAll
       :: forEachHandler s
            (HandlerCall.playControlForPlayer (m_playerInFocus s) RequestType.PAUSE)
       ++ EvNotifyAll
          :: forEachHandler s
               (HandlerCall.playControlForPlayer (m_playerInFocus s)
                  RequestType.RESUME).
Proof.
  intros Hfocus Hplayer Hfind Hhalt r. subst r.
  rewrite !focusChanges_cons. unfold focusChanges. cbn [fmap list_fmap runTasks fst snd].
  rewrite app_nil_r.
  assert (Hbg : executeOnFocusChanged FocusState.BACKGROUND s
                = (set_currentActivity PlayerActivity.PAUSED
                     (set_haltInitiator HaltInitiator.FOCUS_CHANGE_PAUSE
                        (set_focusAcquireInProgress false
                           (set_focus FocusState.BACKGROUND s))),
                   EvNotifyAll
                   :: forEachHandler s
                        (HandlerCall.playControlForPlayer (m_playerInFocus s)
                           RequestType.PAUSE))).
  { unfold executeOnFocusChanged.
    rewrite bool_decide_eq_false_2 by exact Hfocus. simpl.
    rewrite bool_decide_eq_false_2 by exact Hplayer.
    rewrite Hfind.
    rewrite bool_decide_eq_true_2 by exact Hhalt.
    destruct (m_currentActivity s); reflexivity. }
  rewrite Hbg. cbn [fst snd].
  unfold executeOnFocusChanged. simpl.
  rewrite bool_decide_eq_false_2 by exact Hplayer.
  rewrite Hfind. simpl.
  repeat split; reflexivity.
Qed.

(** X13. Handling through adapter handlers (the player in focus is named
    and not in the registry), on an agent whose focus is not BACKGROUND, so
    that the BACKGROUND callback changes the focus, and whose halt initiator
    is not EXTERNAL_PAUSE: a BACKGROUND callback followed by a FOREGROUND
    callback ends with the activity PLAYING, whatever the activity was
    before (IDLE, STOPPED and FINISHED included).  Each registered handler
    receives one PAUSE and then one RESUME for the player in focus, the
    waiters are notified twice, and the halt initiator is left at
    FOCUS_CHANGE_PAUSE. *)
Theorem background_then_foreground (s : EMP) :
  m_focus s <> FocusState.BACKGROUND ->
  m_playerInFocus s <> "" ->
  m_adapters s !! m_playerInFocus s = None ->
  m_haltInitiator s <> HaltInitiator.EXTERNAL_PAUSE ->
  let r := focusChanges [FocusState.BACKGROUND; FocusState.FOREGROUND] s in
  m_currentActivity (fst r) = PlayerActivity.PLAYING
  /\ m_focus (fst r) = FocusState.FOREGROUND
  /\ m_haltInitiator (fst r) = HaltInitiator.FOCUS_CHANGE_PAUSE
  /\ snd r
     = EvNotifyAll
       :: forEachHandler s
            (HandlerCall.playControlForPlayer (m_playerInFocus s) RequestType.PAUSE)
       ++ EvNotifyAll
          :: forEachHandler s
               (HandlerCall.playControlForPlayer (m_playerInFocus s)
                  RequestType.RESUME).
Proof. exact (background_then_foreground_run s). Qed.

(** X14. What a caller of [onFocusChanged] waits for after a BACKGROUND or
    a NONE grant holds once the executor has reacted if and only if it held
    before or the reaction went through the transition table, that is, the
    grant changed the focus and the player in focus is named and not in the
    registry.  Otherwise (activity PLAYING or BUFFER_UNDERRUN, for NONE also
    PAUSED, and one of the three guards in the way) the activity is not
    moved and the wait can only time out. *)
Theorem wait_predicate_after (newFocus : FocusState.t) (s : EMP)
    (predicate : PlayerActivity.t -> bool) :
  waitPredicate newFocus = Some predicate ->
  predicate (m_currentActivity (fst (executeOnFocusChanged newFocus s)))
  = predicate (m_currentActivity s)
    || (bool_decide (m_focus s <> newFocus)
        && bool_decide (m_playerInFocus s <> "")
        && bool_decide (m_adapters s !! m_playerInFocus s = None)).
Proof.
  intros Hwait. unfold executeOnFocusChanged.
  case_bool_decide as Hfocus.
  { rewrite (bool_decide_eq_false_2 (m_focus s <> newFocus))
      by (intros Hx; exact (Hx Hfocus)).
    simpl. rewrite orb_false_r. reflexivity. }
  rewrite (bool_decide_eq_true_2 (m_focus s <> newFocus)) by exact Hfocus.
  simpl. case_bool_decide as Hplayer.
  { rewrite (bool_decide_eq_false_2 (m_playerInFocus s <> ""))
      by (intros Hx; exact (Hx Hplayer)).
    simpl. rewrite orb_false_r. reflexivity. }
  rewrite (bool_decide_eq_true_2 (m_playerInFocus s <> "")) by exact Hplayer.
  destruct (m_adapters s !! m_playerInFocus s) as [a |] eqn:Hfind.
  { rewrite bool_decide_eq_false_2 by discriminate.
    simpl. rewrite orb_false_r. reflexivity. }
  rewrite (bool_decide_eq_true_2 (@None (option Adapter) = None)) by reflexivity.
  simpl. rewrite orb_true_r.
  destruct newFocus; simpl in Hwait; inversion Hwait; subst predicate; simpl;
    destruct (m_currentActivity s) eqn:Hact; simpl;
    repeat case_bool_decide; simpl; rewrite ?Hact; reflexivity.
Qed.

End FocusMore.


(** * The lambdas on the executor *)

Section ExecutorRuns.
Context `{Externals}.
Variable v11 : bool.

(** What no submitted lambda touches. *)
Lemma runTask_frame (t : Task) (s : EMP) :
  m_adapters (fst (runTask v11 t s)) = m_adapters s
  /\ m_observers (fst (runTask v11 t s)) = m_observers s
  /\ m_playerInFocus (fst (runTask v11 t s)) = m_playerInFocus s
  /\ m_executor (fst (runTask v11 t s)) = m_executor s.
Proof.
  destruct t; try (repeat split; reflexivity).
  cbn [runTask].
  destruct (executeOnFocusChanged_frame newFocus s)
    as (_ & _ & Ha & _ & Ho & Hp & Hq).
  repeat split; assumption.
Qed.

Lemma runTasks_frame (ts : list Task) (s : EMP) :
  m_adapters (fst (runTasks v11 ts s)) = m_adapters s
  /\ m_observers (fst (runTasks v11 ts s)) = m_observers s
  /\ m_playerInFocus (fst (runTasks v11 ts s)) = m_playerInFocus s
  /\ m_executor (fst (runTasks v11 ts s)) = m_executor s.
Proof.
  revert s. induction ts as [| t ts IH]; intros s; [repeat split; reflexivity |].
  cbn [runTasks].
  pose proof (runTask_frame t s) as Ht.
  destruct (runTask v11 t s) as [s1 ev1]. cbn [fst] in Ht.
  pose proof (IH s1) as Hts.
  destruct (runTasks v11 ts s1) as [s2 ev2]. cbn [fst] in *.
  destruct Ht as (Ha & Ho & Hp & Hq), Hts as (Ha' & Ho' & Hp' & Hq').
  repeat split; congruence.
Qed.

Lemma runTasks_app (ts us : list Task) (s : EMP) :
  runTasks v11 (ts ++ us) s
  = (fst (runTasks v11 us (fst (runTasks v11 ts s))),
     snd (runTasks v11 ts s) ++ snd (runTasks v11 us (fst (runTasks v11 ts s)))).
Proof.
  revert s. induction ts as [| t ts IH]; intros s.
  - cbn. destruct (runTasks v11 us s); reflexivity.
  - cbn [app runTasks]. destruct (runTask v11 t s) as [s1 ev1].
    rewrite IH. destruct (runTasks v11 ts s1) as [s2 ev2]. cbn [fst snd].
    destruct (runTasks v11 us s2) as [s3 ev3]. cbn [fst snd].
    rewrite app_assoc. reflexivity.
Qed.

Lemma set_executor_same (s : EMP) : set_executor (m_executor s) s = s.
Proof. destruct s. reflexivity. Qed.

(** The queue after a series of focus callbacks. *)
Lemma focusCallbacks_executor (fs : list FocusState.t) (s : EMP) :
  focusCallbacks fs s
  = set_executor (m_executor s ++ (TaskOnFocusChanged <$> fs)) s.
Proof.
  unfold focusCallbacks. revert s.
  induction fs as [| f fs IH]; intros s.
  - cbn [foldl fmap list_fmap]. rewrite app_nil_r, set_executor_same. reflexivity.
  - cbn [foldl]. rewrite IH. unfold onFocusChanged, submit.
    cbn [m_executor set_executor]. rewrite fmap_cons, <- app_assoc. reflexivity.
Qed.

(** With an idle executor, a submitted task followed by focus callbacks is
    run on the agent as it was, the task first. *)
Lemma runExecutor_task_then_callbacks (t : Task) (fs : list FocusState.t) (s : EMP) :
  m_executor s = [] ->
  runExecutor true (focusCallbacks fs (submit t s))
  = (fst (focusChanges fs (fst (runTask true t s))),
     snd (runTask true t s) ++ snd (focusChanges fs (fst (runTask true t s)))).
Proof.
  intros Hidle. rewrite focusCallbacks_executor.
  unfold runExecutor, submit, focusChanges. cbn [m_executor set_executor].
  rewrite Hidle. cbn [app runTasks].
  replace (set_executor [] _) with s
    by (destruct s; cbn in Hidle; subst; reflexivity).
  destruct (runTask true t s) as [s1 ev1]. cbn [fst snd].
  destruct (runTasks true (TaskOnFocusChanged <$> fs) s1) as [s2 ev2].
  reflexivity.
Qed.

(** X27. What the lambdas that the agent hands to its executor leave alone.
    None of them changes the registry, the observers or the player in focus,
    and none submits a task.  The lambdas of the directive handlers, of
    [provideState] and of the buttons and toggles leave the whole agent as
    it is: all they do is the calls they make.  Only the lambdas of
    [addAdapterHandler] and [removeAdapterHandler], which change nothing but
    the handler set, and of [onFocusChanged] change the agent.  So whatever
    has been submitted, once it has run the registry, the observers and the
    player in focus are those of before. *)
Theorem submitted_lambdas_frame (t : Task) (s : EMP) :
  (m_adapters (fst (runTask v11 t s)) = m_adapters s
   /\ m_observers (fst (runTask v11 t s)) = m_observers s
   /\ m_playerInFocus (fst (runTask v11 t s)) = m_playerInFocus s
   /\ m_executor (fst (runTask v11 t s)) = m_executor s)
  /\ match t with
     | TaskOnFocusChanged _ => True
     | TaskAddAdapterHandler _ | TaskRemoveAdapterHandler _ =>
         fst (runTask v11 t s)
         = set_adapterHandlers (m_adapterHandlers (fst (runTask v11 t s))) s
     | _ => fst (runTask v11 t s) = s
     end
  /\ (m_adapters (fst (runExecutor v11 s)) = m_adapters s
      /\ m_observers (fst (runExecutor v11 s)) = m_observers s
      /\ m_playerInFocus (fst (runExecutor v11 s)) = m_playerInFocus s
      /\ m_executor (fst (runExecutor v11 s)) = []).
Proof.
  split; [apply runTask_frame |]. split.
  - destruct t; reflexivity || exact I.
  - unfold runExecutor.
    destruct (runTasks_frame (m_executor s) (set_executor [] s))
      as (Ha & Ho & Hp & Hq).
    repeat split; assumption.
Qed.

End ExecutorRuns.


(** * Buttons and toggles *)

Section Buttons.
Context `{Externals}.

Lemma forEachHandler_handlers (s s' : EMP) (c : HandlerCall.t) :
  m_adapterHandlers s' = m_adapterHandlers s ->
  forEachHandler s' c = forEachHandler s c.
Proof. intros Hh. unfold forEachHandler. rewrite Hh. reflexivity. Qed.

(** X15. Build with [EXTERNALMEDIAPLAYER_1_1], player in focus named and
    not in the registry.  The PAUSE button sets the halt initiator to
    EXTERNAL_PAUSE at once and submits the PAUSE control; if the executor
    was idle, then whatever FOREGROUND and BACKGROUND callbacks follow, the
    executor sends the PAUSE control to every handler and then reacts to the
    callbacks without issuing a RESUME, and the halt initiator is still
    EXTERNAL_PAUSE.  The PLAY button is a RESUME request: it sets the halt
    initiator to NONE at once and submits the RESUME control; if the
    executor was idle and the focus is not BACKGROUND, so that a BACKGROUND
    callback changes it, then after a BACKGROUND and a FOREGROUND callback
    the executor has sent the RESUME of the button, a PAUSE and a RESUME to
    every handler, and the activity is PLAYING. *)
Theorem buttons_set_halt_initiator (s : EMP) :
  m_playerInFocus s <> "" ->
  m_adapters s !! m_playerInFocus s = None ->
  let control request :=
    forEachHandler s
      (HandlerCall.playControlForPlayer (m_playerInFocus s) request) in
  let paused := set_haltInitiator HaltInitiator.EXTERNAL_PAUSE s in
  let resumed := set_haltInitiator HaltInitiator.NONE s in
  onButtonPressed true PlaybackButton.PAUSE s
  = Some (submit (TaskButtonPressed RequestType.PAUSE) paused, [])
  /\ (m_executor s = [] ->
      forall fs, Forall (fun f => f <> FocusState.NONE) fs ->
        let r := runExecutor true
                   (focusCallbacks fs
                      (submit (TaskButtonPressed RequestType.PAUSE) paused)) in
        snd r = control RequestType.PAUSE ++ snd (focusChanges fs paused)
        /\ count (isRequest RequestType.RESUME) (snd r) = 0%nat
        /\ m_haltInitiator (fst r) = HaltInitiator.EXTERNAL_PAUSE)
  /\ onButtonPressed true PlaybackButton.PLAY s
     = Some (submit (TaskButtonPressed RequestType.RESUME) resumed, [])
  /\ (m_executor s = [] ->
      m_focus s <> FocusState.BACKGROUND ->
      let r := runExecutor true
                 (focusCallbacks [FocusState.BACKGROUND; FocusState.FOREGROUND]
                    (submit (TaskButtonPressed RequestType.RESUME) resumed)) in
      m_currentActivity (fst r) = PlayerActivity.PLAYING
      /\ snd r
         = control RequestType.RESUME
           ++ EvNotifyAll
              :: control RequestType.PAUSE
              ++ EvNotifyAll :: control RequestType.RESUME).
Proof.
  intros Hplayer Hfind control paused resumed.
  assert (Hpress : forall b request,
            findKey b (g_buttonToRequestType true) = Some request ->
            onButtonPressed true b s
            = Some (submit (TaskButtonPressed request)
                      (setHaltInitiatorRequestHelper request s), [])).
  { intros b request Hkey. unfold onButtonPressed. rewrite Hkey.
    rewrite bool_decide_eq_true_2 by exact Hplayer. rewrite Hfind. reflexivity. }
  split; [apply (Hpress PlaybackButton.PAUSE RequestType.PAUSE); reflexivity |].
  split.
  { intros Hidle fs Hfs r. subst r.
    rewrite (runExecutor_task_then_callbacks _ fs paused) by exact Hidle.
    cbn [runTask fst snd].
    destruct (external_pause_run fs paused Hfs eq_refl) as [Hhalt Hquiet].
    split; [reflexivity |]. split; [| exact Hhalt].
    rewrite count_app, Hquiet.
    rewrite count_forEachHandler_none by reflexivity. reflexivity. }
  split; [apply (Hpress PlaybackButton.PLAY RequestType.RESUME); reflexivity |].
  intros Hidle Hfocus r. subst r.
  rewrite (runExecutor_task_then_callbacks _ _ resumed) by exact Hidle.
  cbn [runTask fst snd].
  destruct (background_then_foreground_run resumed) as (Ha & _ & _ & Hev);
    [exact Hfocus | exact Hplayer | exact Hfind | discriminate |].
  split; [exact Ha |]. rewrite Hev. reflexivity.
Qed.

(** X16. The control submitted by a button press is addressed when the
    executor runs it, not when the button is pressed.  Build with
    [EXTERNALMEDIAPLAYER_1_1], player in focus named and not in the
    registry: if [setPlayerInFocus] replaces the player in focus after the
    press, the executor first runs what was queued before the press and
    then sends the control of the button, for the new player, to the
    handlers that are registered at that moment.  With an idle executor
    these are the handlers of the agent at the press. *)
Theorem queued_control_goes_to_current_player
    (b : PlaybackButton.t) (s : EMP) (player : string) :
  m_playerInFocus s <> "" ->
  m_adapters s !! m_playerInFocus s = None ->
  exists request,
    findKey b (g_buttonToRequestType true) = Some request
    /\ let pressed :=
         submit (TaskButtonPressed request)
           (setHaltInitiatorRequestHelper request s) in
       let s2 := fst (setPlayerInFocus player true pressed) in
       let earlier := runTasks true (m_executor s) (set_executor [] s2) in
       onButtonPressed true b s = Some (pressed, [])
       /\ runExecutor true s2
          = (fst earlier,
             snd earlier
             ++ forEachHandler (fst earlier)
                  (HandlerCall.playControlForPlayer player request))
       /\ (m_executor s = [] ->
           snd (runExecutor true s2)
           = forEachHandler s (HandlerCall.playControlForPlayer player request)).
Proof.
  intros Hplayer Hfind.
  assert (Hkey : exists request,
            findKey b (g_buttonToRequestType true) = Some request)
    by (destruct b; eexists; reflexivity).
  destruct Hkey as [request Hkey]. exists request. split; [exact Hkey |].
  intros pressed s2 earlier.
  destruct (setHaltInitiatorRequestHelper_frame request s)
    as (_ & Hh & _ & _ & _ & _ & _ & Hq).
  assert (Hs2 : m_executor s2 = m_executor s ++ [TaskButtonPressed request]
                /\ m_playerInFocus s2 = player
                /\ m_adapterHandlers s2 = m_adapterHandlers s).
  { subst s2 pressed. rewrite setPlayerInFocus_acquire.
    destruct (mayAcquire _); cbn; rewrite Hq, Hh; repeat split; reflexivity. }
  destruct Hs2 as (Hqueue & Hnew & Hhandlers).
  assert (Hrun : runExecutor true s2
                 = (fst earlier,
                    snd earlier
                    ++ forEachHandler (fst earlier)
                         (HandlerCall.playControlForPlayer player request))).
  { unfold runExecutor. rewrite Hqueue, runTasks_app. fold earlier.
    cbn [runTasks runTask fst snd]. rewrite app_nil_r.
    destruct (runTasks_frame true (m_executor s) (set_executor [] s2))
      as (_ & _ & Hp & _).
    fold earlier in Hp. rewrite Hp. cbn [m_playerInFocus set_executor].
    rewrite Hnew. reflexivity. }
  split.
  { unfold onButtonPressed. rewrite Hkey.
    rewrite bool_decide_eq_true_2 by exact Hplayer. rewrite Hfind. reflexivity. }
  split; [exact Hrun |].
  intros Hidle. rewrite Hrun. subst earlier. rewrite Hidle.
  cbn [runTasks fst snd app].
  apply forEachHandler_handlers. exact Hhandlers.
Qed.

(** X17. A toggle changes nothing of the agent but the queue of the
    executor, in either build: unlike the PLAY and PAUSE buttons it leaves
    the halt initiator alone.  It submits one task, carrying the action and
    the toggle's pair of requests, exactly in the 1.1 build with the player
    in focus named and not in the registry; with an idle executor that task
    sends every handler the first request of the pair for the player in
    focus if the action is true and the second if it is false.  When the
    player in focus is in the registry the adapter is called at once with
    the first request of the pair if the action is true and with the second,
    a different request, if it is false, and nothing is queued. *)
Theorem toggle_leaves_agent (v11 : bool) (toggle : PlaybackToggle.t)
    (action : bool) (s : EMP) :
  (forall s1 ev,
     onTogglePressed v11 toggle action s = Some (s1, ev) ->
     s1 = set_executor (m_executor s1) s
     /\ m_haltInitiator s1 = m_haltInitiator s
     /\ exists toggleStates,
          findKey toggle g_toggleToRequestType = Some toggleStates
          /\ m_executor s1
             = m_executor s
               ++ (if v11 && bool_decide (m_playerInFocus s <> "")
                      && bool_decide (m_adapters s !! m_playerInFocus s = None)
                   then [TaskTogglePressed action toggleStates] else []))
  /\ (forall adapter,
        m_playerInFocus s <> "" ->
        m_adapters s !! m_playerInFocus s = Some (Some adapter) ->
        exists toggleStates,
          findKey toggle g_toggleToRequestType = Some toggleStates
          /\ fst toggleStates <> snd toggleStates
          /\ onTogglePressed v11 toggle action s
             = Some (s,
                     [EvAdapter adapter
                        (AdapterCall.handlePlayControl
                           (if action then fst toggleStates else snd toggleStates))]))
  /\ (m_playerInFocus s <> "" ->
      m_adapters s !! m_playerInFocus s = None ->
      m_executor s = [] ->
      exists toggleStates,
        findKey toggle g_toggleToRequestType = Some toggleStates
        /\ onTogglePressed true toggle action s
           = Some (submit (TaskTogglePressed action toggleStates) s, [])
        /\ runExecutor true (submit (TaskTogglePressed action toggleStates) s)
           = (s,
              forEachHandler s
                (HandlerCall.playControlForPlayer (m_playerInFocus s)
                   (if action then fst toggleStates else snd toggleStates)))).
Proof.
  assert (Hkey : exists toggleStates,
            findKey toggle g_toggleToRequestType = Some toggleStates
            /\ fst toggleStates <> snd toggleStates)
    by (destruct toggle; eexists; (split; [reflexivity | discriminate])).
  destruct Hkey as (toggleStates & Hkey & Hdiff).
  split; [| split].
  - intros s1 ev Hpress. unfold onTogglePressed in Hpress. rewrite Hkey in Hpress.
    assert (Hq : s1 = set_executor (m_executor s1) s
                 /\ m_haltInitiator s1 = m_haltInitiator s
                 /\ m_executor s1
                    = m_executor s
                      ++ (if v11 && bool_decide (m_playerInFocus s <> "")
                             && bool_decide (m_adapters s !! m_playerInFocus s = None)
                          then [TaskTogglePressed action toggleStates] else []));
      [| destruct Hq as (Hs & Hh & Hq); split; [exact Hs |]; split; [exact Hh |];
         exists toggleStates; split; [exact Hkey | exact Hq]].
    destruct (bool_decide (m_playerInFocus s <> ""));
      [| rewrite andb_false_r; injection Hpress as <- <-;
         rewrite app_nil_r, set_executor_same; repeat split; reflexivity].
    rewrite andb_true_r.
    destruct (m_adapters s !! m_playerInFocus s) as [[a |] |];
      [| discriminate |].
    + rewrite (bool_decide_eq_false_2 (Some (Some a) = None)) by discriminate.
      rewrite andb_false_r. injection Hpress as <- <-.
      rewrite app_nil_r, set_executor_same. repeat split; reflexivity.
    + rewrite (bool_decide_eq_true_2 (None = None)) by reflexivity.
      rewrite andb_true_r. destruct v11; injection Hpress as <- <-.
      * repeat split; reflexivity.
      * rewrite app_nil_r, set_executor_same. repeat split; reflexivity.
  - intros adapter Hplayer Hfind. exists toggleStates.
    split; [exact Hkey |]. split; [exact Hdiff |].
    unfold onTogglePressed. rewrite Hkey.
    rewrite bool_decide_eq_true_2 by exact Hplayer. rewrite Hfind. reflexivity.
  - intros Hplayer Hfind Hidle. exists toggleStates.
    split; [exact Hkey |]. split.
    + unfold onTogglePressed. rewrite Hkey.
      rewrite bool_decide_eq_true_2 by exact Hplayer. rewrite Hfind. reflexivity.
    + rewrite (runExecutor_submit_idle true _ s Hidle). reflexivity.
Qed.

(** X18. Without a player in focus a button and a toggle do nothing at
    all; with a player in focus that is in the registry a button calls
    [handlePlayControl] on that adapter at once and leaves the agent,
    the halt initiator included, as it was.  Built without
    [EXTERNALMEDIAPLAYER_1_1] the PLAY and the PAUSE button are the same
    PAUSE_RESUME_TOGGLE request; built with it they are RESUME and PAUSE. *)
Theorem button_on_registry_player (v11 : bool) (button : PlaybackButton.t)
    (toggle : PlaybackToggle.t) (action : bool) (s : EMP) :
  (m_playerInFocus s = "" ->
     onButtonPressed v11 button s = Some (s, [])
     /\ onTogglePressed v11 toggle action s = Some (s, []))
  /\ (forall adapter,
        m_playerInFocus s <> "" ->
        m_adapters s !! m_playerInFocus s = Some (Some adapter) ->
        onButtonPressed v11 button s
        = Some (s,
                [EvAdapter adapter
                   (AdapterCall.handlePlayControl
                      match button with
                      | PlaybackButton.PLAY =>
                          if v11 then RequestType.RESUME
                          else RequestType.PAUSE_RESUME_TOGGLE
                      | PlaybackButton.PAUSE =>
                          if v11 then RequestType.PAUSE
                          else RequestType.PAUSE_RESUME_TOGGLE
                      | PlaybackButton.NEXT => RequestType.NEXT
                      | PlaybackButton.PREVIOUS => RequestType.PREVIOUS
                      end)])).
Proof.
  split.
  - intros Hempty. unfold onButtonPressed, onTogglePressed.
    rewrite !(bool_decide_eq_false_2 (m_playerInFocus s <> ""))
      by (intros Hx; exact (Hx Hempty)).
    split; [destruct button, v11 | destruct toggle]; reflexivity.
  - intros adapter Hplayer Hfind. unfold onButtonPressed.
    destruct button, v11; simpl;
      rewrite bool_decide_eq_true_2 by exact Hplayer; rewrite Hfind; reflexivity.
Qed.

End Buttons.


(** * Observers and state aggregation *)

Section Observers.
Context `{Externals}.

Lemma count_all_false (p : Event -> bool) (ev : list Event) :
  Forall (fun e => p e = false) ev -> count p ev = 0%nat.
Proof.
  induction 1 as [| e ev He _ IH]; [reflexivity |].
  rewrite count_cons, He, IH. reflexivity.
Qed.

Lemma count_flat_map {A : Type} (p : Event -> bool) (f : A -> list Event)
    (l : list A) :
  (forall a, count p (f a) = 0%nat) -> count p (flat_map f l) = 0%nat.
Proof.
  intros Hf. induction l as [| a l IH]; [reflexivity |].
  simpl. rewrite count_app, Hf, IH. reflexivity.
Qed.

(** The callbacks one observer receives from one notification. *)
Lemma notifyObservers_each (o : Observer) (playerId : string)
    (sessionProperties : option (bool * string))
    (playbackProperties : option (string * string)) (os : list Observer) :
  NoDup os ->
  count (isCallOn o)
    (flat_map
       (fun o' =>
          match sessionProperties with
          | Some (loggedIn, userName) =>
              [EvLoginStateProvided o' playerId loggedIn userName]
          | None => []
          end
          ++ match playbackProperties with
             | Some (state, trackName) =>
                 [EvPlaybackStateProvided o' playerId state trackName]
             | None => []
             end) os)
  = if bool_decide (o ∈ os)
    then ((if sessionProperties is Some _ then 1 else 0)
          + (if playbackProperties is Some _ then 1 else 0))%nat
    else 0%nat.
Proof.
  induction 1 as [| o' os Hnew Hnodup IH].
  - reflexivity.
  - simpl. rewrite !count_app, IH.
    destruct (decide (o' = o)) as [-> | Hne].
    + rewrite (bool_decide_eq_true_2 (o ∈ o :: os)) by (apply elem_of_cons; left; reflexivity).
      rewrite (bool_decide_eq_false_2 (o ∈ os)) by exact Hnew.
      destruct sessionProperties as [[l u] |], playbackProperties as [[st tr] |];
        rewrite ?count_cons; simpl;
        rewrite ?bool_decide_eq_true_2 by reflexivity; reflexivity.
    + assert (Hhere : count (isCallOn o)
                        match sessionProperties with
                        | Some (loggedIn, userName) =>
                            [EvLoginStateProvided o' playerId loggedIn userName]
                        | None => []
                        end = 0%nat
                      /\ count (isCallOn o)
                           match playbackProperties with
                           | Some (state, trackName) =>
                               [EvPlaybackStateProvided o' playerId state trackName]
                           | None => []
                           end = 0%nat).
      { destruct sessionProperties as [[l u] |], playbackProperties as [[st tr] |];
          rewrite ?count_cons; simpl;
          rewrite ?bool_decide_eq_false_2 by exact Hne; split; reflexivity. }
      destruct Hhere as [-> ->]. simpl.
      destruct (decide (o ∈ os)) as [Hin | Hout].
      * rewrite !bool_decide_eq_true_2;
          [reflexivity | apply elem_of_cons; right; exact Hin | exact Hin].
      * rewrite !bool_decide_eq_false_2;
          [reflexivity
          | intros Hx; apply elem_of_cons in Hx as [Hx | Hx];
            [exact (Hne (eq_sym Hx)) | exact (Hout Hx)]
          | exact Hout].
Qed.

(** X19. A notification about a named player reaches every registered
    observer once for each of the two properties that is supplied, and no
    one else; a notification about the empty player id reaches no observer
    and is logged as an error.  Adding an observer that is already
    registered changes nothing, so it is not called twice. *)
Theorem notifyObservers_once (o : Observer) (playerId : string)
    (sessionProperties : option (bool * string))
    (playbackProperties : option (string * string)) (s : EMP) :
  count (isCallOn o)
    (notifyObservers playerId sessionProperties playbackProperties s)
  = (if bool_decide (playerId <> "" /\ o ∈ m_observers s)
     then ((if sessionProperties is Some _ then 1 else 0)
           + (if playbackProperties is Some _ then 1 else 0))%nat
     else 0%nat)
  /\ (playerId = "" ->
        notifyObservers playerId sessionProperties playbackProperties s
        = [EvLog LogLevel.ERROR "notifyObserversFailed" "emptyPlayerId"])
  /\ (o ∈ m_observers s -> fst (addObserver (Some o) s) = s).
Proof.
  split; [| split].
  - unfold notifyObservers. case_bool_decide as Hid.
    + rewrite bool_decide_eq_false_2 by (intros [Hx _]; exact (Hx Hid)).
      reflexivity.
    + rewrite notifyObservers_each by apply NoDup_elements.
      destruct (decide (o ∈ m_observers s)) as [Hin | Hout].
      * rewrite !bool_decide_eq_true_2;
          [reflexivity | split; assumption | apply elem_of_elements; exact Hin].
      * rewrite !bool_decide_eq_false_2;
          [reflexivity | intros [_ Hx]; exact (Hout Hx)
          | intros Hx; apply elem_of_elements in Hx; exact (Hout Hx)].
  - intros Hid. unfold notifyObservers.
    rewrite bool_decide_eq_true_2 by exact Hid. reflexivity.
  - intros Hin. unfold addObserver. cbn [fst].
    rewrite (subseteq_union_1_L {[o]} (m_observers s))
      by (apply singleton_subseteq_l; exact Hin).
    destruct s. reflexivity.
Qed.

(** X20. Removing an observer after adding it leaves the observers that
    were there before, without it; if it was not registered before, the
    agent is as it was.  A null observer is refused by both operations, with
    an error logged and nothing changed. *)
Theorem add_then_remove_observer (o : Observer) (s : EMP) :
  m_observers (fst (removeObserver (Some o) (fst (addObserver (Some o) s))))
  = m_observers s ∖ {[o]}
  /\ (o ∉ m_observers s ->
        fst (removeObserver (Some o) (fst (addObserver (Some o) s))) = s)
  /\ addObserver None s
     = (s, [EvLog LogLevel.ERROR "addObserverFailed" "nullObserver"])
  /\ removeObserver None s
     = (s, [EvLog LogLevel.ERROR "removeObserverFailed" "nullObserver"]).
Proof.
  assert (Hset : ({[o]} ∪ m_observers s) ∖ {[o]} = m_observers s ∖ {[o]}).
  { apply set_eq. intros x.
    rewrite !elem_of_difference, elem_of_union, elem_of_singleton. tauto. }
  split; [| split; [| split; reflexivity]].
  - unfold addObserver, removeObserver. cbn. exact Hset.
  - intros Hout. unfold addObserver, removeObserver. cbn.
    rewrite Hset.
    rewrite (difference_disjoint_L (m_observers s) {[o]})
      by (apply disjoint_singleton_r; exact Hout).
    destruct s. reflexivity.
Qed.

End Observers.


Section Aggregation.
Context `{Externals}.
Variable v11 : bool.

(** The events of a notification are calls on observers, or the error
    log. *)
Lemma notifyObservers_events (playerId : string)
    (sessionProperties : option (bool * string))
    (playbackProperties : option (string * string)) (s : EMP) :
  Forall (fun e => isObserverCall e = true \/ exists l a b, e = EvLog l a b)
    (notifyObservers playerId sessionProperties playbackProperties s).
Proof.
  unfold notifyObservers. case_bool_decide.
  - apply Forall_cons_2; [right; eauto | constructor].
  - induction (elements (m_observers s)) as [| o os IH]; [constructor |].
    simpl. repeat apply Forall_app_2; [| | exact IH].
    + destruct sessionProperties as [[l u] |];
        [apply Forall_cons_2; [left; reflexivity | constructor] | constructor].
    + destruct playbackProperties as [[st tr] |];
        [apply Forall_cons_2; [left; reflexivity | constructor] | constructor].
Qed.

Lemma Forall_flat_map_2 {A : Type} (P : Event -> Prop) (f : A -> list Event)
    (l : list A) :
  (forall a, Forall P (f a)) -> Forall P (flat_map f l).
Proof.
  intros Hf. induction l as [| a l IH]; [constructor |].
  simpl. apply Forall_app_2; [apply Hf | exact IH].
Qed.

Lemma provided_events (name : NamespaceAndName) (adapterStates : list AdapterState)
    (s : EMP) :
  Forall (fun e => isObserverCall e = true \/ exists l a b, e = EvLog l a b)
    (snd (provideSessionState v11 adapterStates s))
  /\ Forall (fun e => isObserverCall e = true \/ exists l a b, e = EvLog l a b)
       (snd (providePlaybackState v11 adapterStates s)).
Proof.
  assert (Hs : Forall (fun e => isObserverCall e = true \/ exists l a b, e = EvLog l a b)
                 (sessionNotifications s)).
  { apply Forall_flat_map_2. intros a. apply notifyObservers_events. }
  assert (Hp : Forall (fun e => isObserverCall e = true \/ exists l a b, e = EvLog l a b)
                 (playbackNotifications s)).
  { apply Forall_flat_map_2. intros a. apply notifyObservers_events. }
  split.
  - unfold provideSessionState. destruct (serialize _); cbn [snd]; [exact Hs |].
    apply Forall_app_2; [exact Hs |].
    apply Forall_cons_2; [right; eauto | constructor].
  - unfold providePlaybackState. destruct buildDefaultPlayerState; [| constructor].
    destruct (serialize _); cbn [snd]; [exact Hp |].
    apply Forall_app_2; [exact Hp |].
    apply Forall_cons_2; [right; eauto | constructor].
Qed.

Lemma quiet_events (p : Event -> bool) (ev : list Event) :
  (forall e, isObserverCall e = true -> p e = false) ->
  (forall l a b, p (EvLog l a b) = false) ->
  Forall (fun e => isObserverCall e = true \/ exists l a b, e = EvLog l a b) ev ->
  Forall (fun e => p e = false) ev.
Proof.
  intros Ho Hl Hev. eapply Forall_impl; [exact Hev |].
  intros e [He | (l & a & b & ->)]; auto.
Qed.

(** X21. A state request for the session or the playback snapshot ends in
    exactly one [setState] call, for the name that was asked and with the
    request token if one is to be sent; a request for any other name ends in
    none, only in the log of the unknown name.  The [setState] call is the
    last call of the request: if it succeeds nothing follows it, and if it
    does not succeed the failure is logged right after it and the call is
    not repeated.  No registry adapter and no adapter handler is given a
    command on the way. *)
Theorem executeProvideState_sets_state_once (name : NamespaceAndName)
    (sendToken : bool) (token : nat) (s : EMP) :
  let ev := executeProvideState v11 name sendToken token s in
  let tok := if sendToken then Some token else None in
  count isSetState ev
  = (if bool_decide (name = SESSION_STATE \/ name = PLAYBACK_STATE)
     then 1%nat else 0%nat)
  /\ silent ev
  /\ (forall n state tok',
        In (EvSetState n state tok') ev -> n = name /\ tok' = tok)
  /\ (name = SESSION_STATE \/ name = PLAYBACK_STATE ->
      exists state ev0,
        count isSetState ev0 = 0%nat
        /\ ev = ev0
                ++ EvSetState name state tok
                   :: (if setStateSucceeds name state tok then []
                       else [EvLog LogLevel.ERROR "executeProvideState"
                               "contextManagerSetStateFailedForEMPState"]))
  /\ (~ (name = SESSION_STATE \/ name = PLAYBACK_STATE) ->
      ev = [EvLog LogLevel.ERROR "executeProvideState" "unknownStateProviderName"]).
Proof.
  intros ev tok. subst ev. unfold executeProvideState.
  set (adapterStates := collectAdapterStates v11 s).
  destruct (provided_events name adapterStates s) as [Hsession Hplayback].
  assert (Hmain : forall (provided : string * list Event),
            Forall (fun e => isObserverCall e = true \/ exists l a b, e = EvLog l a b)
              (snd provided) ->
            let ev := snd provided
                      ++ EvSetState name (fst provided) tok
                         :: (if setStateSucceeds name (fst provided) tok then []
                             else [EvLog LogLevel.ERROR "executeProvideState"
                                     "contextManagerSetStateFailedForEMPState"]) in
            count isSetState ev = 1%nat
            /\ silent ev
            /\ (forall n state tok',
                  In (EvSetState n state tok') ev -> n = name /\ tok' = tok)
            /\ (name = SESSION_STATE \/ name = PLAYBACK_STATE ->
                exists state ev0,
                  count isSetState ev0 = 0%nat
                  /\ ev = ev0
                          ++ EvSetState name state tok
                             :: (if setStateSucceeds name state tok then []
                                 else [EvLog LogLevel.ERROR "executeProvideState"
                                         "contextManagerSetStateFailedForEMPState"]))).
  { intros [state ev0] Hquiet ev. cbn [fst snd] in *. subst ev.
    assert (Hnone : count isSetState ev0 = 0%nat).
    { apply count_all_false.
      eapply quiet_events; [| | exact Hquiet];
        [intros [] He; simpl in *; congruence | reflexivity]. }
    split; [| split; [| split]].
    - rewrite count_app, count_cons, Hnone.
      destruct (setStateSucceeds name state tok); reflexivity.
    - apply silent_app.
      + unfold silent. eapply Forall_impl; [exact Hquiet |].
        intros e [He | (l & a & b & ->)]; [| split; reflexivity].
        destruct e; simpl in He; try discriminate; split; reflexivity.
      + destruct (setStateSucceeds name state tok); repeat constructor.
    - intros n st tok' Hin. apply in_app_or in Hin as [Hin | Hin].
      + exfalso. rewrite Forall_forall in Hquiet.
        apply list_elem_of_In in Hin.
        destruct (Hquiet _ Hin) as [He | (l & a & b & He)]; discriminate.
      + destruct Hin as [Heq | Hin].
        * inversion Heq. split; reflexivity.
        * destruct (setStateSucceeds name state tok);
            [destruct Hin | destruct Hin as [Heq | []]; discriminate].
    - intros _. exists state, ev0. split; [exact Hnone | reflexivity]. }
  case_bool_decide as Hs.
  { rewrite bool_decide_eq_true_2 by (left; exact Hs).
    destruct (provideSessionState v11 adapterStates s) as [state ev0] eqn:Hp.
    destruct (Hmain (state, ev0) Hsession) as (H1 & H2 & H3 & H4).
    repeat (split; [assumption |]).
    intros Hx. exfalso. apply Hx. left. exact Hs. }
  case_bool_decide as Hp.
  { rewrite bool_decide_eq_true_2 by (right; exact Hp).
    destruct (providePlaybackState v11 adapterStates s) as [state ev0] eqn:Hq.
    destruct (Hmain (state, ev0) Hplayback) as (H1 & H2 & H3 & H4).
    repeat (split; [assumption |]).
    intros Hx. exfalso. apply Hx. right. exact Hp. }
  rewrite bool_decide_eq_false_2 by (intros [Hx | Hx]; contradiction).
  split; [reflexivity |]. split; [repeat constructor |].
  split; [intros n state tok' [Heq | []]; discriminate |].
  split; [intros [Hx | Hx]; contradiction | reflexivity].
Qed.

End Aggregation.

Section SnapshotSources.
Context `{Externals}.

Lemma liveAdapters_empty (s : EMP) : m_adapters s = ∅ -> liveAdapters s = [].
Proof. intros Hempty. unfold liveAdapters. rewrite Hempty, map_to_list_empty. reflexivity. Qed.

(** X22. Where the player blocks of a snapshot come from, in the build with
    [EXTERNALMEDIAPLAYER_1_1]: from the adapter handlers if the registry is
    empty, and from the registry alone if it is not, whatever handlers are
    registered.  With an empty registry a state request calls no observer,
    although the handlers' states are reported.  The build without the
    symbol never asks a handler. *)
Theorem snapshot_sources (s : EMP) :
  let handlerStates := flat_map getAdapterStates (elements (m_adapterHandlers s)) in
  sessionPlayers true (collectAdapterStates true s) s
  = (if bool_decide (m_adapters s = ∅)
     then sessionPlayersOfHandlers handlerStates
     else sessionPlayersOfAdapters s)
  /\ playbackPlayers true (collectAdapterStates true s) s
     = (if bool_decide (m_adapters s = ∅)
        then playbackPlayersOfHandlers handlerStates
        else playbackPlayersOfAdapters s)
  /\ (m_adapters s = ∅ ->
      forall name sendToken token,
        count isObserverCall (executeProvideState true name sendToken token s)
        = 0%nat)
  /\ collectAdapterStates false s = [].
Proof.
  intros handlerStates.
  unfold sessionPlayers, playbackPlayers, collectAdapterStates.
  cbn [andb]. fold handlerStates.
  case_bool_decide as Hempty.
  - unfold sessionPlayersOfAdapters, playbackPlayersOfAdapters.
    rewrite (liveAdapters_empty s Hempty).
    split; [reflexivity |]. split; [reflexivity |]. split; [| reflexivity].
    intros _ name sendToken token.
    unfold executeProvideState, provideSessionState, providePlaybackState,
      sessionNotifications, playbackNotifications.
    rewrite (liveAdapters_empty s Hempty). cbn [flat_map app].
    repeat case_match; simplify_eq; reflexivity.
  - unfold sessionPlayersOfHandlers, playbackPlayersOfHandlers.
    cbn. rewrite !app_nil_r.
    split; [reflexivity |]. split; [reflexivity |]. split; [| reflexivity].
    intros Hx. contradiction.
Qed.

(** X23. A snapshot that cannot be built is still handed to [setState], as
    the empty string: the playback snapshot when [buildDefaultPlayerState]
    fails (nothing else happens then, no observer is called and nothing is
    logged about it), and the session and the playback snapshot when the
    writer refuses the document that was built for it, whatever it does
    with other documents (the observers have been notified by then, and the
    refusal is logged before the [setState] call). *)
Theorem failed_snapshot_is_set_empty (v11 sendToken : bool) (token : nat) (s : EMP) :
  let tok := if sendToken then Some token else None in
  let failed name :=
    if setStateSucceeds name "" tok then []
    else [EvLog LogLevel.ERROR "executeProvideState"
            "contextManagerSetStateFailedForEMPState"] in
  (buildDefaultPlayerState = None ->
     executeProvideState v11 PLAYBACK_STATE sendToken token s
     = EvSetState PLAYBACK_STATE "" tok :: failed PLAYBACK_STATE)
  /\ (serialize
        ((PLAYER_IN_FOCUS, MString (m_playerInFocus s))
         :: (if v11
             then [(SPI_VERSION, MString SPI_VERSION_DEFAULT);
                   (AGENT, MString AGENT_DEFAULT)]
             else [])
         ++ [(PLAYERS,
              MArray (sessionPlayers v11 (collectAdapterStates v11 s) s))])
      = None ->
      executeProvideState v11 SESSION_STATE sendToken token s
      = sessionNotifications s
        ++ EvLog LogLevel.ERROR "provideSessionStateFailed" "writerRefusedJsonObject"
           :: EvSetState SESSION_STATE "" tok :: failed SESSION_STATE)
  /\ (forall defaults,
        buildDefaultPlayerState = Some defaults ->
        serialize
          (defaults
           ++ [(PLAYERS,
                MArray (playbackPlayers v11 (collectAdapterStates v11 s) s))])
        = None ->
        executeProvideState v11 PLAYBACK_STATE sendToken token s
        = playbackNotifications s
          ++ EvLog LogLevel.ERROR "providePlaybackState" "writerRefusedJsonObject"
             :: EvSetState PLAYBACK_STATE "" tok :: failed PLAYBACK_STATE).
Proof.
  intros tok failed. split; [| split].
  - intros Hdefault. unfold executeProvideState.
    rewrite (bool_decide_eq_false_2 (PLAYBACK_STATE = SESSION_STATE)) by discriminate.
    rewrite (bool_decide_eq_true_2 (PLAYBACK_STATE = PLAYBACK_STATE)) by reflexivity.
    unfold providePlaybackState. rewrite Hdefault. reflexivity.
  - intros Hwriter. unfold executeProvideState.
    rewrite (bool_decide_eq_true_2 (SESSION_STATE = SESSION_STATE)) by reflexivity.
    unfold provideSessionState. rewrite Hwriter. fold tok.
    rewrite <- app_assoc. reflexivity.
  - intros defaults Hdefault Hwriter. unfold executeProvideState.
    rewrite (bool_decide_eq_false_2 (PLAYBACK_STATE = SESSION_STATE)) by discriminate.
    rewrite (bool_decide_eq_true_2 (PLAYBACK_STATE = PLAYBACK_STATE)) by reflexivity.
    unfold providePlaybackState. rewrite Hdefault, Hwriter. fold tok.
    rewrite <- app_assoc. reflexivity.
Qed.

End SnapshotSources.


(** * Construction, shutdown and the configuration *)

Section LifecycleProperties.
Context `{Externals}.

(** What the factory of a creation entry gives for the player id [k]. *)
Lemma createAdapter_lookup
    (mediaPlayers : gmap string MediaPlayer) (speakers : gmap string Speaker)
    (acc : EMP * list Event) (entry : string * AdapterCreateFunction) (k : string) :
  m_adapters (fst (createAdapter mediaPlayers speakers acc entry)) !! k
  = if bool_decide (k = fst entry)
    then match mediaPlayers !! k, speakers !! k with
         | Some m, Some p =>
             match snd entry m p with
             | Some a => Some (Some a)
             | None => m_adapters (fst acc) !! k
             end
         | _, _ => m_adapters (fst acc) !! k
         end
    else m_adapters (fst acc) !! k.
Proof.
  destruct acc as [s ev], entry as [k0 f]. unfold createAdapter. cbn [fst snd].
  case_bool_decide as Hk.
  - subst k0.
    destruct (mediaPlayers !! k) as [m |]; [| reflexivity].
    destruct (speakers !! k) as [p |]; [| reflexivity].
    destruct (f m p) as [a |]; [| reflexivity].
    cbn. apply lookup_insert_eq.
  - destruct (mediaPlayers !! k0) as [m |]; [| reflexivity].
    destruct (speakers !! k0) as [p |]; [| reflexivity].
    destruct (f m p) as [a |]; [| reflexivity].
    cbn. apply lookup_insert_ne. congruence.
Qed.

Lemma createAdapters_fold
    (mediaPlayers : gmap string MediaPlayer) (speakers : gmap string Speaker)
    (l : list (string * AdapterCreateFunction)) (acc : EMP * list Event)
    (k : string) :
  NoDup (fst <$> l) ->
  m_adapters (fst (foldl (createAdapter mediaPlayers speakers) acc l)) !! k
  = match (list_to_map l : gmap string AdapterCreateFunction) !! k with
    | Some f =>
        match mediaPlayers !! k, speakers !! k with
        | Some m, Some p =>
            match f m p with
            | Some a => Some (Some a)
            | None => m_adapters (fst acc) !! k
            end
        | _, _ => m_adapters (fst acc) !! k
        end
    | None => m_adapters (fst acc) !! k
    end.
Proof.
  revert acc. induction l as [| [k0 f0] l IH]; intros acc Hnodup.
  - reflexivity.
  - rewrite fmap_cons in Hnodup. apply NoDup_cons in Hnodup as [Hnew Hnodup].
    cbn [foldl]. rewrite (IH _ Hnodup).
    rewrite !createAdapter_lookup. cbn [fst snd list_to_map foldr].
    destruct (decide (k = k0)) as [-> | Hne].
    + rewrite lookup_insert_eq.
      rewrite (not_elem_of_list_to_map_1 _ k0 Hnew).
      rewrite bool_decide_eq_true_2 by reflexivity. reflexivity.
    + rewrite lookup_insert_ne by congruence.
      rewrite bool_decide_eq_false_2 by exact Hne. reflexivity.
Qed.

(** X24. After [createAdapters] the registry holds an adapter for a player
    id exactly when the creation map has an entry for it, a media player and
    a speaker are supplied for it, and the entry's factory answers an
    adapter, and it holds that adapter; for every other player id the
    registry is as before.  Started from the constructor's empty registry,
    no entry of the registry is ever a null adapter. *)
Theorem createAdapters_registry
    (mediaPlayers : gmap string MediaPlayer) (speakers : gmap string Speaker)
    (adapterCreationMap : gmap string AdapterCreateFunction) (s : EMP)
    (k : string) :
  let created :=
    match adapterCreationMap !! k, mediaPlayers !! k, speakers !! k with
    | Some f, Some m, Some p => f m p
    | _, _, _ => None
    end in
  m_adapters (fst (createAdapters mediaPlayers speakers adapterCreationMap s)) !! k
  = match created with
    | Some a => Some (Some a)
    | None => m_adapters s !! k
    end
  /\ m_adapters
       (fst (createAdapters mediaPlayers speakers adapterCreationMap constructed))
     !! k <> Some None.
Proof.
  intros created.
  assert (Hlookup : forall s0,
            m_adapters
              (fst (createAdapters mediaPlayers speakers adapterCreationMap s0)) !! k
            = match created with
              | Some a => Some (Some a)
              | None => m_adapters s0 !! k
              end).
  { intros s0. unfold createAdapters.
    rewrite (createAdapters_fold mediaPlayers speakers
               (map_to_list adapterCreationMap) (s0, []) k)
      by apply NoDup_fst_map_to_list.
    rewrite list_to_map_to_list. subst created. cbn [fst].
    destruct (adapterCreationMap !! k) as [f |]; [| reflexivity].
    destruct (mediaPlayers !! k) as [m |]; [| reflexivity].
    destruct (speakers !! k) as [p |]; [| reflexivity].
    destruct (f m p); reflexivity. }
  split; [apply Hlookup |].
  rewrite Hlookup. destruct created; [discriminate |].
  cbn. rewrite lookup_empty. discriminate.
Qed.


End LifecycleProperties.


Section Shutdown.
Context `{Externals}.
Variable v11 : bool.
Variable executorShutdown : list Task -> list Task.

(** X26. [doShutdown] first shuts the executor down and withdraws the agent
    as provider of both states, and only then shuts adapters down: every
    adapter the registry holds, a null entry being passed over.  Afterwards
    the registry is empty and, in the 1.1 build, so is the handler set, so
    that a snapshot built after shutdown has no player block. *)
Theorem doShutdown_releases (s : EMP) :
  let r := doShutdown v11 executorShutdown s in
  (exists adapters,
     snd r = LcExecutorShutdown
             :: LcSetStateProvider SESSION_STATE false
             :: LcSetStateProvider PLAYBACK_STATE false
             :: (LcAdapterShutdown <$> adapters)
     /\ forall a, a ∈ adapters <-> exists k, m_adapters s !! k = Some (Some a))
  /\ m_adapters (fst r) = ∅
  /\ (v11 = true -> m_adapterHandlers (fst r) = ∅)
  /\ sessionPlayers v11 (collectAdapterStates v11 (fst r)) (fst r) = []
  /\ playbackPlayers v11 (collectAdapterStates v11 (fst r)) (fst r) = [].
Proof.
  intros r. subst r. unfold doShutdown. cbn [fst snd].
  set (s2 := if v11 then _ else _).
  assert (Hregistry : m_adapters s2 = m_adapters s) by (subst s2; destruct v11; reflexivity).
  split.
  { exists (liveAdapters s2). split; [reflexivity |].
    intros a. unfold liveAdapters. rewrite Hregistry, list_elem_of_omap. split.
    - intros ([k v] & Hin & Hv). apply elem_of_map_to_list in Hin.
      cbn in Hv. subst v. exists k. exact Hin.
    - intros [k Hk]. exists (k, Some a). split; [| reflexivity].
      apply elem_of_map_to_list. exact Hk. }
  split; [reflexivity |]. split.
  { intros Hv. subst s2. rewrite Hv. reflexivity. }
  unfold sessionPlayers, playbackPlayers, sessionPlayersOfAdapters,
    playbackPlayersOfAdapters, collectAdapterStates, liveAdapters.
  cbn [m_adapters set_adapters]. rewrite map_to_list_empty. cbn [omap list_omap fmap list_fmap app].
  subst s2. destruct v11; cbn; [| split; reflexivity].
  rewrite elements_empty. split; reflexivity.
Qed.

End Shutdown.

Section Configuration.
Context `{Externals}.

(** X28. In either build the directives the agent declares in its
    configuration are exactly the directives its dispatch table handles:
    none is declared and then found unhandled, none is handled without
    being declared. *)
Theorem configuration_matches_dispatch (v11 : bool) (key : NamespaceAndName) :
  is_Some (getConfiguration v11 !! key)
  <-> is_Some (m_directiveToHandlerMap v11 !! key).
Proof.
  rewrite <- !elem_of_dom.
  assert (Hdom : dom (getConfiguration v11) = dom (m_directiveToHandlerMap v11)).
  { destruct v11;
      apply (bool_decide_eq_true_1
               (dom (getConfiguration _) = dom (m_directiveToHandlerMap _)));
      vm_compute; reflexivity. }
  rewrite Hdom. reflexivity.
Qed.

End Configuration.


(** * The further properties at concrete inputs *)

Lemma resolved_directive_signals_once_witness :
  let info :=
    Sample.mkDirective "Alexa.PlaybackController" "Pause"
      (Some [("playerId", Sample.JString "Spotify")]) in
  let s := Sample.viaRegistry FocusState.FOREGROUND
             PlayerActivity.PLAYING HaltInitiator.NONE in
  fst (call true ptr_handlePlayControl info RequestType.PAUSE s) = s
  /\ count (isSignal 9%positive)
       (snd (call true ptr_handlePlayControl info RequestType.PAUSE s)) = 1%nat.
Proof.
  intros info s.
  destruct (resolved_directive_signals_once true ptr_handlePlayControl info
              RequestType.PAUSE s
              [("playerId", Sample.JString "Spotify")] "Spotify" 5%positive)
    as (Hstate & _ & _ & Hsignal);
    [discriminate | vm_compute; reflexivity ..|].
  split; [exact Hstate | apply Hsignal; reflexivity].
Defined.


Lemma malformed_payload_reported_witness :
  let info := Sample.mkDirective "Alexa.SeekController" "SetSeekPosition" None in
  let s := Sample.viaRegistry FocusState.NONE PlayerActivity.IDLE HaltInitiator.NONE in
  snd (call false ptr_handleSeek info RequestType.SEEK s)
  = [EvLog LogLevel.ERROR "parseDirectivePayloadFailed" "Invalid value.";
     EvSendExceptionEncountered "unparsed-1"
       ExceptionErrorType.UNEXPECTED_INFORMATION_RECEIVED "Unable to parse payload";
     EvSetFailed 9%positive "Unable to parse payload";
     EvRemoveDirective "msg-1"].
Proof.
  intros info s.
  destruct (malformed_payload_reported false ptr_handleSeek info RequestType.SEEK s)
    as (Hev & _); [vm_compute; reflexivity | exact Hev].
Defined.

Lemma unrecognized_playerId_reported_witness :
  let info :=
    Sample.mkDirective "ExternalMediaPlayer" "Logout"
      (Some [("playerId", Sample.JString "Deezer")]) in
  let s := Sample.viaRegistry FocusState.NONE PlayerActivity.IDLE HaltInitiator.NONE in
  snd (call true ptr_handleLogout info RequestType.LOGOUT s)
  = [EvLog LogLevel.ERROR "preprocessDirectiveFailed" "noAdapterForPlayerId";
     EvSendExceptionEncountered "unparsed-1" ExceptionErrorType.INTERNAL_ERROR
       "Unrecogonized PlayerId.";
     EvSetFailed 9%positive "Unrecogonized PlayerId.";
     EvRemoveDirective "msg-1"].
Proof.
  intros info s.
  destruct (unrecognized_playerId_reported true ptr_handleLogout info
              RequestType.LOGOUT s
              [("playerId", Sample.JString "Deezer")] "Deezer") as (Hev & _);
    [discriminate | vm_compute; reflexivity | vm_compute; reflexivity
     | vm_compute; reflexivity | intros _; vm_compute; discriminate | exact Hev].
Defined.


Lemma handlePlay_fields_witness :
  let doc : Sample.Doc :=
    [("playerId", Sample.JString "Spotify");
     ("playbackContextToken", Sample.JString "token");
     ("index", Sample.JInt 3)] in
  let info := Sample.mkDirective "ExternalMediaPlayer" "Play" (Some doc) in
  let s := Sample.viaRegistry FocusState.NONE PlayerActivity.IDLE HaltInitiator.NONE in
  handleDirective false (Some info) s
  = (s,
     [EvSetCompleted 9%positive; EvRemoveDirective "msg-1";
      EvAdapter 5%positive (AdapterCall.handlePlay "token" 3 0)])
  /\ silent (snd (handleDirective true (Some info) s)).
Proof.
  intros doc info s.
  destruct (handlePlay_fields info s doc "Spotify" 5%positive "token")
    as (Hold & _ & Hnew); [vm_compute; reflexivity ..|].
  split; [exact Hold |].
  destruct Hnew as [_ Hsilent]; [left; vm_compute; reflexivity | exact Hsilent].
Defined.

Lemma handleSeek_forwards_position_witness :
  let doc : Sample.Doc :=
    [("playerId", Sample.JString "Spotify");
     ("positionMilliseconds", Sample.JInt (-1))] in
  let info := Sample.mkDirective "Alexa.SeekController" "SetSeekPosition" (Some doc) in
  let s := Sample.viaRegistry FocusState.NONE PlayerActivity.IDLE HaltInitiator.NONE in
  handleDirective true (Some info) s
  = (s,
     [EvSetCompleted 9%positive; EvRemoveDirective "msg-1";
      EvAdapter 5%positive (AdapterCall.handleSeek (-1))]).
Proof.
  intros doc info s.
  pose proof (handleSeek_forwards_position true info s doc "Spotify" 5%positive (-1))
    as Hrun.
  apply Hrun; vm_compute; reflexivity.
Defined.

Lemma handleLogin_fields_witness :
  let doc : Sample.Doc :=
    [("playerId", Sample.JString "Spotify");
     ("accessToken", Sample.JString "secret");
     ("tokenRefreshIntervalInMilliseconds", Sample.JInt 1000);
     ("forceLogin", Sample.JBool true)] in
  let info := Sample.mkDirective "ExternalMediaPlayer" "Login" (Some doc) in
  let s := Sample.viaRegistry FocusState.NONE PlayerActivity.IDLE HaltInitiator.NONE in
  handleDirective true (Some info) s
  = (s,
     [EvSetCompleted 9%positive; EvRemoveDirective "msg-1";
      EvAdapter 5%positive (AdapterCall.handleLogin "secret" "" true 1000)]).
Proof.
  intros doc info s.
  destruct (handleLogin_fields true info s doc "Spotify" 5%positive) as (Hrun & _);
    [vm_compute; reflexivity ..|].
  apply (Hrun "secret" 1000 true); vm_compute; reflexivity.
Defined.

Lemma callback_activity_change_is_published_witness :
  let s := Sample.viaHandlers {[1%positive]} FocusState.NONE
             PlayerActivity.PLAYING HaltInitiator.FOCUS_CHANGE_STOP in
  let q := setPlayerInFocus "Deezer" true s in
  count isNotifyAll (snd q) = 0%nat
  /\ m_currentActivity (fst q) = PlayerActivity.IDLE
  /\ m_haltInitiator (fst q) = HaltInitiator.NONE.
Proof.
  intros s q.
  destruct (callback_activity_change_is_published FocusState.FOREGROUND s)
    as (_ & Hset).
  destruct (Hset "Deezer" true) as (Hquiet & Hreset & _).
  split; [exact Hquiet |]. apply Hreset; reflexivity.
Defined.

Lemma external_pause_is_kept_witness :
  let s := Sample.viaHandlers {[1%positive]} FocusState.FOREGROUND
             PlayerActivity.PLAYING HaltInitiator.EXTERNAL_PAUSE in
  let fs := [FocusState.BACKGROUND; FocusState.FOREGROUND;
             FocusState.BACKGROUND; FocusState.FOREGROUND] in
  m_haltInitiator (fst (focusChanges fs s)) = HaltInitiator.EXTERNAL_PAUSE
  /\ count (isRequest RequestType.RESUME) (snd (focusChanges fs s)) = 0%nat.
Proof.
  intros s fs.
  apply (external_pause_is_kept fs s).
  - repeat constructor; discriminate.
  - reflexivity.
Defined.

Lemma background_then_foreground_witness :
  let s := Sample.viaHandlers {[1%positive]} FocusState.NONE
             PlayerActivity.IDLE HaltInitiator.NONE in
  m_currentActivity
    (fst (focusChanges [FocusState.BACKGROUND; FocusState.FOREGROUND] s))
  = PlayerActivity.PLAYING
  /\ snd (focusChanges [FocusState.BACKGROUND; FocusState.FOREGROUND] s)
     = [EvNotifyAll;
        EvHandler 1%positive
          (HandlerCall.playControlForPlayer "Spotify" RequestType.PAUSE);
        EvNotifyAll;
        EvHandler 1%positive
          (HandlerCall.playControlForPlayer "Spotify" RequestType.RESUME)].
Proof.
  intros s.
  destruct (background_then_foreground s) as (Ha & _ & _ & Hev);
    [discriminate | vm_compute; congruence | vm_compute; reflexivity
     | discriminate |].
  split; [exact Ha | rewrite Hev; vm_compute; reflexivity].
Defined.

Lemma wait_predicate_after_witness :
  let blocked := Sample.viaRegistry FocusState.FOREGROUND
                   PlayerActivity.PLAYING HaltInitiator.NONE in
  let served := Sample.viaHandlers {[1%positive]} FocusState.FOREGROUND
                  PlayerActivity.PLAYING HaltInitiator.NONE in
  predicateNone
    (m_currentActivity (fst (executeOnFocusChanged FocusState.NONE blocked)))
  = false
  /\ predicateNone
       (m_currentActivity (fst (executeOnFocusChanged FocusState.NONE served)))
     = true.
Proof.
  intros blocked served. split.
  - rewrite (wait_predicate_after FocusState.NONE blocked predicateNone eq_refl).
    vm_compute. reflexivity.
  - rewrite (wait_predicate_after FocusState.NONE served predicateNone eq_refl).
    vm_compute. reflexivity.
Defined.

Lemma buttons_set_halt_initiator_witness :
  let s := Sample.viaHandlers {[1%positive]} FocusState.FOREGROUND
             PlayerActivity.PLAYING HaltInitiator.NONE in
  let paused :=
    submit (TaskButtonPressed RequestType.PAUSE)
      (set_haltInitiator HaltInitiator.EXTERNAL_PAUSE s) in
  let resumed :=
    submit (TaskButtonPressed RequestType.RESUME)
      (set_haltInitiator HaltInitiator.NONE s) in
  onButtonPressed true PlaybackButton.PAUSE s = Some (paused, [])
  /\ count (isRequest RequestType.RESUME)
       (snd (runExecutor true
               (focusCallbacks [FocusState.BACKGROUND; FocusState.FOREGROUND] paused)))
     = 0%nat
  /\ onButtonPressed true PlaybackButton.PLAY s = Some (resumed, [])
  /\ m_currentActivity
       (fst (runExecutor true
               (focusCallbacks [FocusState.BACKGROUND; FocusState.FOREGROUND] resumed)))
     = PlayerActivity.PLAYING.
Proof.
  intros s paused resumed.
  destruct (buttons_set_halt_initiator s) as (Hpause & Hquiet & Hplay & Hresume);
    [vm_compute; congruence | vm_compute; reflexivity |].
  split; [exact Hpause |]. split.
  - destruct (Hquiet eq_refl [FocusState.BACKGROUND; FocusState.FOREGROUND])
      as (_ & Hcount & _); [repeat constructor; discriminate | exact Hcount].
  - split; [exact Hplay |].
    destruct (Hresume eq_refl) as (Hactivity & _);
      [discriminate | exact Hactivity].
Defined.

Lemma queued_control_goes_to_current_player_witness :
  let s := Sample.viaHandlers {[1%positive]} FocusState.FOREGROUND
             PlayerActivity.PLAYING HaltInitiator.NONE in
  let leaving := fst (removeAdapterHandler (Some 1%positive) s) in
  (exists s1,
     onButtonPressed true PlaybackButton.NEXT s = Some (s1, [])
     /\ snd (runExecutor true (fst (setPlayerInFocus "Deezer" true s1)))
        = [EvHandler 1%positive
             (HandlerCall.playControlForPlayer "Deezer" RequestType.NEXT)])
  /\ (exists s1,
        onButtonPressed true PlaybackButton.NEXT leaving = Some (s1, [])
        /\ snd (runExecutor true (fst (setPlayerInFocus "Deezer" true s1))) = []).
Proof.
  intros s leaving. split.
  - destruct (queued_control_goes_to_current_player PlaybackButton.NEXT s "Deezer")
      as (request & Hkey & Hpress & _ & Hrun);
      [vm_compute; congruence | vm_compute; reflexivity |].
    injection Hkey as <-.
    eexists. split; [exact Hpress |].
    rewrite (Hrun eq_refl). vm_compute. reflexivity.
  - destruct (queued_control_goes_to_current_player PlaybackButton.NEXT leaving
                "Deezer")
      as (request & Hkey & Hpress & Hrun & _);
      [vm_compute; congruence | vm_compute; reflexivity |].
    injection Hkey as <-.
    eexists. split; [exact Hpress |].
    rewrite Hrun. vm_compute. reflexivity.
Defined.

Lemma toggle_leaves_agent_witness :
  let s := Sample.viaRegistry FocusState.FOREGROUND
             PlayerActivity.PLAYING HaltInitiator.NONE in
  let viaHandlers := Sample.viaHandlers {[1%positive]} FocusState.FOREGROUND
                       PlayerActivity.PLAYING HaltInitiator.NONE in
  (exists toggleStates,
     findKey PlaybackToggle.THUMBS_UP g_toggleToRequestType = Some toggleStates
     /\ fst toggleStates <> snd toggleStates
     /\ onTogglePressed true PlaybackToggle.THUMBS_UP false s
        = Some (s,
                [EvAdapter 5%positive
                   (AdapterCall.handlePlayControl
                      (if false then fst toggleStates else snd toggleStates))]))
  /\ (exists toggleStates,
        findKey PlaybackToggle.THUMBS_UP g_toggleToRequestType = Some toggleStates
        /\ onTogglePressed true PlaybackToggle.THUMBS_UP false viaHandlers
           = Some (submit (TaskTogglePressed false toggleStates) viaHandlers, [])
        /\ runExecutor true (submit (TaskTogglePressed false toggleStates) viaHandlers)
           = (viaHandlers,
              forEachHandler viaHandlers
                (HandlerCall.playControlForPlayer (m_playerInFocus viaHandlers)
                   (if false then fst toggleStates else snd toggleStates)))).
Proof.
  intros s viaHandlers. split.
  - destruct (toggle_leaves_agent true PlaybackToggle.THUMBS_UP false s)
      as (_ & Hcall & _).
    apply (Hcall 5%positive); [vm_compute; congruence | vm_compute; reflexivity].
  - destruct (toggle_leaves_agent true PlaybackToggle.THUMBS_UP false viaHandlers)
      as (_ & _ & Hqueue).
    apply Hqueue; [vm_compute; congruence | vm_compute; reflexivity | reflexivity].
Defined.

Lemma button_on_registry_player_witness :
  let s := Sample.viaRegistry FocusState.FOREGROUND
             PlayerActivity.PLAYING HaltInitiator.NONE in
  onButtonPressed false PlaybackButton.PAUSE s
  = Some (s,
          [EvAdapter 5%positive
             (AdapterCall.handlePlayControl RequestType.PAUSE_RESUME_TOGGLE)])
  /\ onButtonPressed true PlaybackButton.PAUSE Sample.fresh
     = Some (Sample.fresh, []).
Proof.
  intros s. split.
  - destruct (button_on_registry_player false PlaybackButton.PAUSE
                PlaybackToggle.LOOP true s) as (_ & Hcall).
    apply (Hcall 5%positive); [vm_compute; congruence | vm_compute; reflexivity].
  - destruct (button_on_registry_player true PlaybackButton.PAUSE
                PlaybackToggle.LOOP true Sample.fresh) as (Hnone & _).
    destruct Hnone as (Hbutton & _); [reflexivity | exact Hbutton].
Defined.

Lemma notifyObservers_once_witness :
  let s := set_observers {[3%positive; 4%positive]} Sample.fresh in
  count (isCallOn 3%positive)
    (notifyObservers "Spotify" (Some (true, "user")) None s) = 1%nat
  /\ notifyObservers "" (Some (true, "user")) None s
     = [EvLog LogLevel.ERROR "notifyObserversFailed" "emptyPlayerId"]
  /\ fst (addObserver (Some 3%positive) s) = s.
Proof.
  intros s.
  destruct (notifyObservers_once 3%positive "Spotify" (Some (true, "user")) None s)
    as (Hcount & _ & Hadd).
  destruct (notifyObservers_once 3%positive "" (Some (true, "user")) None s)
    as (_ & Hempty & _).
  split; [rewrite Hcount; vm_compute; reflexivity |].
  split; [apply Hempty; reflexivity |].
  apply Hadd. vm_compute. reflexivity.
Defined.

Lemma executeProvideState_sets_state_once_witness :
  exists state ev0,
    count isSetState ev0 = 0%nat
    /\ @executeProvideState Broken.externals true SESSION_STATE true 7%nat Broken.fresh
       = ev0
         ++ [EvSetState SESSION_STATE state (Some 7%nat);
             EvLog LogLevel.ERROR "executeProvideState"
               "contextManagerSetStateFailedForEMPState"].
Proof.
  destruct (@executeProvideState_sets_state_once Broken.externals true
              SESSION_STATE true 7%nat Broken.fresh)
    as (_ & _ & _ & Hlast & _).
  exact (Hlast (or_introl eq_refl)).
Defined.

Lemma failed_snapshot_is_set_empty_witness :
  @executeProvideState Broken.externals true PLAYBACK_STATE true 7%nat Broken.fresh
  = [EvSetState PLAYBACK_STATE "" (Some 7%nat);
     EvLog LogLevel.ERROR "executeProvideState"
       "contextManagerSetStateFailedForEMPState"]
  /\ @executeProvideState Broken.externals true SESSION_STATE true 7%nat Broken.fresh
     = [EvLog LogLevel.ERROR "provideSessionStateFailed" "writerRefusedJsonObject";
        EvSetState SESSION_STATE "" (Some 7%nat);
        EvLog LogLevel.ERROR "executeProvideState"
          "contextManagerSetStateFailedForEMPState"].
Proof.
  destruct (@failed_snapshot_is_set_empty Broken.externals true true 7%nat Broken.fresh)
    as (Hplayback & Hsession & _).
  split.
  - apply Hplayback. reflexivity.
  - rewrite Hsession by reflexivity. vm_compute. reflexivity.
Defined.
